(** * Market-data aggregation core of [bot.py]

    A shallow embedding of the TTL cache, the two source fetchers and the
    snapshot composer of [bot.py], followed by the properties checked
    against it.

    Modelling decisions, in one place:
    - Python values are the inductive type [pyval]; [None] is a value,
      so a function that returns [None] returns [PNone].
    - Python floats are IEEE 754 values described by [spec_float]
      (zeros, infinities, NaN and finite numbers).
    - [time.time()] readings are integers (abstract time units).
    - The module-level dict [_cache] is a [gmap string (pyval * Z)].
    - Code that reads the clock, talks to the network, prints or raises
      runs in the monad [M]: a state transformer over [world] whose
      result is either a value or a raised exception.
    - Everything outside the program (the clock, the remote servers, the
      JSON decoder, the HTML-to-text extraction, [float] on strings, the
      message an exception carries) is an oracle collected in the record
      [env].
    - A [str] that the code only passes around, compares, concatenates or
      prints is a [string] holding its UTF-8 bytes.  The page text, which
      the patterns read character by character, is a list of code points:
      [\d] is the Unicode category Nd, [int] reads the decimal value of
      each digit, and [re.IGNORECASE] matches a letter of the pattern
      against every character the [re] module takes for a case of it.
      The digit table is that of Unicode 14.0, the one CPython 3.11
      carries. *)

From Stdlib Require Import ZArith String Ascii List Bool.
From Stdlib Require Import Floats.SpecFloat.
From stdpp Require Import gmap strings list fin_maps.

Set Warnings "-register-all".

Open Scope string_scope.
Open Scope Z_scope.

(** ** Python values *)

Inductive pyval : Type :=
| PNone
| PBool (b : bool)
| PInt (z : Z)
| PFloat (f : spec_float)
| PStr (s : string)
| PTuple (items : list pyval)
| PList (items : list pyval)
| PDict (entries : list (string * pyval)).

(** Exceptions the modelled code can meet; all derive from [Exception]. *)
Inductive exn : Type :=
| ConnectionError
| Timeout
| HTTPError
| JSONDecodeError
| KeyError
| TypeError
| ValueError
| OverflowError
| ParserError.

(** ** Floats *)

Definition float_zero : spec_float := S754_zero false.
Definition float_one : spec_float := S754_finite false 4503599627370496 (-52).

(** [x > 0] for a float [x] and the integer literal [0]. *)
Definition float_gt_zero (x : spec_float) : bool := SFltb float_zero x.

(** [x <= 0]: false on NaN, as every ordered comparison is. *)
Definition float_le_zero (x : spec_float) : bool := SFleb x float_zero.

(** [float(n)] for an integer [n]: round to nearest even in binary64,
    [OverflowError] when the result does not fit. *)
Definition float_of_int (n : Z) : option spec_float :=
  match binary_normalize 53 1024 n 0 false with
  | S754_infinity _ => None
  | f => Some f
  end.

(** Truth value of an object, as tested by [if x:] and [not x]. *)
Definition truthy (v : pyval) : bool :=
  match v with
  | PNone => false
  | PBool b => b
  | PInt z => negb (z =? 0)
  | PFloat f => negb (SFeqb f float_zero)
  | PStr s => negb (String.eqb s "")
  | PTuple items | PList items => negb (Nat.eqb (List.length items) 0)
  | PDict entries => negb (Nat.eqb (List.length entries) 0)
  end.

(** ** The world and the environment *)

Record request : Type := mkRequest {
  req_url : string;
  req_headers : option (list (string * string));
  req_timeout : Z
}.

Inductive reply : Type :=
| Failed (e : exn)
| Response (status_code : Z) (text : string).

Record world : Type := mkWorld {
  cache : gmap string (pyval * Z);
  ticks : nat;
  sent : list request;
  stdout : list string
}.

(** [exn_str n e] is [str(e)] for the exception [e] caught when [n] lines
    had been printed: [exn] keeps the class of an exception only, the
    message it carries was chosen by whoever raised it. *)
Record env : Type := mkEnv {
  time_time : nat -> Z;
  http_get : nat -> request -> reply;
  json_loads : string -> option pyval;
  soup_get_text : string -> option (list N);
  float_of_str : string -> option spec_float;
  now_strftime : nat -> string -> string;
  exn_str : nat -> exn -> string
}.

Definition startup : world :=
  {| cache := ∅; ticks := 0; sent := []; stdout := [] |}.

(** The four ways the program changes the world. *)
Definition tick (w : world) : world :=
  {| cache := cache w; ticks := S (ticks w);
     sent := sent w; stdout := stdout w |}.

Definition send (r : request) (w : world) : world :=
  {| cache := cache w; ticks := ticks w;
     sent := sent w ++ [r]; stdout := stdout w |}.

Definition emit (line : string) (w : world) : world :=
  {| cache := cache w; ticks := ticks w;
     sent := sent w; stdout := stdout w ++ [line] |}.

Definition store (key : string) (entry : pyval * Z) (w : world) : world :=
  {| cache := <[key := entry]> (cache w); ticks := ticks w;
     sent := sent w; stdout := stdout w |}.

(** ** The monad of effectful code *)

Inductive outcome (A : Type) : Type :=
| Ok (a : A)
| Raised (e : exn).
Arguments Ok {A} a.
Arguments Raised {A} e.

Definition M (A : Type) : Type := world -> outcome A * world.

Definition ret {A} (a : A) : M A := fun w => (Ok a, w).

Definition bind {A B} (m : M A) (k : A -> M B) : M B :=
  fun w =>
    match m w with
    | (Ok a, w') => k a w'
    | (Raised e, w') => (Raised e, w')
    end.

Definition raise {A} (e : exn) : M A := fun w => (Raised e, w).

(** [try: body  except Exception as e: handler e]; what [body] did to the
    world before raising stays done. *)
Definition try_except {A} (body : M A) (handler : exn -> M A) : M A :=
  fun w =>
    match body w with
    | (Ok a, w') => (Ok a, w')
    | (Raised e, w') => handler e w'
    end.

Declare Scope py_scope.
Delimit Scope py_scope with py.
Notation "x <- m ;; k" := (bind m (fun x => k))
  (at level 100, m at next level, right associativity) : py_scope.
Notation "m ;;; k" := (bind m (fun _ => k))
  (at level 100, right associativity) : py_scope.
Open Scope py_scope.

(** Operations that neither read nor change the world compute an
    [outcome]; [lift] runs them inside [M]. *)
Definition lift {A} (o : outcome A) : M A := fun w => (o, w).

Definition of_option {A} (e : exn) (o : option A) : outcome A :=
  match o with
  | Some a => Ok a
  | None => Raised e
  end.

(** ** Primitive effects *)

Section Core.

Variable E : env.

(** [time.time()] *)
Definition py_time : M Z :=
  fun w => (Ok (time_time E (ticks w)), tick w).

(** [datetime.now().strftime(fmt)] *)
Definition py_now_strftime (fmt : string) : M string :=
  fun w => (Ok (now_strftime E (ticks w) fmt), tick w).

(** [print(line)] *)
Definition py_print (line : string) : M unit :=
  fun w => (Ok tt, emit line w).

(** [str(e)], which is what [{e}] puts into an f-string. *)
Definition str_exn (e : exn) : M string :=
  fun w => (Ok (exn_str E (List.length (stdout w)) e), w).

(** [requests.get(url, headers=..., timeout=...)]: the request leaves the
    process, then the library either raises or hands back a response. *)
Definition requests_get (r : request) : M (Z * string) :=
  fun w =>
    match http_get E (List.length (sent w)) r with
    | Failed e => (Raised e, send r w)
    | Response code body => (Ok (code, body), send r w)
    end.

(** [response.raise_for_status()] *)
Definition raise_for_status (response : Z * string) : outcome unit :=
  let code := fst response in
  if (400 <=? code) && (code <? 600) then Raised HTTPError else Ok tt.

(** [response.json()] *)
Definition response_json (response : Z * string) : outcome pyval :=
  of_option JSONDecodeError (json_loads E (snd response)).

(** ** Configuration *)

Definition USER_AGENT : string :=
  "Mozilla/5.0 (Windows NT 10.0; Win64; x64) " +:+
  "AppleWebKit/537.36 (KHTML, like Gecko) " +:+
  "Chrome/120.0.0.0 Safari/537.36".

Definition REQUEST_TIMEOUT : Z := 15.

Definition CACHE_TTL : Z := 60.

(** ** The cache *)

Definition get_cached (key : string) : M pyval :=
  fun w =>
    match cache w !! key with
    | Some (value, timestamp) =>
        (now <- py_time ;;
         if now - timestamp <? CACHE_TTL then ret value else ret PNone) w
    | None => ret PNone w
    end.

Definition set_cached (key : string) (value : pyval) : M unit :=
  now <- py_time ;;
  fun w => (Ok tt, store key (value, now) w).

(** ** Operations on Python values *)

Fixpoint is_substring (needle hay : string) : bool :=
  String.prefix needle hay ||
  match hay with
  | EmptyString => false
  | String _ rest => is_substring needle rest
  end.

Definition is_str (key : string) (v : pyval) : bool :=
  match v with
  | PStr s => String.eqb s key
  | _ => false
  end.

(** The entries of a [PDict] hold one pair per key. *)
Fixpoint dict_get (key : string) (entries : list (string * pyval)) : option pyval :=
  match entries with
  | [] => None
  | (k, v) :: rest => if String.eqb k key then Some v else dict_get key rest
  end.

(** [key in container] for a string [key]. *)
Definition py_contains (key : string) (container : pyval) : outcome bool :=
  match container with
  | PDict entries => Ok (bool_decide (is_Some (dict_get key entries)))
  | PList items | PTuple items => Ok (existsb (is_str key) items)
  | PStr s => Ok (is_substring key s)
  | PNone | PBool _ | PInt _ | PFloat _ => Raised TypeError
  end.

(** [container[key]] for a string [key]. *)
Definition py_getitem (container : pyval) (key : string) : outcome pyval :=
  match container with
  | PDict entries => of_option KeyError (dict_get key entries)
  | _ => Raised TypeError
  end.

(** [float(v)] *)
Definition py_float (v : pyval) : outcome spec_float :=
  match v with
  | PFloat f => Ok f
  | PInt n => of_option OverflowError (float_of_int n)
  | PBool b => Ok (if b then float_one else float_zero)
  | PStr s => of_option ValueError (float_of_str E s)
  | PNone | PTuple _ | PList _ | PDict _ => Raised TypeError
  end.

(** The characters of a string: in UTF-8 a byte [10xxxxxx] continues the
    character begun before it.  [split_chars] gives the bytes that
    continue a character begun before [s], and the characters after
    them. *)
Definition continuation (c : ascii) : bool :=
  let n := nat_of_ascii c in (128 <=? n)%nat && (n <? 192)%nat.

Fixpoint split_chars (s : string) : string * list string :=
  match s with
  | EmptyString => (EmptyString, [])
  | String c s' =>
      let (tail, rest) := split_chars s' in
      if continuation c then (String c tail, rest)
      else (EmptyString, String c tail :: rest)
  end.

Definition chars (s : string) : list pyval :=
  let (tail, rest) := split_chars s in
  map PStr (match tail with EmptyString => rest | _ => tail :: rest end).

(** [a, b = v] *)
Definition unpack2 (v : pyval) : outcome (pyval * pyval) :=
  let two (items : list pyval) : outcome (pyval * pyval) :=
    match items with
    | [a; b] => Ok (a, b)
    | _ => Raised ValueError
    end in
  match v with
  | PTuple items | PList items => two items
  | PStr s => two (chars s)
  | PDict entries => two (map (fun kv => PStr (fst kv)) entries)
  | PNone | PBool _ | PInt _ | PFloat _ => Raised TypeError
  end.

End Core.

(** ** Pattern matching on the page text *)

(** The code points of a text written in ASCII. *)
Definition codes (s : string) : list N :=
  map N_of_ascii (list_ascii_of_string s).

(** The characters of category Nd come in runs of ten, the digits 0 to 9
    in order; these are the zeros. *)
Definition decimal_zeros : list N :=
  [     0x30; 0x660; 0x6f0; 0x7c0; 0x966; 0x9e6;
    0xa66; 0xae6; 0xb66; 0xbe6; 0xc66; 0xce6;
    0xd66; 0xde6; 0xe50; 0xed0; 0xf20; 0x1040;
    0x1090; 0x17e0; 0x1810; 0x1946; 0x19d0; 0x1a80;
    0x1a90; 0x1b50; 0x1bb0; 0x1c40; 0x1c50; 0xa620;
    0xa8d0; 0xa900; 0xa9d0; 0xa9f0; 0xaa50; 0xabf0;
    0xff10; 0x104a0; 0x10d30; 0x11066; 0x110f0; 0x11136;
    0x111d0; 0x112f0; 0x11450; 0x114d0; 0x11650; 0x116c0;
    0x11730; 0x118e0; 0x11950; 0x11c50; 0x11d50; 0x11da0;
    0x16a60; 0x16ac0; 0x16b50; 0x1d7ce; 0x1d7d8; 0x1d7e2;
    0x1d7ec; 0x1d7f6; 0x1e140; 0x1e2f0; 0x1e950; 0x1fbf0 ]%N.

(** [unicodedata.decimal(c)], where there is one. *)
Fixpoint decimal_in (zeros : list N) (c : N) : option Z :=
  match zeros with
  | [] => None
  | zero :: rest =>
      if ((zero <=? c) && (c <? zero + 10))%N
      then Some (Z.of_N (c - zero))
      else decimal_in rest c
  end.

Definition digit_value (c : N) : option Z := decimal_in decimal_zeros c.

(** [\d] *)
Definition is_digit (c : N) : bool :=
  match digit_value c with
  | Some _ => true
  | None => false
  end.

(** Lowercase of an ASCII letter; other code points as they are. *)
Definition lower (c : N) : N :=
  if ((65 <=? c) && (c <=? 90))%N then (c + 32)%N else c.

(** The characters outside ASCII that [re.IGNORECASE] takes for a case of
    the lowercase ASCII letter [lo]: dotted capital I and dotless i for
    [i], the Kelvin sign for [k], long s for [s]. *)
Definition other_cases (lo : N) : list N :=
  if (lo =? 105)%N then [0x130; 0x131]%N
  else if (lo =? 107)%N then [0x212A]%N
  else if (lo =? 115)%N then [0x17F]%N
  else [].

(** The character [c] matches the ASCII character [p] of a pattern
    compiled with [re.IGNORECASE]. *)
Definition same_letter (p : ascii) (c : N) : bool :=
  let lo := lower (N_of_ascii p) in
  (lower c =? lo)%N || existsb (N.eqb c) (other_cases lo).

(** The literal part of a pattern under [re.IGNORECASE]: on success the
    rest of the subject after the literal. *)
Fixpoint strip_literal (lit : string) (subject : list N) : option (list N) :=
  match lit with
  | EmptyString => Some subject
  | String p lit' =>
      match subject with
      | [] => None
      | c :: subject' =>
          if same_letter p c then strip_literal lit' subject' else None
      end
  end.

(** [[^\d]*]: the longest run of non-digits is consumed. *)
Fixpoint skip_non_digits (subject : list N) : list N :=
  match subject with
  | [] => []
  | c :: subject' =>
      if is_digit c then subject else skip_non_digits subject'
  end.

(** [\d{1,n}], greedy. *)
Fixpoint take_digits (n : nat) (subject : list N) : list N :=
  match n, subject with
  | S n', c :: subject' =>
      if is_digit c then c :: take_digits n' subject' else []
  | _, _ => []
  end.

(** A match of [lit[^\d]*(\d{1,3})] anchored at the start of [subject];
    the result is group 1.  Giving back part of the non-digit run cannot
    help: the character given back is not a digit. *)
Definition match_here (lit : string) (subject : list N) : option (list N) :=
  match strip_literal lit subject with
  | None => None
  | Some rest =>
      match take_digits 3 (skip_non_digits rest) with
      | [] => None
      | group1 => Some group1
      end
  end.

(** [re.search(lit + r"[^\d]*(\d{1,3})", subject, re.IGNORECASE)]: the
    leftmost start position that matches; the result is group 1. *)
Fixpoint re_search (lit : string) (subject : list N) : option (list N) :=
  match match_here lit subject with
  | Some group1 => Some group1
  | None =>
      match subject with
      | [] => None
      | _ :: subject' => re_search lit subject'
      end
  end.

(** [int(s)] on a string of decimal digits of any script; anything else
    is a [ValueError] here. *)
Fixpoint int_digits (acc : Z) (s : list N) : option Z :=
  match s with
  | [] => Some acc
  | c :: s' =>
      match digit_value c with
      | Some d => int_digits (acc * 10 + d) s'
      | None => None
      end
  end.

Definition py_int (s : list N) : option Z :=
  match s with
  | [] => None
  | _ => int_digits 0 s
  end.

(** The label chosen by the [if]/[elif] chain of [fetch_fear_greed]. *)
Definition threshold_label (value : Z) : string :=
  if value <=? 25 then "Extreme Fear"
  else if value <=? 45 then "Fear"
  else if value <=? 55 then "Neutral"
  else if value <=? 75 then "Greed"
  else "Extreme Greed".

(** The two searches of [fetch_fear_greed], in the order of the code. *)
Definition find_match (text : list N) : option (list N) :=
  match re_search "Now" text with
  | Some m => Some m
  | None => re_search "Index" text
  end.

(** ** Fetchers and composer *)

Section Fetchers.

Variable E : env.

Definition html_headers : list (string * string) :=
  [ ("User-Agent", USER_AGENT);
    ("Accept", "text/html,application/xhtml+xml,application/xml;q=0.9,*/*;q=0.8");
    ("Accept-Language", "en-US,en;q=0.9");
    ("Accept-Encoding", "gzip, deflate");
    ("Connection", "keep-alive") ].

Definition html_request (url : string) : request :=
  {| req_url := url; req_headers := Some html_headers;
     req_timeout := REQUEST_TIMEOUT |}.

(** The result is the page as a [PStr], or [PNone]. *)
Definition fetch_html (url : string) : M pyval :=
  try_except
    (response <- requests_get E (html_request url) ;;
     lift (raise_for_status response) ;;;
     ret (PStr (snd response)))
    (fun e =>
       msg <- str_exn E e ;;
       py_print ("[ERROR] " +:+ url +:+ ": " +:+ msg) ;;;
       ret PNone).

Definition ticker_url : string := "https://blockchain.info/ticker".

Definition ticker_request : request :=
  {| req_url := ticker_url; req_headers := None;
     req_timeout := REQUEST_TIMEOUT |}.

(** The body of the [try] of [fetch_btc_price]: [Some v] when it executes
    [return v], [None] when control falls out of it. *)
Definition fetch_btc_price_try : M (option pyval) :=
  response <- requests_get E ticker_request ;;
  lift (raise_for_status response) ;;;
  data <- lift (response_json E response) ;;
  has_usd <- lift (py_contains "USD" data) ;;
  has_last <- (if has_usd : bool
               then usd <- lift (py_getitem data "USD") ;;
                    lift (py_contains "last" usd)
               else ret false) ;;
  if has_last : bool then
    usd <- lift (py_getitem data "USD") ;;
    last <- lift (py_getitem usd "last") ;;
    price <- lift (py_float E last) ;;
    if float_gt_zero price then
      set_cached E "btc_price" (PFloat price) ;;;
      ret (Some (PFloat price))
    else ret None
  else ret None.

Definition fetch_btc_price : M pyval :=
  cached <- get_cached E "btc_price" ;;
  if truthy cached then ret cached
  else
    returned <- try_except fetch_btc_price_try
      (fun e =>
         msg <- str_exn E e ;;
         py_print ("[ERROR] Blockchain API error: " +:+ msg) ;;;
         ret None) ;;
    match returned with
    | Some v => ret v
    | None => ret PNone
    end.

Definition index_url : string :=
  "https://alternative.me/crypto/fear-and-greed-index/".

Definition none_none : pyval := PTuple [PNone; PNone].

(** [BeautifulSoup(html, "lxml").get_text()] *)
Definition soup_text (html : pyval) : outcome (list N) :=
  match html with
  | PStr s => of_option ParserError (soup_get_text E s)
  | _ => Raised TypeError
  end.

(** The body of the [try] of [fetch_fear_greed]; every path through it
    ends in a [return]. *)
Definition fetch_fear_greed_try (html : pyval) : M pyval :=
  text <- lift (soup_text html) ;;
  match find_match text with
  | Some group1 =>
      value <- lift (of_option ValueError (py_int group1)) ;;
      if (0 <=? value) && (value <=? 100) then
        let label := threshold_label value in
        let result := PTuple [PInt value; PStr label] in
        set_cached E "fear_greed" result ;;;
        ret result
      else ret none_none
  | None => ret none_none
  end.

Definition fetch_fear_greed : M pyval :=
  cached <- get_cached E "fear_greed" ;;
  if truthy cached then ret cached
  else
    html <- fetch_html index_url ;;
    if negb (truthy html) then ret none_none
    else
      try_except (fetch_fear_greed_try html)
        (fun e =>
           msg <- str_exn E e ;;
           py_print ("[ERROR] Fear&Greed parse: " +:+ msg) ;;;
           ret none_none).

Definition get_market_snapshot : M (gmap string pyval) :=
  btc_price <- fetch_btc_price ;;
  pair <- fetch_fear_greed ;;
  fv_fl <- lift (unpack2 pair) ;;
  stamp <- py_now_strftime E "%Y-%m-%d %H:%M:%S" ;;
  ret (<["timestamp" := PStr stamp]>
       (<["fear_label" := snd fv_fl]>
       (<["fear_value" := fst fv_fl]>
       (<["btc_price" := btc_price]> ∅)))).

End Fetchers.

(** ** Vocabulary of the properties *)

Definition five_labels : list string :=
  ["Extreme Fear"; "Fear"; "Neutral"; "Greed"; "Extreme Greed"].

Fixpoint all_chars (p : N -> bool) (s : list N) : bool :=
  match s with
  | [] => true
  | c :: s' => p c && all_chars p s'
  end.

Definition non_digit (c : N) : bool := negb (is_digit c).

(** [token] is [lit] in some letter case: character by character, what
    [re.IGNORECASE] lets the pattern [lit] match. *)
Fixpoint spells (lit : string) (token : list N) : bool :=
  match lit, token with
  | EmptyString, [] => true
  | String p lit', c :: token' => same_letter p c && spells lit' token'
  | _, _ => false
  end.

(** [text] holds, after [before], the token [lit] in some letter case,
    then non-digits only, then the digits [group1]. *)
Definition follows_token (lit : string) (text before group1 : list N) : Prop :=
  exists token gap after,
    text = (before ++ token ++ gap ++ group1 ++ after)%list /\
    spells lit token = true /\
    all_chars non_digit gap = true.

(** The integer the sentiment fetcher reads off a page text. *)
Definition extracted_value (text : list N) : option Z :=
  match find_match text with
  | Some group1 => py_int group1
  | None => None
  end.

Section Vocabulary.

Variable E : env.

(** The value [get_cached] hands to the caller. *)
Definition cached_value (key : string) (w : world) : pyval :=
  match fst (get_cached E key w) with
  | Ok v => v
  | Raised _ => PNone
  end.

(** The test [if cached:] of the fetchers. *)
Definition cache_hit (key : string) (w : world) : bool :=
  truthy (cached_value key w).

(** An entry is stored under [key] and the clock, read now, is less than
    [CACHE_TTL] past its timestamp. *)
Definition present_and_fresh (key : string) (w : world) : Prop :=
  exists value timestamp,
    cache w !! key = Some (value, timestamp) /\
    time_time E (ticks w) - timestamp < CACHE_TTL.

(** The ticker's reply carries the number [price] under ["USD"]["last"]:
    the request succeeded, the status is no error, the body decodes, both
    keys are there and [float] accepts the field. *)
Definition ticker_delivers (r : reply) (price : spec_float) : Prop :=
  exists code body data usd last,
    r = Response code body /\
    raise_for_status (code, body) = Ok tt /\
    response_json E (code, body) = Ok data /\
    py_getitem data "USD" = Ok usd /\
    py_getitem usd "last" = Ok last /\
    py_float E last = Ok price.

(** The index page's reply carries the plain text [text]: the request
    succeeded, the status is no error, the body is not empty and the
    text extraction works. *)
Definition page_delivers (r : reply) (text : list N) : Prop :=
  exists code body,
    r = Response code body /\
    raise_for_status (code, body) = Ok tt /\
    body <> EmptyString /\
    soup_get_text E body = Some text.

(** The reply the next request [r] will get in world [w]. *)
Definition next_reply (r : request) (w : world) : reply :=
  http_get E (List.length (sent w)) r.

(** Ways the ticker can fail to produce a price. *)
Inductive ticker_fails : reply -> Prop :=
| ticker_transport e :
    ticker_fails (Failed e)
| ticker_status code body :
    400 <= code < 600 ->
    ticker_fails (Response code body)
| ticker_malformed code body :
    json_loads E body = None ->
    ticker_fails (Response code body)
| ticker_no_usd code body data e :
    json_loads E body = Some data ->
    py_getitem data "USD" = Raised e ->
    ticker_fails (Response code body)
| ticker_no_last code body data usd e :
    json_loads E body = Some data ->
    py_getitem data "USD" = Ok usd ->
    py_getitem usd "last" = Raised e ->
    ticker_fails (Response code body)
| ticker_not_a_number code body data usd last e :
    json_loads E body = Some data ->
    py_getitem data "USD" = Ok usd ->
    py_getitem usd "last" = Ok last ->
    py_float E last = Raised e ->
    ticker_fails (Response code body)
| ticker_not_positive code body data usd last price :
    json_loads E body = Some data ->
    py_getitem data "USD" = Ok usd ->
    py_getitem usd "last" = Ok last ->
    py_float E last = Ok price ->
    float_gt_zero price = false ->
    ticker_fails (Response code body).

(** Ways the index page can fail to produce a reading. *)
Inductive page_fails : reply -> Prop :=
| page_transport e :
    page_fails (Failed e)
| page_status code body :
    400 <= code < 600 ->
    page_fails (Response code body)
| page_empty code :
    page_fails (Response code EmptyString)
| page_unparsed code body :
    soup_get_text E body = None ->
    page_fails (Response code body)
| page_no_match code body text :
    soup_get_text E body = Some text ->
    find_match text = None ->
    page_fails (Response code body)
| page_out_of_range code body text v :
    soup_get_text E body = Some text ->
    extracted_value text = Some v ->
    ~ 0 <= v <= 100 ->
    page_fails (Response code body).

(** States the process can be in: it starts with an empty cache and
    from then on only runs the operations of the core. *)
Inductive reachable : world -> Prop :=
| reach_startup :
    reachable startup
| reach_get_cached key w :
    reachable w -> reachable (snd (get_cached E key w))
| reach_fetch_html url w :
    reachable w -> reachable (snd (fetch_html E url w))
| reach_fetch_btc_price w :
    reachable w -> reachable (snd (fetch_btc_price E w))
| reach_fetch_fear_greed w :
    reachable w -> reachable (snd (fetch_fear_greed E w))
| reach_get_market_snapshot w :
    reachable w -> reachable (snd (get_market_snapshot E w)).

End Vocabulary.

(** What the cache may hold under its two keys. *)
Definition price_entry (v : pyval) : Prop :=
  exists f, v = PFloat f /\ float_gt_zero f = true.

Definition sentiment_entry (v : pyval) : Prop :=
  exists n, v = PTuple [PInt n; PStr (threshold_label n)] /\ 0 <= n <= 100.

Definition cache_inv (c : gmap string (pyval * Z)) : Prop :=
  (forall v t, c !! "btc_price" = Some (v, t) -> price_entry v) /\
  (forall v t, c !! "fear_greed" = Some (v, t) -> sentiment_entry v).

(** A request that identifies itself like a browser. *)
Definition browser_like (r : request) : Prop :=
  exists headers agent,
    req_headers r = Some headers /\ ("User-Agent", agent) ∈ headers.

(** The requests sent between world [w] and the later world [after]. *)
Definition issued (w after : world) : list request :=
  drop (List.length (sent w)) (sent after).

(** Two snapshots agree on everything but the capture time. *)
Definition same_fields (s1 s2 : gmap string pyval) : Prop :=
  s1 !! "btc_price" = s2 !! "btc_price" /\
  s1 !! "fear_value" = s2 !! "fear_value" /\
  s1 !! "fear_label" = s2 !! "fear_label".

(** No two clock readings taken from world [w] up to world [after] are
    [CACHE_TTL] or more apart. *)
Definition within_ttl (E : env) (w after : world) : Prop :=
  forall i j : nat,
    (ticks w <= i)%nat -> (i <= j)%nat -> (j <= ticks after)%nat ->
    time_time E j - time_time E i < CACHE_TTL.

(** ** Sample environments

    Concrete servers and clocks on which the properties are run. *)

(** 67890.12 and -1.0 as binary64 numbers. *)
Definition sample_price : spec_float :=
  S754_finite false 4665373521944248 (-36).

Definition minus_one : spec_float :=
  S754_finite true 4503599627370496 (-52).

Definition ticker_body (last : pyval) : pyval :=
  PDict [("USD", PDict [("15m", last); ("last", last); ("symbol", PStr "$")])].

(** Messages of the kind the libraries put into their exceptions. *)
Definition sample_message (e : exn) : string :=
  match e with
  | ConnectionError => "HTTPSConnectionPool(host='blockchain.info', port=443): Max retries exceeded"
  | Timeout => "HTTPSConnectionPool(host='blockchain.info', port=443): Read timed out. (read timeout=15)"
  | HTTPError => "503 Server Error: Service Unavailable for url: https://blockchain.info/ticker"
  | JSONDecodeError => "Expecting value: line 1 column 1 (char 0)"
  | KeyError => "'USD'"
  | TypeError => "'NoneType' object is not subscriptable"
  | ValueError => "could not convert string to float: 'n/a'"
  | OverflowError => "int too large to convert to float"
  | ParserError => "Document is empty"
  end.

(** A world outside the program: [ticker n] and [page n] answer the
    request sent as the [n]-th one, according to its URL; every body
    decodes to [data] and every page reads as [text]. *)
Definition sample_env (clock : nat -> Z) (ticker page : nat -> reply)
    (data : pyval) (text : list N) : env :=
  {| time_time := clock;
     http_get := fun n r =>
       if String.eqb (req_url r) ticker_url then ticker n else page n;
     json_loads := fun _ => Some data;
     soup_get_text := fun _ => Some text;
     float_of_str := fun _ => None;
     now_strftime := fun _ _ => "2024-05-01 12:00:00";
     exn_str := fun _ e => sample_message e |}.

Definition ok_reply (n : nat) : reply := Response 200 "(body)".

(** Both sources answer; the clock advances one unit per reading. *)
Definition calm_env : env :=
  sample_env Z.of_nat ok_reply ok_reply (ticker_body (PFloat sample_price))
    (codes "Crypto Fear & Greed Index  Now 38 (Fear)  Yesterday 40").

(** The ticker reports a price of -1. *)
Definition negative_env : env :=
  sample_env Z.of_nat ok_reply ok_reply (ticker_body (PFloat minus_one))
    (codes "Now 38").

(** The page shows 150 after "Now" and 10 after "Index". *)
Definition overflow_env : env :=
  sample_env Z.of_nat ok_reply ok_reply (ticker_body (PFloat sample_price))
    (codes "Now 150 -- Fear and Greed Index 10").


Definition arabic_3_text : list N :=
  (codes "Now " ++ [0x663]%N ++ codes " 150 Index 10")%list.

Definition arabic_150_text : list N :=
  (codes "Now " ++ [0x661; 0x665; 0x660]%N ++ codes " -- 42")%list.

Definition arabic_3_1234_text : list N :=
  (codes "Now " ++ [0x663]%N ++ codes " 1234")%list.


Definition arabic_3_env : env :=
  sample_env Z.of_nat ok_reply ok_reply (ticker_body (PFloat sample_price))
    arabic_3_text.

Definition arabic_150_env : env :=
  sample_env Z.of_nat ok_reply ok_reply (ticker_body (PFloat sample_price))
    arabic_150_text.

(** The first request of the process times out, all later ones are
    answered; the clock stands still. *)
Definition flaky_env : env :=
  sample_env (fun _ => 0)
    (fun n => match n with O => Failed Timeout | _ => ok_reply n end)
    ok_reply (ticker_body (PFloat sample_price)) (codes "Now 38").

(** The first snapshot taken on [calm_env], and the world after it. *)
Definition calm_first : outcome (gmap string pyval) * world :=
  get_market_snapshot calm_env startup.

Definition calm_snapshot : gmap string pyval :=
  match fst calm_first with
  | Ok snapshot => snapshot
  | Raised _ => ∅
  end.


(** ** How the world changes

    The steps by which the core moves from one world to a later one:
    a clock reading, a request, a printed error line, and a write of a
    validated price or reading stamped with the clock reading taken for
    it. *)

Section Evolution.

Variable E : env.

Definition core_request (r : request) : Prop :=
  r = ticker_request \/ exists url, r = html_request url.

Definition error_line (line : string) : Prop :=
  exists rest, line = "[ERROR] " +:+ rest.

Inductive evolves : world -> world -> Prop :=
| ev_same w :
    evolves w w
| ev_tick w w' :
    evolves w w' -> evolves w (tick w')
| ev_send w w' r :
    evolves w w' -> core_request r -> evolves w (send r w')
| ev_emit w w' line :
    evolves w w' -> error_line line -> evolves w (emit line w')
| ev_store_price w w' f :
    evolves w w' -> float_gt_zero f = true ->
    evolves w (store "btc_price" (PFloat f, time_time E (ticks w')) (tick w'))
| ev_store_sentiment w w' n :
    evolves w w' -> 0 <= n <= 100 ->
    evolves w (store "fear_greed"
                 (PTuple [PInt n; PStr (threshold_label n)],
                  time_time E (ticks w')) (tick w')).

(** Replies of the ticker on which the [try] of [fetch_btc_price] raises
    [e]: the handler prints a line. *)
Inductive ticker_raises : reply -> exn -> Prop :=
| tr_transport e :
    ticker_raises (Failed e) e
| tr_status code body :
    400 <= code < 600 ->
    ticker_raises (Response code body) HTTPError
| tr_malformed code body :
    ~ 400 <= code < 600 ->
    json_loads E body = None ->
    ticker_raises (Response code body) JSONDecodeError
| tr_data code body data e :
    ~ 400 <= code < 600 ->
    json_loads E body = Some data ->
    py_contains "USD" data = Raised e ->
    ticker_raises (Response code body) e
| tr_index code body data e :
    ~ 400 <= code < 600 ->
    json_loads E body = Some data ->
    py_contains "USD" data = Ok true ->
    py_getitem data "USD" = Raised e ->
    ticker_raises (Response code body) e
| tr_usd code body data usd e :
    ~ 400 <= code < 600 ->
    json_loads E body = Some data ->
    py_getitem data "USD" = Ok usd ->
    py_contains "last" usd = Raised e ->
    ticker_raises (Response code body) e
| tr_usd_index code body data usd e :
    ~ 400 <= code < 600 ->
    json_loads E body = Some data ->
    py_getitem data "USD" = Ok usd ->
    py_contains "last" usd = Ok true ->
    py_getitem usd "last" = Raised e ->
    ticker_raises (Response code body) e
| tr_float code body data usd last e :
    ~ 400 <= code < 600 ->
    json_loads E body = Some data ->
    py_getitem data "USD" = Ok usd ->
    py_getitem usd "last" = Ok last ->
    py_float E last = Raised e ->
    ticker_raises (Response code body) e.

(** Replies on which the [try] of [fetch_btc_price] ends without a
    [return] and without an exception: nothing is printed. *)
Inductive ticker_silent : reply -> Prop :=
| ts_no_usd code body data :
    ~ 400 <= code < 600 ->
    json_loads E body = Some data ->
    py_contains "USD" data = Ok false ->
    ticker_silent (Response code body)
| ts_no_last code body data usd :
    ~ 400 <= code < 600 ->
    json_loads E body = Some data ->
    py_getitem data "USD" = Ok usd ->
    py_contains "last" usd = Ok false ->
    ticker_silent (Response code body)
| ts_not_positive code body data usd last price :
    ~ 400 <= code < 600 ->
    json_loads E body = Some data ->
    py_getitem data "USD" = Ok usd ->
    py_getitem usd "last" = Ok last ->
    py_float E last = Ok price ->
    float_gt_zero price = false ->
    ticker_silent (Response code body).

End Evolution.

(** [str(e)] for an exception caught in world [w]. *)
Definition message_in (E : env) (w : world) (e : exn) : string :=
  exn_str E (List.length (stdout w)) e.

(** The line [fetch_btc_price] prints for an exception whose message is
    [msg]. *)
Definition ticker_error_line (msg : string) : string :=
  "[ERROR] Blockchain API error: " +:+ msg.

(** The lines the sentiment fetcher prints: the first through
    [fetch_html], the second from its own [except]. *)
Definition html_error_line (url : string) (msg : string) : string :=
  "[ERROR] " +:+ url +:+ ": " +:+ msg.

Definition parse_error_line (msg : string) : string :=
  "[ERROR] Fear&Greed parse: " +:+ msg.

(** World [w'] keeps everything [w] had: the clock has been read at
    least as often, the requests and printed lines of [w] are an initial
    part of those of [w'], and every key cached in [w] is cached in [w']. *)
Definition grows (w w' : world) : Prop :=
  (ticks w <= ticks w')%nat /\
  sent w `prefix_of` sent w' /\
  stdout w `prefix_of` stdout w' /\
  (forall key, is_Some (cache w !! key) -> is_Some (cache w' !! key)).

(** A world whose cached price is 100 time units old on a clock that
    reads 0. *)
Definition stale_world : world :=
  store "btc_price" (PFloat sample_price, -100) startup.

(** The ticker answers with a body that decodes to something without the
    key ["USD"]. *)
Definition keyless_env : env :=
  sample_env Z.of_nat ok_reply ok_reply (PDict [("EUR", PDict [])])
    (codes "Now 38").

(** The index page answers with status 503. *)
Definition down_env : env :=
  sample_env Z.of_nat ok_reply (fun _ => Response 503 "(body)")
    (ticker_body (PFloat sample_price)) (codes "Now 38").

(** The page shows a four-digit number after "Now". *)
Definition thousand_env : env :=
  sample_env Z.of_nat ok_reply ok_reply (ticker_body (PFloat (S754_infinity false)))
    (codes "Now: 1000").

(** ** The presentation layer

    [format_snapshot], the command handlers and [main].  What they need
    from outside the program is collected in the record [host]: the text
    [str] gives for floats and containers, whether a call of the
    Telegram API raises, and the user name [get_me] reports. *)

From Stdlib Require Import DecimalString.

Inductive bot_call : Type :=
| SendMessage (chat_id : Z) (text : string) (parse_mode : string)
| SendChatAction (chat_id : Z) (action : string)
| GetMe
| InfinityPolling.

Record host : Type := mkHost {
  str_of : pyval -> string;
  api_error : nat -> bot_call -> option exn;
  me_username : string
}.

(** [x >>= k] for computations that only compute. *)
Definition and_then {A B} (o : outcome A) (k : A -> outcome B) : outcome B :=
  match o with
  | Ok a => k a
  | Raised e => Raised e
  end.

(** [str(n)] for an integer. *)
Definition decimal (n : Z) : string := NilEmpty.string_of_int (Z.to_int n).

(** [str(v)], which is also what [{v}] puts into an f-string. *)
Definition py_str (H : host) (v : pyval) : string :=
  match v with
  | PNone => "None"
  | PBool true => "True"
  | PBool false => "False"
  | PInt n => decimal n
  | PStr s => s
  | PFloat _ | PTuple _ | PList _ | PDict _ => str_of H v
  end.

(** The float equal to a small integer. *)
Definition float_of_small (n : Z) : spec_float :=
  binary_normalize 53 1024 n 0 false.

(** [v < n] for an integer literal [n]. *)
Definition py_lt_int (v : pyval) (n : Z) : outcome bool :=
  match v with
  | PInt z => Ok (z <? n)
  | PBool b => Ok ((if b then 1 else 0) <? n)
  | PFloat f => Ok (SFltb f (float_of_small n))
  | PNone | PStr _ | PTuple _ | PList _ | PDict _ => Raised TypeError
  end.

(** Commas between groups of three digits, counted from the right;
    [grouped] works on the reversed digits. *)
Fixpoint grouped (in_group : nat) (reversed : list ascii) : list ascii :=
  match reversed with
  | [] => []
  | c :: rest =>
      if Nat.eqb in_group 3
      then ","%char :: c :: grouped 1 rest
      else c :: grouped (S in_group) rest
  end.

Definition group_thousands (digits : string) : string :=
  string_of_list_ascii
    (rev (grouped 0 (rev (list_ascii_of_string digits)))).

(** The value [m * 2^e] in hundredths, rounded to the nearest integer,
    ties to the even one. *)
Definition hundredths (m : positive) (e : Z) : Z :=
  if 0 <=? e then Z.pos m * 2 ^ e * 100
  else
    let unit := 2 ^ (- e) in
    let q := (Z.pos m * 100) / unit in
    let twice := 2 * ((Z.pos m * 100) mod unit) in
    if twice <? unit then q
    else if unit <? twice then q + 1
    else if Z.even q then q else q + 1.

Definition two_digits (n : Z) : string :=
  if n <? 10 then "0" +:+ decimal n else decimal n.

(** [format(f, ",.2f")] for a float. *)
Definition format_2f (f : spec_float) : string :=
  match f with
  | S754_nan => "nan"
  | S754_infinity s => if s then "-inf" else "inf"
  | S754_zero s => if s then "-0.00" else "0.00"
  | S754_finite s m e =>
      let n := hundredths m e in
      (if s then "-" else "") +:+
      group_thousands (decimal (n / 100)) +:+ "." +:+ two_digits (n mod 100)
  end.

(** [format(v, ",.2f")] *)
Definition format_money (v : pyval) : outcome string :=
  match v with
  | PFloat f => Ok (format_2f f)
  | PInt n =>
      and_then (of_option OverflowError (float_of_int n))
        (fun f => Ok (format_2f f))
  | PBool b => Ok (format_2f (if b then float_one else float_zero))
  | PStr _ => Raised ValueError
  | PNone | PTuple _ | PList _ | PDict _ => Raised TypeError
  end.

(** [data.get(key)] and [data.get(key, default)] *)
Definition dict_get_or (default : pyval) (key : string)
    (data : gmap string pyval) : pyval :=
  match data !! key with
  | Some v => v
  | None => default
  end.

Section Formatter.

Variable H : host.

(** The line about the price. *)
Definition price_line (btc : pyval) : outcome string :=
  if truthy btc
  then and_then (format_money btc) (fun s => Ok ("💰 BTC: *$" +:+ s +:+ "*"))
  else Ok "💰 BTC: _недоступно_".

(** The line about the sentiment index. *)
Definition mood_line (fg_val fg_lbl : pyval) : outcome string :=
  match fg_val with
  | PNone => Ok "😱 Fear & Greed: _недоступно_"
  | _ =>
      and_then (py_lt_int fg_val 40) (fun below_40 =>
      and_then (if below_40 : bool then Ok "😨"
                else and_then (py_lt_int fg_val 60) (fun below_60 =>
                     Ok (if below_60 : bool then "😐" else "🤑")))
        (fun emoji =>
      Ok (emoji +:+ " Fear & Greed: *" +:+ py_str H fg_val +:+
          "* (" +:+ py_str H fg_lbl +:+ ")")))
  end.

Definition time_line (data : gmap string pyval) : string :=
  "⏰ _" +:+ py_str H (dict_get_or (PStr "N/A") "timestamp" data) +:+ "_".

(** The list [lines] as it is when [format_snapshot] joins it. *)
Definition snapshot_lines (data : gmap string pyval) : outcome (list string) :=
  and_then (price_line (dict_get_or PNone "btc_price" data)) (fun price =>
  and_then (mood_line (dict_get_or PNone "fear_value" data)
                      (dict_get_or PNone "fear_label" data)) (fun mood =>
  Ok [ "📊 *Crypto Market Snapshot*";
       "━━━━━━━━━━━━━━━━━━━━━━━━";
       price; mood; time_line data ])).

Definition newline : string := String (ascii_of_nat 10) EmptyString.

(** The face [mood_line] picks for an integer. *)
Definition mood_emoji (n : Z) : string :=
  if n <? 40 then "😨" else if n <? 60 then "😐" else "🤑".

(** [sep.join(lines)] *)
Fixpoint join (sep : string) (lines : list string) : string :=
  match lines with
  | [] => EmptyString
  | [line] => line
  | line :: rest => line +:+ sep +:+ join sep rest
  end.

Definition format_snapshot (data : gmap string pyval) : outcome string :=
  and_then (snapshot_lines data) (fun lines => Ok (join newline lines)).

End Formatter.

(** ** Command handlers

    A handler runs on a [session]: the world of the core and the calls
    made to the Telegram API so far. *)

Record message : Type := mkMessage { msg_chat_id : Z }.

Record session : Type := mkSession {
  core : world;
  calls : list bot_call
}.

Definition handler (A : Type) : Type := session -> outcome A * session.

Definition hret {A} (a : A) : handler A := fun s => (Ok a, s).

Definition hbind {A B} (m : handler A) (k : A -> handler B) : handler B :=
  fun s =>
    match m s with
    | (Ok a, s') => k a s'
    | (Raised e, s') => (Raised e, s')
    end.

Definition handler_try {A} (body : handler A) (on_error : exn -> handler A)
    : handler A :=
  fun s =>
    match body s with
    | (Ok a, s') => (Ok a, s')
    | (Raised e, s') => on_error e s'
    end.

(** Code of the core, run inside a handler. *)
Definition in_core {A} (m : M A) : handler A :=
  fun s =>
    match m (core s) with
    | (o, w') => (o, {| core := w'; calls := calls s |})
    end.

Declare Scope handler_scope.
Delimit Scope handler_scope with hd.
Notation "x <- m ;; k" := (hbind m (fun x => k))
  (at level 100, m at next level, right associativity) : handler_scope.
Notation "m ;;; k" := (hbind m (fun _ => k))
  (at level 100, right associativity) : handler_scope.

Definition start_text : string :=
  "👋 *Привет!*" +:+
  newline +:+
  newline +:+
  "Я — Crypto Market Bot." +:+
  newline +:+
  "Показываю данные о криптовалютах." +:+
  newline +:+
  newline +:+
  "Отправь /status чтобы узнать текущие курсы.".

Definition help_text : string :=
  "📚 *Команды:*" +:+
  newline +:+
  newline +:+
  "/start — запуск бота" +:+
  newline +:+
  "/help — эта справка" +:+
  newline +:+
  "/status — снимок рынка".

Definition unavailable_text : string :=
  "⚠️ Источники временно недоступны. Попробуйте позже.".

Section Handlers.

Variable E : env.
Variable H : host.

(** A call of a method of [bot]: it is made, then it returns or raises. *)
Definition bot_api (c : bot_call) : handler unit :=
  fun s =>
    let s' := {| core := core s; calls := calls s ++ [c] |} in
    match api_error H (List.length (calls s)) c with
    | Some e => (Raised e, s')
    | None => (Ok tt, s')
    end.

Definition cmd_start (m : message) : handler unit :=
  bot_api (SendMessage (msg_chat_id m) start_text "Markdown").

Definition cmd_help (m : message) : handler unit :=
  bot_api (SendMessage (msg_chat_id m) help_text "Markdown").

Definition cmd_status (m : message) : handler unit :=
  (bot_api (SendChatAction (msg_chat_id m) "typing") ;;;
   data <- in_core (get_market_snapshot E) ;;
   text <- (if truthy (dict_get_or PNone "btc_price" data)
               || truthy (dict_get_or PNone "fear_value" data)
            then in_core (lift (format_snapshot H data))
            else hret unavailable_text) ;;
   bot_api (SendMessage (msg_chat_id m) text "Markdown"))%hd.

Fixpoint repeat_string (s : string) (n : nat) : string :=
  match n with
  | O => EmptyString
  | S n' => s +:+ repeat_string s n'
  end.

Definition hprint (line : string) : handler unit := in_core (py_print line).

(** [main]; the call of [infinity_polling] is its last step here, what
    the library does inside it is not part of this program. *)
Definition main : handler unit :=
  (hprint (repeat_string "=" 40) ;;;
   hprint "🚀 Crypto Market Bot" ;;;
   hprint (repeat_string "=" 40) ;;;
   connected <- handler_try
     (bot_api GetMe ;;;
      hprint ("✅ Бот: @" +:+ me_username H) ;;;
      hret true)
     (fun e =>
        msg <- in_core (str_exn E e) ;;
        hprint ("❌ Ошибка: " +:+ msg) ;;;
        hret false) ;;
   if connected : bool then
     hprint "✨ Запущен! Ctrl+C для остановки." ;;;
     hprint "🔍 Выполняю проверку источников данных..." ;;;
     snapshot <- in_core (get_market_snapshot E) ;;
     (if truthy (dict_get_or PNone "btc_price" snapshot)
      then hprint ("✅ Данные получены: BTC=$" +:+
                   py_str H (dict_get_or PNone "btc_price" snapshot))
      else hprint "⚠️ Ошибка получения данных при запуске!") ;;;
     bot_api InfinityPolling
   else hret tt)%hd.

End Handlers.

(** The session a process starts in. *)
Definition fresh_session : session := {| core := startup; calls := [] |}.

(** ** Start-up configuration *)

(** [load_dotenv()]: the variables of the [.env] file are added to the
    environment, those already set keep their value. *)
Definition load_dotenv (environ dotenv : gmap string string)
    : gmap string string :=
  environ ∪ dotenv.

(** Lines 32 to 36: the token, or the [ValueError] that ends the start. *)
Definition load_token (environ dotenv : gmap string string) : outcome string :=
  let token := default EmptyString (load_dotenv environ dotenv !! "BOT_TOKEN") in
  if negb (String.eqb token EmptyString) then Ok token else Raised ValueError.

(** A Telegram that always answers, and one that never does. *)
Definition plain_str (v : pyval) : string :=
  match v with
  | PFloat _ => "67890.12"
  | _ => "..."
  end.

Definition friendly_host : host :=
  {| str_of := plain_str; api_error := fun _ _ => None;
     me_username := "crypto_market_bot" |}.

Definition deaf_host : host :=
  {| str_of := plain_str; api_error := fun _ _ => Some ConnectionError;
     me_username := "crypto_market_bot" |}.

(** The page shows a reading of 0 and the ticker is down. *)
Definition zero_env : env :=
  sample_env Z.of_nat (fun _ => Failed Timeout) ok_reply
    (ticker_body (PFloat sample_price)) (codes "Now 0").

(** A call that addresses the chat [id]. *)
Definition to_chat (id : Z) (c : bot_call) : Prop :=
  match c with
  | SendMessage i _ _ | SendChatAction i _ => i = id
  | GetMe | InfinityPolling => False
  end.

Definition typing_notice (m : message) : bot_call :=
  SendChatAction (msg_chat_id m) "typing".

Definition reply_to (m : message) (text : string) : bot_call :=
  SendMessage (msg_chat_id m) text "Markdown".

(** The core's world when [main] has printed its banner and has heard
    from Telegram, before the self-check. *)
Definition banner_world (H : host) : world :=
  emit "🔍 Выполняю проверку источников данных..."
    (emit "✨ Запущен! Ctrl+C для остановки."
       (emit ("✅ Бот: @" +:+ me_username H)
          (emit (repeat_string "=" 40)
             (emit "🚀 Crypto Market Bot"
                (emit (repeat_string "=" 40) startup))))).

(** The line [main] prints about its self-check. *)
Definition self_check_line (H : host) (snapshot : gmap string pyval) : string :=
  if truthy (dict_get_or PNone "btc_price" snapshot)
  then "✅ Данные получены: BTC=$" +:+
       py_str H (dict_get_or PNone "btc_price" snapshot)
  else "⚠️ Ошибка получения данных при запуске!".

(** The snapshot dict with the given fields. *)
Definition snapshot_of (price fv fl : pyval) (stamp : string)
    : gmap string pyval :=
  <["timestamp" := PStr stamp]>
    (<["fear_label" := fl]> (<["fear_value" := fv]> (<["btc_price" := price]> ∅))).

(** The core's world after a self-check in which both sources answered
    with [price] and [v]. *)
Definition warm_world (E : env) (H : host) (price : spec_float) (v : Z) : world :=
  tick
    (store "fear_greed"
       (PTuple [PInt v; PStr (threshold_label v)], time_time E 1)
       (tick (send (html_request index_url)
          (store "btc_price" (PFloat price, time_time E 0)
             (tick (send ticker_request (banner_world H))))))).

Definition strftime_format : string := "%Y-%m-%d %H:%M:%S".
(** * Properties *)

(** ** Floats and truth values *)

Lemma float_le_zero_not_gt (x : spec_float) :
  float_le_zero x = true -> float_gt_zero x = false.
Proof.
  unfold float_le_zero, float_gt_zero, SFleb, SFltb, float_zero.
  destruct x as [s | s | | s m e]; simpl; try discriminate; try reflexivity;
    destruct s; simpl; congruence.
Qed.

Lemma float_gt_zero_truthy (x : spec_float) :
  float_gt_zero x = true -> truthy (PFloat x) = true.
Proof.
  unfold float_gt_zero, truthy, SFeqb, SFltb, float_zero.
  destruct x as [s | s | | s m e]; simpl; try discriminate; try reflexivity;
    destruct s; simpl; congruence.
Qed.

(** ** The cache *)

Section CacheFacts.

Variable E : env.

(** What [get_cached] computes, with the clock reading made explicit. *)
Lemma get_cached_unfold (key : string) (w : world) :
  get_cached E key w =
  match cache w !! key with
  | Some (value, timestamp) =>
      (Ok (if time_time E (ticks w) - timestamp <? CACHE_TTL
           then value else PNone), tick w)
  | None => (Ok PNone, w)
  end.
Proof.
  unfold get_cached. destruct (cache w !! key) as [[value timestamp]|]; [|reflexivity].
  unfold bind, py_time, ret.
  destruct (time_time E (ticks w) - timestamp <? CACHE_TTL); reflexivity.
Qed.

Lemma set_cached_unfold (key : string) (value : pyval) (w : world) :
  set_cached E key value w =
  (Ok tt, store key (value, time_time E (ticks w)) (tick w)).
Proof. reflexivity. Qed.

Lemma get_cached_cache (key : string) (w : world) :
  cache (snd (get_cached E key w)) = cache w.
Proof.
  rewrite get_cached_unfold.
  destruct (cache w !! key) as [[value timestamp]|]; reflexivity.
Qed.

Lemma get_cached_sent (key : string) (w : world) :
  sent (snd (get_cached E key w)) = sent w.
Proof.
  rewrite get_cached_unfold.
  destruct (cache w !! key) as [[value timestamp]|]; reflexivity.
Qed.

Lemma get_cached_ok (key : string) (w : world) :
  exists v, fst (get_cached E key w) = Ok v.
Proof.
  rewrite get_cached_unfold.
  destruct (cache w !! key) as [[value timestamp]|]; simpl; eauto.
Qed.

Lemma get_cached_value (key : string) (w : world) :
  get_cached E key w = (Ok (cached_value E key w), snd (get_cached E key w)).
Proof.
  unfold cached_value. rewrite get_cached_unfold.
  destruct (cache w !! key) as [[value timestamp]|]; reflexivity.
Qed.

Lemma cache_hit_fresh (key : string) (w : world) :
  cache_hit E key w = true ->
  exists t, cache w !! key = Some (cached_value E key w, t) /\
            time_time E (ticks w) - t < CACHE_TTL /\
            snd (get_cached E key w) = tick w.
Proof.
  unfold cache_hit, cached_value. rewrite get_cached_unfold.
  destruct (cache w !! key) as [[value timestamp]|]; simpl; [|discriminate].
  destruct (Z.ltb_spec (time_time E (ticks w) - timestamp) CACHE_TTL);
    simpl; [|discriminate].
  intros _. exists timestamp. auto.
Qed.

Lemma fresh_cached_value (key : string) (w : world) v t :
  cache w !! key = Some (v, t) ->
  time_time E (ticks w) - t < CACHE_TTL ->
  get_cached E key w = (Ok v, tick w).
Proof.
  intros Hk Hage. rewrite get_cached_unfold, Hk.
  destruct (Z.ltb_spec (time_time E (ticks w) - t) CACHE_TTL); [reflexivity|lia].
Qed.

End CacheFacts.

(** C2. Writing [v] under [k] timestamps it with the clock reading [t0] of
    the write.  As long as nothing overwrites the entry, a read whose
    clock reading is less than [CACHE_TTL] = 60 past [t0] returns [v]; a
    read at [CACHE_TTL] or more past [t0] returns [None] and the entry is
    still stored; and no read changes the cache.  The state right after
    the write is one such later state. *)
Theorem cache_freshness (E : env) (k : string) (v : pyval) (w later : world) :
  let t0 := time_time E (ticks w) in
  let now := time_time E (ticks later) in
  cache later !! k = cache (snd (set_cached E k v w)) !! k ->
  CACHE_TTL = 60 /\
  cache (snd (set_cached E k v w)) !! k = Some (v, t0) /\
  (now - t0 < CACHE_TTL -> fst (get_cached E k later) = Ok v) /\
  (CACHE_TTL <= now - t0 ->
     fst (get_cached E k later) = Ok PNone /\
     cache (snd (get_cached E k later)) !! k = Some (v, t0)) /\
  (forall k' w', cache (snd (get_cached E k' w')) = cache w').
Proof.
  intros t0 now Hsame.
  assert (Hentry : cache (snd (set_cached E k v w)) !! k = Some (v, t0)).
  { rewrite set_cached_unfold. simpl. apply lookup_insert_eq. }
  rewrite Hentry in Hsame.
  split; [reflexivity|]. split; [exact Hentry|]. split; [|split].
  - intros Hage. rewrite (fresh_cached_value E k later v t0 Hsame Hage).
    reflexivity.
  - intros Hage. rewrite get_cached_cache. split; [|exact Hsame].
    rewrite get_cached_unfold, Hsame.
    destruct (Z.ltb_spec (time_time E (ticks later) - t0) CACHE_TTL);
      [unfold now in Hage; lia | reflexivity].
  - intros k' w'. apply get_cached_cache.
Qed.

(** ** Labels *)

Lemma threshold_label_cases (v : Z) :
  (v <= 25 /\ threshold_label v = "Extreme Fear") \/
  (26 <= v <= 45 /\ threshold_label v = "Fear") \/
  (46 <= v <= 55 /\ threshold_label v = "Neutral") \/
  (56 <= v <= 75 /\ threshold_label v = "Greed") \/
  (76 <= v /\ threshold_label v = "Extreme Greed").
Proof.
  unfold threshold_label.
  destruct (Z.leb_spec v 25); [left; auto|].
  destruct (Z.leb_spec v 45); [right; left; split; [lia|reflexivity]|].
  destruct (Z.leb_spec v 55); [right; right; left; split; [lia|reflexivity]|].
  destruct (Z.leb_spec v 75);
    [right; right; right; left; split; [lia|reflexivity]|].
  right; right; right; right. split; [lia|reflexivity].
Qed.

(** ** The [try] body of the sentiment fetcher *)

Lemma fetch_fear_greed_try_unfold (E : env) (html : pyval) (w : world) :
  fetch_fear_greed_try E html w =
  match soup_text E html with
  | Raised e => (Raised e, w)
  | Ok text =>
      match find_match text with
      | None => (Ok none_none, w)
      | Some group1 =>
          match py_int group1 with
          | None => (Raised ValueError, w)
          | Some value =>
              if (0 <=? value) && (value <=? 100)
              then (Ok (PTuple [PInt value; PStr (threshold_label value)]),
                    store "fear_greed"
                      (PTuple [PInt value; PStr (threshold_label value)],
                       time_time E (ticks w)) (tick w))
              else (Ok none_none, w)
          end
      end
  end.
Proof.
  unfold fetch_fear_greed_try, bind, lift.
  destruct (soup_text E html) as [text|e]; [|reflexivity].
  destruct (find_match text) as [group1|]; [|reflexivity].
  destruct (py_int group1) as [value|]; [|reflexivity]. simpl.
  destruct ((0 <=? value) && (value <=? 100)); reflexivity.
Qed.

(** C4. For an integer [v] between 0 and 100 the label is one of the
    five fixed labels, chosen by inclusive upper thresholds 25, 45, 55 and
    75; and it is this label that the sentiment fetcher pairs with [v]
    whenever the page text yields [v]. *)
Theorem label_by_thresholds (v : Z) :
  0 <= v <= 100 ->
  threshold_label v ∈ five_labels /\
  (v <= 25 -> threshold_label v = "Extreme Fear") /\
  (26 <= v <= 45 -> threshold_label v = "Fear") /\
  (46 <= v <= 55 -> threshold_label v = "Neutral") /\
  (56 <= v <= 75 -> threshold_label v = "Greed") /\
  (76 <= v -> threshold_label v = "Extreme Greed") /\
  (forall E html text group1 w,
      soup_text E html = Ok text ->
      find_match text = Some group1 ->
      py_int group1 = Some v ->
      fst (fetch_fear_greed_try E html w) =
      Ok (PTuple [PInt v; PStr (threshold_label v)])).
Proof.
  intros Hrange.
  pose proof (threshold_label_cases v) as Hcases.
  repeat split.
  - unfold five_labels.
    destruct Hcases as [[_ ->]|[[_ ->]|[[_ ->]|[[_ ->]|[_ ->]]]]];
      apply list_elem_of_In; simpl; tauto.
  - intros. destruct Hcases as [[? ?]|[[? ?]|[[? ?]|[[? ?]|[? ?]]]]];
      (assumption || lia).
  - intros. destruct Hcases as [[? ?]|[[? ?]|[[? ?]|[[? ?]|[? ?]]]]];
      (assumption || lia).
  - intros. destruct Hcases as [[? ?]|[[? ?]|[[? ?]|[[? ?]|[? ?]]]]];
      (assumption || lia).
  - intros. destruct Hcases as [[? ?]|[[? ?]|[[? ?]|[[? ?]|[? ?]]]]];
      (assumption || lia).
  - intros. destruct Hcases as [[? ?]|[[? ?]|[[? ?]|[[? ?]|[? ?]]]]];
      (assumption || lia).
  - intros E html text group1 w Htext Hmatch Hint.
    rewrite fetch_fear_greed_try_unfold, Htext, Hmatch, Hint.
    replace ((0 <=? v) && (v <=? 100)) with true; [reflexivity|].
    symmetry. apply andb_true_iff. split; apply Z.leb_le; lia.
Qed.

(** ** Pattern matching *)

Lemma append_cons (c : ascii) (a b : string) :
  String c a +:+ b = String c (a +:+ b).
Proof. reflexivity. Qed.

Lemma decimal_in_bounds (zeros : list N) (c : N) (d : Z) :
  decimal_in zeros c = Some d -> 0 <= d <= 9.
Proof.
  induction zeros as [|zero zeros IH]; simpl; [discriminate|].
  destruct ((zero <=? c)%N && (c <? zero + 10)%N) eqn:Hrun; [|exact IH].
  intros [= <-]. apply andb_true_iff in Hrun as [Hlo Hhi].
  apply N.leb_le in Hlo. apply N.ltb_lt in Hhi. lia.
Qed.

Lemma is_digit_value (c : N) :
  is_digit c = true -> exists d, digit_value c = Some d /\ 0 <= d <= 9.
Proof.
  unfold is_digit. destruct (digit_value c) as [d|] eqn:Hd; [|discriminate].
  intros _. exists d. split; [reflexivity|].
  exact (decimal_in_bounds _ _ _ Hd).
Qed.

Lemma take_digits_all (n : nat) (s : list N) :
  all_chars is_digit (take_digits n s) = true.
Proof.
  revert s. induction n as [|n IH]; intros s; [reflexivity|].
  destruct s as [|c s]; [reflexivity|]. simpl.
  destruct (is_digit c) eqn:Hc; [|reflexivity].
  simpl. rewrite Hc, IH. reflexivity.
Qed.

Lemma take_digits_length (n : nat) (s : list N) :
  (List.length (take_digits n s) <= n)%nat.
Proof.
  revert s. induction n as [|n IH]; intros s; [simpl; lia|].
  destruct s as [|c s]; [simpl; lia|]. simpl.
  destruct (is_digit c); simpl; [|lia].
  specialize (IH s). lia.
Qed.

Lemma take_digits_split (n : nat) (s : list N) :
  exists after, s = (take_digits n s ++ after)%list.
Proof.
  revert s. induction n as [|n IH]; intros s; [exists s; reflexivity|].
  destruct s as [|c s]; [exists []; reflexivity|]. simpl.
  destruct (is_digit c); [|exists (c :: s); reflexivity].
  destruct (IH s) as [after Hafter]. exists after.
  simpl. f_equal. exact Hafter.
Qed.

Lemma skip_non_digits_split (s : list N) :
  exists gap, s = (gap ++ skip_non_digits s)%list /\
              all_chars non_digit gap = true.
Proof.
  induction s as [|c s IH]; [exists []; split; reflexivity|].
  simpl. destruct (is_digit c) eqn:Hc.
  - exists []. split; reflexivity.
  - destruct IH as (gap & Hgap & Hall). exists (c :: gap). split.
    + simpl. f_equal. exact Hgap.
    + simpl. unfold non_digit at 1. rewrite Hc, Hall. reflexivity.
Qed.

Lemma strip_literal_split (lit : string) (s rest : list N) :
  strip_literal lit s = Some rest ->
  exists token, s = (token ++ rest)%list /\ spells lit token = true.
Proof.
  revert s. induction lit as [|p lit IH]; intros s Hstrip.
  - simpl in Hstrip. injection Hstrip as <-.
    exists []. split; reflexivity.
  - destruct s as [|c s]; [discriminate|]. simpl in Hstrip.
    destruct (same_letter p c) eqn:Hcp; [|discriminate].
    destruct (IH s Hstrip) as (token & Hs & Hlow).
    exists (c :: token). split; [simpl; congruence|].
    simpl. rewrite Hcp, Hlow. reflexivity.
Qed.

Lemma match_here_shape (lit : string) (s group1 : list N) :
  match_here lit s = Some group1 ->
  follows_token lit s [] group1 /\
  all_chars is_digit group1 = true /\
  (1 <= List.length group1 <= 3)%nat.
Proof.
  unfold match_here. intros Hm.
  destruct (strip_literal lit s) as [rest|] eqn:Hstrip; [|discriminate].
  destruct (strip_literal_split lit s rest Hstrip) as (token & Hs & Hlow).
  destruct (skip_non_digits_split rest) as (gap & Hrest & Hgap).
  destruct (take_digits_split 3 (skip_non_digits rest)) as (after & Hafter).
  pose proof (take_digits_all 3 (skip_non_digits rest)) as Hdigits.
  pose proof (take_digits_length 3 (skip_non_digits rest)) as Hlen.
  assert (Hg : take_digits 3 (skip_non_digits rest) = group1).
  { destruct (take_digits 3 (skip_non_digits rest)); [discriminate|congruence]. }
  rewrite Hg in *. split; [|split; [assumption|]].
  - exists token, gap, after.
    split; [|split; assumption]. simpl. congruence.
  - split; [|assumption].
    destruct group1; [|simpl; lia].
    destruct (take_digits 3 (skip_non_digits rest)); discriminate.
Qed.

Lemma re_search_shape (lit : string) (text group1 : list N) :
  re_search lit text = Some group1 ->
  (exists before, follows_token lit text before group1) /\
  all_chars is_digit group1 = true /\
  (1 <= List.length group1 <= 3)%nat.
Proof.
  induction text as [|c text IH]; simpl.
  - destruct (match_here lit []) as [g|] eqn:Hm; [|discriminate].
    intros [= <-]. destruct (match_here_shape _ _ _ Hm) as (Hf & Hd & Hl).
    split; [exists []; assumption | split; assumption].
  - destruct (match_here lit (c :: text)) as [g|] eqn:Hm.
    + intros [= <-]. destruct (match_here_shape _ _ _ Hm) as (Hf & Hd & Hl).
      split; [exists []; assumption | split; assumption].
    + intros Hs. destruct (IH Hs) as ((before & token & gap & after & Ht & Hlow & Hgap) & Hd & Hl).
      split; [|split; assumption].
      exists (c :: before), token, gap, after.
      split; [|split; assumption]. simpl. f_equal. exact Ht.
Qed.

Lemma int_digits_bounds (s : list N) (acc : Z) :
  all_chars is_digit s = true ->
  exists k, int_digits acc s = Some (acc * 10 ^ Z.of_nat (List.length s) + k) /\
            0 <= k < 10 ^ Z.of_nat (List.length s).
Proof.
  revert acc. induction s as [|c s IH]; intros acc Hall.
  - exists 0. simpl. split; [f_equal; lia | lia].
  - simpl in Hall. apply andb_true_iff in Hall as [Hc Hs].
    destruct (is_digit_value c Hc) as (d & Hvalue & Hd).
    cbn [int_digits]. rewrite Hvalue.
    destruct (IH (acc * 10 + d) Hs) as (k & Hk & Hbound).
    set (p := 10 ^ Z.of_nat (List.length s)) in *.
    assert (Hp : 0 < p) by (apply Z.pow_pos_nonneg; lia).
    assert (Hpow : 10 ^ Z.of_nat (List.length (c :: s)) = 10 * p).
    { cbn [List.length]. rewrite Nat2Z.inj_succ, Z.pow_succ_r by lia.
      reflexivity. }
    rewrite Hpow. exists (d * p + k). split; [rewrite Hk; f_equal; lia | nia].
Qed.

Lemma py_int_of_group (group1 : list N) :
  all_chars is_digit group1 = true ->
  (1 <= List.length group1 <= 3)%nat ->
  exists n, py_int group1 = Some n /\ 0 <= n <= 999.
Proof.
  intros Hall Hlen.
  destruct (int_digits_bounds group1 0 Hall) as (k & Hk & Hbound).
  exists k. split.
  - unfold py_int. destruct group1; [simpl in Hlen; lia|].
    rewrite Hk. f_equal.
  - assert (10 ^ Z.of_nat (List.length group1) <= 10 ^ 3).
    { apply Z.pow_le_mono_r; lia. }
    lia.
Qed.

(** The converse: where a token is followed by non-digits and a digit,
    the anchored match succeeds, so a search fails only on a text that
    has no such place. *)
Lemma strip_literal_complete (lit : string) (token rest : list N) :
  spells lit token = true ->
  strip_literal lit (token ++ rest) = Some rest.
Proof.
  revert token. induction lit as [|p lit IH]; intros token Hlow.
  - destruct token; [reflexivity|discriminate].
  - destruct token as [|c token]; [discriminate|].
    simpl in Hlow. apply andb_true_iff in Hlow as [Hc Hrest].
    simpl. rewrite Hc. auto.
Qed.

Lemma skip_non_digits_gap (gap rest : list N) (d : N) :
  all_chars non_digit gap = true ->
  is_digit d = true ->
  skip_non_digits (gap ++ d :: rest) = d :: rest.
Proof.
  intros Hgap Hd. induction gap as [|c gap IH].
  - simpl. rewrite Hd. reflexivity.
  - simpl in Hgap. apply andb_true_iff in Hgap as [Hc Hgap].
    simpl. unfold non_digit in Hc.
    destruct (is_digit c); [discriminate|]. auto.
Qed.

Lemma match_here_complete (lit : string) (token gap rest : list N) (d : N) :
  spells lit token = true ->
  all_chars non_digit gap = true ->
  is_digit d = true ->
  match_here lit (token ++ gap ++ d :: rest) =
  Some (d :: take_digits 2 rest).
Proof.
  intros Hlow Hgap Hd. unfold match_here.
  rewrite (strip_literal_complete lit token _ Hlow).
  rewrite (skip_non_digits_gap gap rest d Hgap Hd).
  simpl. rewrite Hd. reflexivity.
Qed.



Lemma find_match_now (text m : list N) :
  re_search "Now" text = Some m -> find_match text = Some m.
Proof. unfold find_match. intros ->. reflexivity. Qed.




(** ** The price fetcher *)

Section PriceFetcher.

Variable E : env.

Lemma getitem_contains (container : pyval) (key : string) (v : pyval) :
  py_getitem container key = Ok v -> py_contains key container = Ok true.
Proof.
  destruct container; simpl; try discriminate.
  destruct (dict_get key entries) eqn:Hget; simpl; [|discriminate].
  intros _. reflexivity.
Qed.

Lemma ticker_delivers_fun (r : reply) (p q : spec_float) :
  ticker_delivers E r p -> ticker_delivers E r q -> p = q.
Proof.
  intros (c1 & b1 & d1 & u1 & l1 & Hr1 & _ & Hj1 & Hu1 & Hl1 & Hf1)
         (c2 & b2 & d2 & u2 & l2 & Hr2 & _ & Hj2 & Hu2 & Hl2 & Hf2).
  rewrite Hr1 in Hr2. injection Hr2 as <- <-. congruence.
Qed.

(** The [try] body when the ticker delivers a number. *)
Lemma fetch_btc_price_try_delivered (w : world) (price : spec_float) :
  ticker_delivers E (next_reply E ticker_request w) price ->
  fetch_btc_price_try E w =
  if float_gt_zero price
  then (Ok (Some (PFloat price)),
        store "btc_price" (PFloat price, time_time E (ticks w))
          (tick (send ticker_request w)))
  else (Ok None, send ticker_request w).
Proof.
  intros (code & body & data & usd & last & Hr & Hst & Hj & Hu & Hl & Hf).
  unfold next_reply in Hr.
  unfold fetch_btc_price_try, bind, requests_get, lift. rewrite Hr, Hst, Hj.
  rewrite (getitem_contains _ _ _ Hu), Hu, (getitem_contains _ _ _ Hl), Hl, Hf.
  destruct (float_gt_zero price); reflexivity.
Qed.

(** The [try] body in general: it raises, falls through, or returns a
    positive number that the ticker delivered and that it has cached. *)
Lemma fetch_btc_price_try_cases (w : world) :
  (exists e, fetch_btc_price_try E w = (Raised e, send ticker_request w)) \/
  fetch_btc_price_try E w = (Ok None, send ticker_request w) \/
  (exists price,
      ticker_delivers E (next_reply E ticker_request w) price /\
      float_gt_zero price = true /\
      fetch_btc_price_try E w =
      (Ok (Some (PFloat price)),
       store "btc_price" (PFloat price, time_time E (ticks w))
         (tick (send ticker_request w)))).
Proof.
  unfold fetch_btc_price_try, bind, requests_get, lift.
  destruct (http_get E (List.length (sent w)) ticker_request)
    as [e|code body] eqn:Hr; [left; eauto|].
  destruct (raise_for_status (code, body)) as [[]|e] eqn:Hst; [|left; eauto].
  destruct (response_json E (code, body)) as [data|e] eqn:Hj; [|left; eauto].
  destruct (py_contains "USD" data) as [[|]|e] eqn:Hc1;
    [| right; left; reflexivity | left; eauto].
  destruct (py_getitem data "USD") as [usd|e] eqn:Hu; [|left; eauto].
  destruct (py_contains "last" usd) as [[|]|e] eqn:Hc2;
    [| right; left; reflexivity | left; eauto].
  destruct (py_getitem usd "last") as [last|e] eqn:Hl; [|left; eauto].
  destruct (py_float E last) as [price|e] eqn:Hf; [|left; eauto].
  destruct (float_gt_zero price) eqn:Hpos; [|right; left; reflexivity].
  right; right. exists price. split; [|split; [assumption|reflexivity]].
  exists code, body, data, usd, last. unfold next_reply. auto 10.
Qed.

(** A hit: the cached value is returned and nothing else happens. *)
Lemma fetch_btc_price_hit (w : world) :
  cache_hit E "btc_price" w = true ->
  fetch_btc_price E w = (Ok (cached_value E "btc_price" w), tick w).
Proof.
  intros Hhit. destruct (cache_hit_fresh E _ _ Hhit) as (t & _ & _ & Hw).
  unfold fetch_btc_price, bind. rewrite get_cached_value, Hw.
  unfold cache_hit in Hhit. rewrite Hhit. reflexivity.
Qed.

(** A miss: the outcome is decided by what the ticker delivers. *)
Lemma fetch_btc_price_miss (w : world) :
  cache_hit E "btc_price" w = false ->
  let w0 := snd (get_cached E "btc_price" w) in
  (exists w',
      fetch_btc_price E w = (Ok PNone, w') /\
      cache w' = cache w /\
      sent w' = (sent w ++ [ticker_request])%list /\
      (forall price,
          ticker_delivers E (next_reply E ticker_request w) price ->
          float_gt_zero price = false)) \/
  (exists price,
      ticker_delivers E (next_reply E ticker_request w) price /\
      float_gt_zero price = true /\
      fetch_btc_price E w =
      (Ok (PFloat price),
       store "btc_price" (PFloat price, time_time E (ticks w0))
         (tick (send ticker_request w0)))).
Proof.
  intros Hmiss w0.
  assert (Hreply : next_reply E ticker_request w0 = next_reply E ticker_request w).
  { unfold next_reply, w0. rewrite get_cached_sent. reflexivity. }
  unfold fetch_btc_price, bind. rewrite get_cached_value. fold w0.
  unfold cache_hit in Hmiss. rewrite Hmiss. unfold try_except.
  destruct (fetch_btc_price_try_cases w0)
    as [[e He]|[Hnone|(price & Hd & Hpos & Hsome)]].
  - left. rewrite He. eexists. split; [reflexivity|]. simpl.
    unfold w0. rewrite get_cached_cache, get_cached_sent.
    repeat split. intros price Hd. rewrite <- Hreply in Hd.
    rewrite (fetch_btc_price_try_delivered w0 price Hd) in He.
    destruct (float_gt_zero price); [discriminate|reflexivity].
  - left. rewrite Hnone. eexists. split; [reflexivity|]. simpl.
    unfold w0. rewrite get_cached_cache, get_cached_sent.
    repeat split. intros price Hd. rewrite <- Hreply in Hd.
    rewrite (fetch_btc_price_try_delivered w0 price Hd) in Hnone.
    destruct (float_gt_zero price); [discriminate|reflexivity].
  - right. exists price. rewrite Hreply in Hd. rewrite Hsome. auto.
Qed.

End PriceFetcher.

(** ** The sentiment fetcher *)

Section SentimentFetcher.

Variable E : env.

Lemma find_match_value (text group1 : list N) :
  find_match text = Some group1 ->
  exists n, py_int group1 = Some n /\ 0 <= n <= 999.
Proof.
  unfold find_match. intros Hm.
  assert (Hs : exists lit, re_search lit text = Some group1).
  { destruct (re_search "Now" text) eqn:Hnow; [exists "Now"; congruence|].
    exists "Index". assumption. }
  destruct Hs as [lit Hs].
  destruct (re_search_shape lit text group1 Hs) as (_ & Hd & Hl).
  apply py_int_of_group; assumption.
Qed.

Lemma extracted_value_none (text : list N) :
  extracted_value text = None -> find_match text = None.
Proof.
  unfold extracted_value. destruct (find_match text) as [g|] eqn:Hm; [|reflexivity].
  destruct (find_match_value text g Hm) as (n & Hn & _). congruence.
Qed.

Lemma fetch_html_unfold (url : string) (w : world) :
  fetch_html E url w =
  match next_reply E (html_request url) w with
  | Failed e =>
      (Ok PNone,
       emit ("[ERROR] " +:+ url +:+ ": " +:+ exn_str E (List.length (stdout w)) e)
         (send (html_request url) w))
  | Response code body =>
      match raise_for_status (code, body) with
      | Ok _ => (Ok (PStr body), send (html_request url) w)
      | Raised e =>
          (Ok PNone,
           emit ("[ERROR] " +:+ url +:+ ": " +:+
                 exn_str E (List.length (stdout w)) e)
             (send (html_request url) w))
      end
  end.
Proof.
  unfold fetch_html, try_except, bind, requests_get, lift, next_reply, str_exn.
  destruct (http_get E (List.length (sent w)) (html_request url))
    as [e|code body]; [reflexivity|].
  destruct (raise_for_status (code, body)); reflexivity.
Qed.

(** The [try] body on a page whose text is [text]. *)
Lemma fetch_fear_greed_try_text (body : string) (text : list N) (w : world) :
  soup_get_text E body = Some text ->
  fetch_fear_greed_try E (PStr body) w =
  match extracted_value text with
  | Some v =>
      if (0 <=? v) && (v <=? 100)
      then (Ok (PTuple [PInt v; PStr (threshold_label v)]),
            store "fear_greed"
              (PTuple [PInt v; PStr (threshold_label v)],
               time_time E (ticks w)) (tick w))
      else (Ok none_none, w)
  | None => (Ok none_none, w)
  end.
Proof.
  intros Htext. rewrite fetch_fear_greed_try_unfold. simpl. rewrite Htext. simpl.
  unfold extracted_value.
  destruct (find_match text) as [g|] eqn:Hm; [|reflexivity].
  destruct (find_match_value text g Hm) as (n & Hn & _). rewrite Hn.
  reflexivity.
Qed.

Lemma fetch_fear_greed_hit (w : world) :
  cache_hit E "fear_greed" w = true ->
  fetch_fear_greed E w = (Ok (cached_value E "fear_greed" w), tick w).
Proof.
  intros Hhit. destruct (cache_hit_fresh E _ _ Hhit) as (t & _ & _ & Hw).
  unfold fetch_fear_greed, bind. rewrite get_cached_value, Hw.
  unfold cache_hit in Hhit. rewrite Hhit. reflexivity.
Qed.

(** A miss on a page that delivers [text]. *)
Lemma fetch_fear_greed_delivered (w : world) (text : list N) :
  cache_hit E "fear_greed" w = false ->
  page_delivers E (next_reply E (html_request index_url) w) text ->
  let w1 := send (html_request index_url) (snd (get_cached E "fear_greed" w)) in
  fetch_fear_greed E w =
  match extracted_value text with
  | Some v =>
      if (0 <=? v) && (v <=? 100)
      then (Ok (PTuple [PInt v; PStr (threshold_label v)]),
            store "fear_greed"
              (PTuple [PInt v; PStr (threshold_label v)],
               time_time E (ticks w1)) (tick w1))
      else (Ok none_none, w1)
  | None => (Ok none_none, w1)
  end.
Proof.
  intros Hmiss (code & body & Hr & Hst & Hbody & Htext) w1.
  unfold fetch_fear_greed, bind. rewrite get_cached_value.
  unfold cache_hit in Hmiss. rewrite Hmiss.
  rewrite fetch_html_unfold.
  unfold next_reply in *. rewrite get_cached_sent, Hr, Hst.
  assert (Htruthy : truthy (PStr body) = true).
  { simpl. destruct (String.eqb_spec body ""); [contradiction|reflexivity]. }
  rewrite Htruthy. unfold negb, try_except. cbv beta iota.
  rewrite (fetch_fear_greed_try_text body text _ Htext). fold w1.
  destruct (extracted_value text) as [v|]; [|reflexivity].
  destruct ((0 <=? v) && (v <=? 100)); reflexivity.
Qed.

(** A miss on a page that delivers nothing. *)
Lemma fetch_fear_greed_undelivered (w : world) :
  cache_hit E "fear_greed" w = false ->
  (forall text,
      ~ page_delivers E (next_reply E (html_request index_url) w) text) ->
  exists w',
    fetch_fear_greed E w = (Ok none_none, w') /\
    cache w' = cache w /\
    sent w' = (sent w ++ [html_request index_url])%list.
Proof.
  intros Hmiss Hnot.
  unfold fetch_fear_greed, bind. rewrite get_cached_value.
  unfold cache_hit in Hmiss. rewrite Hmiss.
  rewrite fetch_html_unfold.
  assert (Hsame : next_reply E (html_request index_url)
                    (snd (get_cached E "fear_greed" w)) =
                  next_reply E (html_request index_url) w).
  { unfold next_reply. rewrite get_cached_sent. reflexivity. }
  rewrite Hsame.
  destruct (next_reply E (html_request index_url) w) as [e|code body] eqn:Hr.
  { eexists. split; [reflexivity|]. simpl.
    rewrite get_cached_cache, get_cached_sent. auto. }
  destruct (raise_for_status (code, body)) as [[]|e] eqn:Hst.
  2:{ eexists. split; [reflexivity|]. simpl.
      rewrite get_cached_cache, get_cached_sent. auto. }
  destruct (truthy (PStr body)) eqn:Htruthy; unfold negb; cbv beta iota.
  2:{ eexists. split; [reflexivity|]. simpl.
      rewrite get_cached_cache, get_cached_sent. auto. }
  unfold try_except. rewrite fetch_fear_greed_try_unfold. simpl soup_text.
  destruct (soup_get_text E body) as [text|] eqn:Htext; simpl.
  { exfalso. apply (Hnot text). exists code, body.
    repeat split; try assumption.
    intros ->. simpl in Htruthy. discriminate. }
  eexists. split; [reflexivity|]. simpl.
  rewrite get_cached_cache, get_cached_sent. auto.
Qed.

End SentimentFetcher.

(** ** Price validation *)

(** C3. When the cache gives nothing and the ticker's reply carries the
    number [price] under USD.last: if [price <= 0] the fetcher returns
    [None] and leaves the cache as it was; if [price > 0] it returns
    [price] and stores it under ["btc_price"]; and whatever [price] is,
    the result is [None] or a positive number, and the cache is either
    untouched or extended by that positive number. *)
Theorem price_validation (E : env) (w : world) (price : spec_float) :
  cache_hit E "btc_price" w = false ->
  ticker_delivers E (next_reply E ticker_request w) price ->
  let result := fst (fetch_btc_price E w) in
  let after := cache (snd (fetch_btc_price E w)) in
  let written := time_time E (ticks (snd (get_cached E "btc_price" w))) in
  (float_le_zero price = true -> result = Ok PNone /\ after = cache w) /\
  (float_gt_zero price = true ->
     result = Ok (PFloat price) /\
     after = <["btc_price" := (PFloat price, written)]> (cache w)) /\
  ((result = Ok PNone /\ after = cache w) \/
   (float_gt_zero price = true /\ result = Ok (PFloat price) /\
    after = <["btc_price" := (PFloat price, written)]> (cache w))).
Proof.
  intros Hmiss Hd result after written.
  assert (Hcases :
    (float_gt_zero price = false /\ result = Ok PNone /\ after = cache w) \/
    (float_gt_zero price = true /\ result = Ok (PFloat price) /\
     after = <["btc_price" := (PFloat price, written)]> (cache w))).
  { subst result after written.
    destruct (fetch_btc_price_miss E w Hmiss)
      as [(w' & Hrun & Hcache & _ & Hall)|(q & Hq & Hpos & Hrun)].
    - left. rewrite Hrun. simpl. auto.
    - right. rewrite (ticker_delivers_fun E _ _ _ Hd Hq).
      rewrite Hrun. simpl. rewrite get_cached_cache. auto. }
  split; [|split].
  - intros Hle. apply float_le_zero_not_gt in Hle.
    destruct Hcases as [(_ & ? & ?)|(Hpos & _)]; [auto|congruence].
  - intros Hpos.
    destruct Hcases as [(Hneg & _)|(_ & ? & ?)]; [congruence|auto].
  - destruct Hcases as [(_ & ? & ?)|?]; [left|right]; auto.
Qed.

Lemma price_validation_witness :
  fst (fetch_btc_price negative_env startup) = Ok PNone /\
  cache (snd (fetch_btc_price negative_env startup)) = ∅.
Proof.
  apply (price_validation negative_env startup minus_one).
  - reflexivity.
  - exists 200, "(body)", (ticker_body (PFloat minus_one)),
      (PDict [("15m", PFloat minus_one); ("last", PFloat minus_one);
              ("symbol", PStr "$")]), (PFloat minus_one).
    repeat split; reflexivity.
  - reflexivity.
Defined.

(** ** Out-of-range readings *)

(** C10. When the cache gives nothing, the page delivers its text, and
    the search for ["Now"] matches an integer outside [0,100], the
    sentiment fetcher returns the absent pair and leaves the cache as it
    was, whatever the search for ["Index"] would find in the same text. *)
Theorem now_out_of_range (E : env) (w : world) (text group1 : list N) (v : Z) :
  cache_hit E "fear_greed" w = false ->
  page_delivers E (next_reply E (html_request index_url) w) text ->
  re_search "Now" text = Some group1 ->
  py_int group1 = Some v ->
  ~ 0 <= v <= 100 ->
  fst (fetch_fear_greed E w) = Ok none_none /\
  cache (snd (fetch_fear_greed E w)) = cache w.
Proof.
  intros Hmiss Hd Hnow Hint Hout.
  rewrite (fetch_fear_greed_delivered E w text Hmiss Hd).
  unfold extracted_value. rewrite (find_match_now text group1 Hnow), Hint.
  replace ((0 <=? v) && (v <=? 100)) with false.
  - simpl. rewrite get_cached_cache. auto.
  - symmetry. apply andb_false_iff.
    destruct (Z.leb_spec 0 v); [|left; reflexivity].
    destruct (Z.leb_spec v 100); [lia|right; reflexivity].
Qed.

Lemma now_out_of_range_witness :
  re_search "Index" (codes "Now 150 -- Fear and Greed Index 10")
    = Some (codes "10") /\
  fst (fetch_fear_greed overflow_env startup) = Ok none_none /\
  cache (snd (fetch_fear_greed overflow_env startup)) = ∅.
Proof.
  split; [vm_compute; reflexivity|].
  apply (now_out_of_range overflow_env startup
           (codes "Now 150 -- Fear and Greed Index 10") (codes "150") 150).
  - reflexivity.
  - exists 200, "(body)". repeat split; first [reflexivity | discriminate].
  - vm_compute; reflexivity.
  - reflexivity.
  - lia.
Defined.

Lemma cache_freshness_witness :
  fst (get_cached calm_env "btc_price"
         (snd (set_cached calm_env "btc_price" (PFloat sample_price) startup)))
  = Ok (PFloat sample_price).
Proof.
  apply (cache_freshness calm_env "btc_price" (PFloat sample_price) startup
           (snd (set_cached calm_env "btc_price" (PFloat sample_price) startup))).
  - reflexivity.
  - reflexivity.
Defined.

Lemma label_by_thresholds_witness : threshold_label 45 = "Fear".
Proof. apply (label_by_thresholds 45); lia. Defined.

(** ** What a run of a fetcher does *)

Section Effects.

Variable E : env.

Lemma range_test (v : Z) :
  (0 <=? v) && (v <=? 100) = true <-> 0 <= v <= 100.
Proof. rewrite andb_true_iff, !Z.leb_le. tauto. Qed.

(** The price fetcher returns; it leaves the cache alone and returns
    [None] or a cached value that passes [if cached:], or it stores and
    returns a positive number; it sends at most the ticker request. *)
Lemma fetch_btc_price_effect (w : world) :
  exists v w',
    fetch_btc_price E w = (Ok v, w') /\
    ((cache_hit E "btc_price" w = true /\ w' = tick w /\
      v = cached_value E "btc_price" w) \/
     (cache_hit E "btc_price" w = false /\ v = PNone /\
      cache w' = cache w /\ sent w' = (sent w ++ [ticker_request])%list) \/
     (cache_hit E "btc_price" w = false /\
      exists f t, float_gt_zero f = true /\ v = PFloat f /\
        cache w' = <["btc_price" := (PFloat f, t)]> (cache w) /\
        sent w' = (sent w ++ [ticker_request])%list)).
Proof.
  destruct (cache_hit E "btc_price" w) eqn:Hhit.
  - exists (cached_value E "btc_price" w), (tick w).
    split; [apply fetch_btc_price_hit; assumption|]. left. auto.
  - destruct (fetch_btc_price_miss E w Hhit)
      as [(w' & Hrun & Hcache & Hsent & _)|(f & _ & Hpos & Hrun)].
    + exists PNone, w'. split; [assumption|]. right; left. auto.
    + eexists _, _. split; [exact Hrun|]. right; right.
      split; [reflexivity|]. eexists f, _. simpl.
      rewrite get_cached_cache, get_cached_sent. auto.
Qed.

Lemma page_delivers_dec (r : reply) :
  (exists text, page_delivers E r text) \/
  (forall text, ~ page_delivers E r text).
Proof.
  destruct r as [e|code body].
  { right. intros text (c & b & Hr & _). discriminate. }
  destruct (raise_for_status (code, body)) as [[]|e] eqn:Hst.
  2:{ right. intros text (c & b & [= <- <-] & Hst' & _). congruence. }
  destruct (String.eqb_spec body "") as [->|Hbody].
  { right. intros text (c & b & [= <- <-] & _ & Hne & _). congruence. }
  destruct (soup_get_text E body) as [text|] eqn:Htext.
  - left. exists text, code, body. auto.
  - right. intros text (c & b & [= <- <-] & _ & _ & Ht). congruence.
Qed.

(** The same for the sentiment fetcher. *)
Lemma fetch_fear_greed_effect (w : world) :
  exists v w',
    fetch_fear_greed E w = (Ok v, w') /\
    ((cache_hit E "fear_greed" w = true /\ w' = tick w /\
      v = cached_value E "fear_greed" w) \/
     (cache_hit E "fear_greed" w = false /\ v = none_none /\
      cache w' = cache w /\
      sent w' = (sent w ++ [html_request index_url])%list) \/
     (cache_hit E "fear_greed" w = false /\
      exists n t, 0 <= n <= 100 /\
        v = PTuple [PInt n; PStr (threshold_label n)] /\
        cache w' = <["fear_greed" := (v, t)]> (cache w) /\
        sent w' = (sent w ++ [html_request index_url])%list)).
Proof.
  destruct (cache_hit E "fear_greed" w) eqn:Hhit.
  { exists (cached_value E "fear_greed" w), (tick w).
    split; [apply fetch_fear_greed_hit; assumption|]. left. auto. }
  destruct (page_delivers_dec (next_reply E (html_request index_url) w))
    as [(text & Hd)|Hnot].
  2:{ destruct (fetch_fear_greed_undelivered E w Hhit Hnot)
        as (w' & Hrun & Hcache & Hsent).
      exists none_none, w'. split; [assumption|]. right; left. auto. }
  rewrite (fetch_fear_greed_delivered E w text Hhit Hd).
  destruct (extracted_value text) as [v|].
  2:{ eexists _, _. split; [reflexivity|]. right; left. simpl.
      rewrite get_cached_cache, get_cached_sent. auto. }
  destruct ((0 <=? v) && (v <=? 100)) eqn:Hrange.
  2:{ eexists _, _. split; [reflexivity|]. right; left. simpl.
      rewrite get_cached_cache, get_cached_sent. auto. }
  apply range_test in Hrange.
  eexists _, _. split; [reflexivity|]. right; right.
  split; [reflexivity|]. eexists v, _. simpl.
  rewrite get_cached_cache, get_cached_sent. auto.
Qed.

End Effects.

(** ** The cache invariant *)

Section Invariant.

Variable E : env.

Lemma cache_inv_empty : cache_inv ∅.
Proof. split; intros v t Hlook; rewrite lookup_empty in Hlook; discriminate. Qed.

Lemma cache_inv_price (c : gmap string (pyval * Z)) (f : spec_float) (t : Z) :
  cache_inv c -> float_gt_zero f = true ->
  cache_inv (<["btc_price" := (PFloat f, t)]> c).
Proof.
  intros [Hp Hs] Hpos. split; intros v t' Hlook.
  - rewrite lookup_insert_eq in Hlook. injection Hlook as <- <-.
    exists f. auto.
  - rewrite lookup_insert_ne in Hlook by discriminate. eauto.
Qed.

Lemma cache_inv_sentiment (c : gmap string (pyval * Z)) (n t : Z) :
  cache_inv c -> 0 <= n <= 100 ->
  cache_inv (<["fear_greed" := (PTuple [PInt n; PStr (threshold_label n)], t)]> c).
Proof.
  intros [Hp Hs] Hrange. split; intros v t' Hlook.
  - rewrite lookup_insert_ne in Hlook by discriminate. eauto.
  - rewrite lookup_insert_eq in Hlook. injection Hlook as <- <-.
    exists n. auto.
Qed.

Lemma price_entry_truthy (v : pyval) : price_entry v -> truthy v = true.
Proof. intros (f & -> & Hpos). apply float_gt_zero_truthy. assumption. Qed.

Lemma sentiment_entry_truthy (v : pyval) : sentiment_entry v -> truthy v = true.
Proof. intros (n & -> & _). reflexivity. Qed.

Lemma fetch_btc_price_inv (w : world) :
  cache_inv (cache w) ->
  exists v w',
    fetch_btc_price E w = (Ok v, w') /\
    cache_inv (cache w') /\ (v = PNone \/ price_entry v).
Proof.
  intros Hinv.
  destruct (fetch_btc_price_effect E w)
    as (v & w' & Hrun & [(Hhit & -> & ->)|[(_ & -> & Hc & _)|(_ & f & t & Hpos & -> & Hc & _)]]);
    eexists _, _; (split; [exact Hrun|]).
  - split; [exact Hinv|]. right.
    destruct (cache_hit_fresh E _ _ Hhit) as (t & Hlook & _).
    destruct Hinv as [Hp _]. eauto.
  - rewrite Hc. auto.
  - rewrite Hc. split; [apply cache_inv_price; assumption|].
    right. exists f. auto.
Qed.

Lemma fetch_fear_greed_inv (w : world) :
  cache_inv (cache w) ->
  exists v w',
    fetch_fear_greed E w = (Ok v, w') /\
    cache_inv (cache w') /\ (v = none_none \/ sentiment_entry v).
Proof.
  intros Hinv.
  destruct (fetch_fear_greed_effect E w)
    as (v & w' & Hrun & [(Hhit & -> & ->)|[(_ & -> & Hc & _)|(_ & n & t & Hr & -> & Hc & _)]]);
    eexists _, _; (split; [exact Hrun|]).
  - split; [exact Hinv|]. right.
    destruct (cache_hit_fresh E _ _ Hhit) as (t & Hlook & _).
    destruct Hinv as [_ Hs]. eauto.
  - rewrite Hc. auto.
  - rewrite Hc. split; [apply cache_inv_sentiment; assumption|].
    right. exists n. auto.
Qed.

(** A run of the composer from a cache that satisfies the invariant. *)
Lemma get_market_snapshot_run (w : world) :
  cache_inv (cache w) ->
  exists price w1 fv fl w2,
    fetch_btc_price E w = (Ok price, w1) /\
    fetch_fear_greed E w1 = (Ok (PTuple [fv; fl]), w2) /\
    get_market_snapshot E w =
      (Ok (<["timestamp" :=
               PStr (now_strftime E (ticks w2) "%Y-%m-%d %H:%M:%S")]>
           (<["fear_label" := fl]>
           (<["fear_value" := fv]>
           (<["btc_price" := price]> ∅)))), tick w2) /\
    cache_inv (cache w2) /\
    (price = PNone \/ price_entry price) /\
    ((fv = PNone /\ fl = PNone) \/
     (exists n, 0 <= n <= 100 /\ fv = PInt n /\ fl = PStr (threshold_label n))).
Proof.
  intros Hinv.
  destruct (fetch_btc_price_inv w Hinv) as (price & w1 & Hp & Hinv1 & Hprice).
  destruct (fetch_fear_greed_inv w1 Hinv1) as (pair & w2 & Hs & Hinv2 & Hpair).
  assert (Hshape : exists fv fl, pair = PTuple [fv; fl] /\
            ((fv = PNone /\ fl = PNone) \/
             (exists n, 0 <= n <= 100 /\ fv = PInt n /\
                        fl = PStr (threshold_label n)))).
  { destruct Hpair as [->|(n & -> & Hr)].
    - exists PNone, PNone. split; [reflexivity|]. left. auto.
    - eexists _, _. split; [reflexivity|]. right. exists n. auto. }
  destruct Hshape as (fv & fl & -> & Hfields).
  exists price, w1, fv, fl, w2.
  split; [assumption|]. split; [assumption|]. split; [|auto].
  unfold get_market_snapshot, bind. rewrite Hp, Hs. reflexivity.
Qed.

Lemma fetch_html_cache (url : string) (w : world) :
  cache (snd (fetch_html E url w)) = cache w.
Proof.
  rewrite fetch_html_unfold.
  destruct (next_reply E (html_request url) w) as [e|code body]; [reflexivity|].
  destruct (raise_for_status (code, body)); reflexivity.
Qed.

Lemma reachable_inv (w : world) : reachable E w -> cache_inv (cache w).
Proof.
  induction 1 as [|key w _ IH|url w _ IH|w _ IH|w _ IH|w _ IH].
  - apply cache_inv_empty.
  - rewrite get_cached_cache. assumption.
  - rewrite fetch_html_cache. assumption.
  - destruct (fetch_btc_price_inv w IH) as (v & w' & -> & Hinv & _). assumption.
  - destruct (fetch_fear_greed_inv w IH) as (v & w' & -> & Hinv & _). assumption.
  - destruct (get_market_snapshot_run w IH)
      as (p & w1 & fv & fl & w2 & _ & _ & -> & Hinv & _). assumption.
Qed.

Lemma hit_iff_fresh (key : string) (w : world) :
  (forall v t, cache w !! key = Some (v, t) -> truthy v = true) ->
  cache_hit E key w = true <-> present_and_fresh E key w.
Proof.
  intros Htruthy. split.
  - intros Hhit. destruct (cache_hit_fresh E _ _ Hhit) as (t & Hlook & Hage & _).
    eexists _, _. eauto.
  - intros (v & t & Hlook & Hage). unfold cache_hit, cached_value.
    rewrite (fresh_cached_value E key w v t Hlook Hage). simpl. eauto.
Qed.

End Invariant.

(** C9. In every state the process can reach from the empty cache, an
    entry under ["btc_price"] is a positive number and an entry under
    ["fear_greed"] is a pair of an integer between 0 and 100 and its
    threshold label; so for both keys the test [if cached:] passes
    exactly when an entry is stored and younger than [CACHE_TTL]. *)
Theorem cache_invariant (E : env) (w : world) :
  reachable E w ->
  (forall v t, cache w !! "btc_price" = Some (v, t) ->
     exists f, v = PFloat f /\ float_gt_zero f = true) /\
  (forall v t, cache w !! "fear_greed" = Some (v, t) ->
     exists n, v = PTuple [PInt n; PStr (threshold_label n)] /\ 0 <= n <= 100) /\
  (cache_hit E "btc_price" w = true <-> present_and_fresh E "btc_price" w) /\
  (cache_hit E "fear_greed" w = true <-> present_and_fresh E "fear_greed" w).
Proof.
  intros Hreach. destruct (reachable_inv E w Hreach) as [Hp Hs].
  split; [exact Hp|]. split; [exact Hs|]. split.
  - apply hit_iff_fresh. intros v t Hlook.
    apply price_entry_truthy. eauto.
  - apply hit_iff_fresh. intros v t Hlook.
    apply sentiment_entry_truthy. eauto.
Qed.

(** ** Failure modes *)

Section Failures.

Variable E : env.

Lemma status_error (code : Z) (body : string) :
  400 <= code < 600 -> raise_for_status (code, body) = Raised HTTPError.
Proof.
  intros [Hlo Hhi]. unfold raise_for_status. simpl.
  apply Z.leb_le in Hlo. apply Z.ltb_lt in Hhi. rewrite Hlo, Hhi. reflexivity.
Qed.

Lemma ticker_fails_no_price (r : reply) (price : spec_float) :
  ticker_fails E r -> ticker_delivers E r price -> float_gt_zero price = false.
Proof.
  intros Hfail (code & body & data & usd & last & Hr & Hst & Hj & Hu & Hl & Hf).
  unfold response_json in Hj. simpl in Hj.
  destruct Hfail as
    [ e | c b Hcode | c b Hbad | c b d e Hd Hnu | c b d u e Hd Hnu Hnl
    | c b d u l e Hd Hnu Hnl Hnf | c b d u l p Hd Hnu Hnl Hnf Hneg ];
    try discriminate; injection Hr as -> ->.
  - rewrite (status_error code body Hcode) in Hst. discriminate.
  - rewrite Hbad in Hj. discriminate.
  - rewrite Hd in Hj. simpl in Hj. congruence.
  - rewrite Hd in Hj. simpl in Hj. congruence.
  - rewrite Hd in Hj. simpl in Hj. congruence.
  - rewrite Hd in Hj. simpl in Hj. congruence.
Qed.

Lemma fetch_btc_price_fails (w : world) :
  cache_hit E "btc_price" w = false ->
  ticker_fails E (next_reply E ticker_request w) ->
  fst (fetch_btc_price E w) = Ok PNone /\
  cache (snd (fetch_btc_price E w)) = cache w.
Proof.
  intros Hmiss Hfail.
  destruct (fetch_btc_price_miss E w Hmiss)
    as [(w' & -> & Hc & _)|(f & Hd & Hpos & _)]; [auto|].
  rewrite (ticker_fails_no_price _ f Hfail Hd) in Hpos. discriminate.
Qed.

Lemma fetch_btc_price_succeeds (w : world) (price : spec_float) :
  cache_hit E "btc_price" w = false ->
  ticker_delivers E (next_reply E ticker_request w) price ->
  float_gt_zero price = true ->
  fst (fetch_btc_price E w) = Ok (PFloat price).
Proof.
  intros Hmiss Hd Hpos.
  destruct (fetch_btc_price_miss E w Hmiss)
    as [(w' & _ & _ & _ & Hall)|(f & Hf & _ & ->)].
  - rewrite (Hall price Hd) in Hpos. discriminate.
  - rewrite (ticker_delivers_fun E _ _ _ Hd Hf). reflexivity.
Qed.

Lemma page_delivers_fun (r : reply) (s t : list N) :
  page_delivers E r s -> page_delivers E r t -> s = t.
Proof.
  intros (c1 & b1 & Hr1 & _ & _ & Ht1) (c2 & b2 & Hr2 & _ & _ & Ht2).
  rewrite Hr1 in Hr2. injection Hr2 as <- <-. congruence.
Qed.

Lemma fetch_fear_greed_fails (w : world) :
  cache_hit E "fear_greed" w = false ->
  page_fails E (next_reply E (html_request index_url) w) ->
  fst (fetch_fear_greed E w) = Ok none_none /\
  cache (snd (fetch_fear_greed E w)) = cache w.
Proof.
  intros Hmiss Hfail.
  destruct (page_delivers_dec E (next_reply E (html_request index_url) w))
    as [(text & Hd)|Hnot].
  2:{ destruct (fetch_fear_greed_undelivered E w Hmiss Hnot)
        as (w' & -> & Hc & _). auto. }
  rewrite (fetch_fear_greed_delivered E w text Hmiss Hd).
  destruct Hd as (code & body & Hr & Hst & Hbody & Htext).
  assert (Hvalue : match extracted_value text with
                   | Some v => (0 <=? v) && (v <=? 100) = false
                   | None => True
                   end).
  { destruct Hfail as
      [ e | c b Hcode | c | c b Hno | c b t Ht Hnone | c b t v Ht Hv Hout ];
      try discriminate; injection Hr as <- <-.
    - rewrite (status_error c b Hcode) in Hst. discriminate.
    - contradiction.
    - congruence.
    - assert (t = text) as -> by congruence.
      unfold extracted_value. rewrite Hnone. exact I.
    - assert (t = text) as -> by congruence. rewrite Hv.
      destruct ((0 <=? v) && (v <=? 100)) eqn:Hrange; [|reflexivity].
      apply range_test in Hrange. contradiction. }
  destruct (extracted_value text) as [v|].
  - rewrite Hvalue. simpl. rewrite get_cached_cache. auto.
  - simpl. rewrite get_cached_cache. auto.
Qed.

Lemma fetch_fear_greed_succeeds (w : world) (text : list N) (v : Z) :
  cache_hit E "fear_greed" w = false ->
  page_delivers E (next_reply E (html_request index_url) w) text ->
  extracted_value text = Some v ->
  0 <= v <= 100 ->
  fst (fetch_fear_greed E w) = Ok (PTuple [PInt v; PStr (threshold_label v)]).
Proof.
  intros Hmiss Hd Hv Hrange.
  rewrite (fetch_fear_greed_delivered E w text Hmiss Hd), Hv.
  apply range_test in Hrange. rewrite Hrange. reflexivity.
Qed.

End Failures.

Lemma cache_invariant_witness :
  cache_hit calm_env "fear_greed" (snd (get_market_snapshot calm_env startup)) = true
  <-> present_and_fresh calm_env "fear_greed"
        (snd (get_market_snapshot calm_env startup)).
Proof.
  apply (cache_invariant calm_env (snd (get_market_snapshot calm_env startup))).
  apply reach_get_market_snapshot, reach_startup.
Defined.

(** ** The composer *)

(** C1. From any state the process can reach, the composer runs the
    price fetcher, then the sentiment fetcher on the state the price
    fetcher left, whatever the first returned, and returns a dict with
    exactly the keys [btc_price], [fear_value], [fear_label] and
    [timestamp]: the first holds the price fetcher's result, the next two
    the components of the sentiment fetcher's result, the last the
    formatted capture time.  In particular, when the ticker fails and
    the page yields a reading, only [btc_price] is [None]; when the
    ticker yields a price and the page fails, only the sentiment fields
    are [None]. *)
Theorem snapshot_composition (E : env) (w : world) :
  reachable E w ->
  let w1 := snd (fetch_btc_price E w) in
  let w2 := snd (fetch_fear_greed E w1) in
  exists price fv fl snapshot,
    fst (fetch_btc_price E w) = Ok price /\
    fst (fetch_fear_greed E w1) = Ok (PTuple [fv; fl]) /\
    get_market_snapshot E w = (Ok snapshot, tick w2) /\
    snapshot !! "btc_price" = Some price /\
    snapshot !! "fear_value" = Some fv /\
    snapshot !! "fear_label" = Some fl /\
    snapshot !! "timestamp" =
      Some (PStr (now_strftime E (ticks w2) "%Y-%m-%d %H:%M:%S")) /\
    dom snapshot =
      ({["btc_price"; "fear_value"; "fear_label"; "timestamp"]} : gset string) /\
    (fv = PNone <-> fl = PNone) /\
    (forall text v,
        cache_hit E "btc_price" w = false ->
        ticker_fails E (next_reply E ticker_request w) ->
        cache_hit E "fear_greed" w1 = false ->
        page_delivers E (next_reply E (html_request index_url) w1) text ->
        extracted_value text = Some v ->
        0 <= v <= 100 ->
        price = PNone /\ fv = PInt v /\ fl = PStr (threshold_label v)) /\
    (forall f,
        cache_hit E "btc_price" w = false ->
        ticker_delivers E (next_reply E ticker_request w) f ->
        float_gt_zero f = true ->
        cache_hit E "fear_greed" w1 = false ->
        page_fails E (next_reply E (html_request index_url) w1) ->
        price = PFloat f /\ fv = PNone /\ fl = PNone).
Proof.
  intros Hreach w1 w2.
  destruct (get_market_snapshot_run E w (reachable_inv E w Hreach))
    as (price & w1' & fv & fl & w2' & Hp & Hs & Hrun & _ & _ & Hfields).
  assert (Hw1 : w1' = w1) by (unfold w1; rewrite Hp; reflexivity).
  subst w1'.
  assert (Hw2 : w2' = w2) by (unfold w2; rewrite Hs; reflexivity).
  subst w2'.
  eexists price, fv, fl, _.
  split; [rewrite Hp; reflexivity|].
  split; [rewrite Hs; reflexivity|].
  split; [exact Hrun|].
  split; [reflexivity|]. split; [reflexivity|]. split; [reflexivity|].
  split; [reflexivity|].
  split; [rewrite !dom_insert_L, dom_empty_L; set_solver|].
  split.
  { destruct Hfields as [[-> ->]|(n & _ & -> & ->)]; split; congruence. }
  split.
  - intros text v Hm1 Hfail Hm2 Hd Hv Hrange.
    pose proof (fetch_btc_price_fails E w Hm1 Hfail) as [Hnone _].
    pose proof (fetch_fear_greed_succeeds E w1 text v Hm2 Hd Hv Hrange) as Hsome.
    rewrite Hp in Hnone. rewrite Hs in Hsome. simpl in *.
    injection Hnone as ->. injection Hsome as -> ->. auto.
  - intros f Hm1 Hd Hpos Hm2 Hfail.
    pose proof (fetch_btc_price_succeeds E w f Hm1 Hd Hpos) as Hsome.
    pose proof (fetch_fear_greed_fails E w1 Hm2 Hfail) as [Hnone _].
    rewrite Hp in Hsome. rewrite Hs in Hnone. simpl in *.
    injection Hsome as ->. injection Hnone as -> ->. auto.
Qed.

Lemma snapshot_composition_witness :
  exists snapshot,
    fst (get_market_snapshot flaky_env startup) = Ok snapshot /\
    snapshot !! "btc_price" = Some PNone /\
    snapshot !! "fear_value" = Some (PInt 38) /\
    snapshot !! "fear_label" = Some (PStr "Fear").
Proof.
  destruct (snapshot_composition flaky_env startup (reach_startup flaky_env))
    as (price & fv & fl & snapshot & _ & _ & Hrun & Hbtc & Hfv & Hfl & _ & _ & _
        & Hone & _).
  destruct (Hone (codes "Now 38") 38) as (Hp & Hv & Hl).
  - reflexivity.
  - apply ticker_transport.
  - reflexivity.
  - exists 200, "(body)". repeat split; first [reflexivity | discriminate].
  - reflexivity.
  - lia.
  - exists snapshot. rewrite Hrun, Hbtc, Hfv, Hfl, Hp, Hv, Hl.
    repeat split; reflexivity.
Defined.

(** ** No exception leaves a fetcher *)

Section Boundary.

Variable E : env.

Lemma ticker_fails_or_delivers (r : reply) :
  ticker_fails E r \/
  exists price, ticker_delivers E r price /\ float_gt_zero price = true.
Proof.
  destruct r as [e|code body]; [left; apply ticker_transport|].
  destruct (raise_for_status (code, body)) as [[]|e] eqn:Hst.
  2:{ left. apply ticker_status. unfold raise_for_status in Hst. simpl in Hst.
      destruct (Z.leb_spec 400 code); [|discriminate].
      destruct (Z.ltb_spec code 600); [lia|discriminate]. }
  destruct (json_loads E body) as [data|] eqn:Hj;
    [|left; apply ticker_malformed; assumption].
  destruct (py_getitem data "USD") as [usd|e] eqn:Hu;
    [|left; eapply ticker_no_usd; eassumption].
  destruct (py_getitem usd "last") as [last|e] eqn:Hl;
    [|left; eapply ticker_no_last; eassumption].
  destruct (py_float E last) as [price|e] eqn:Hf;
    [|left; eapply ticker_not_a_number; eassumption].
  destruct (float_gt_zero price) eqn:Hpos;
    [|left; eapply ticker_not_positive; eassumption].
  right. exists price. split; [|assumption].
  exists code, body, data, usd, last. unfold response_json. simpl.
  rewrite Hj. auto 10.
Qed.

Lemma page_fails_or_delivers (r : reply) :
  page_fails E r \/
  exists text v, page_delivers E r text /\
                 extracted_value text = Some v /\ 0 <= v <= 100.
Proof.
  destruct r as [e|code body]; [left; apply page_transport|].
  destruct (raise_for_status (code, body)) as [[]|e] eqn:Hst.
  2:{ left. apply page_status. unfold raise_for_status in Hst. simpl in Hst.
      destruct (Z.leb_spec 400 code); [|discriminate].
      destruct (Z.ltb_spec code 600); [lia|discriminate]. }
  destruct (decide (body = "")) as [Hempty|Hbody];
    [rewrite Hempty; left; apply page_empty|].
  destruct (soup_get_text E body) as [text|] eqn:Htext;
    [|left; apply page_unparsed; assumption].
  destruct (extracted_value text) as [v|] eqn:Hv.
  2:{ left. eapply page_no_match; [eassumption|].
      apply extracted_value_none. assumption. }
  destruct (Z.le_gt_cases 0 v); [|left; eapply page_out_of_range; eauto; lia].
  destruct (Z.le_gt_cases v 100); [|left; eapply page_out_of_range; eauto; lia].
  right. exists text, v. split; [|auto]. exists code, body. auto.
Qed.

End Boundary.

(** C6. Whatever the servers do, the call of either fetcher ends with a
    value, never with an exception.  Every reply of the ticker is either
    one of the failures (no connection or a timeout, an error status, a
    body that does not decode, a missing key, a field that is no number
    or not positive) or carries a positive price, and on each failure
    the price fetcher, finding nothing in the cache, returns [None].
    The same holds for the index page with the pair [(None, None)].  So
    from any state the process can reach the composer returns a
    snapshot. *)
Theorem fetchers_never_raise (E : env) (w : world) :
  (exists v w', fetch_btc_price E w = (Ok v, w')) /\
  (exists v w', fetch_fear_greed E w = (Ok v, w')) /\
  (forall url, exists v w', fetch_html E url w = (Ok v, w')) /\
  (forall r, ticker_fails E r \/
             exists price, ticker_delivers E r price /\
                           float_gt_zero price = true) /\
  (forall r, page_fails E r \/
             exists text v, page_delivers E r text /\
                            extracted_value text = Some v /\ 0 <= v <= 100) /\
  (cache_hit E "btc_price" w = false ->
   ticker_fails E (next_reply E ticker_request w) ->
   fst (fetch_btc_price E w) = Ok PNone) /\
  (cache_hit E "fear_greed" w = false ->
   page_fails E (next_reply E (html_request index_url) w) ->
   fst (fetch_fear_greed E w) = Ok none_none) /\
  (reachable E w ->
   exists snapshot w', get_market_snapshot E w = (Ok snapshot, w')).
Proof.
  split.
  { destruct (fetch_btc_price_effect E w) as (v & w' & Hrun & _). eauto. }
  split.
  { destruct (fetch_fear_greed_effect E w) as (v & w' & Hrun & _). eauto. }
  split.
  { intros url. rewrite fetch_html_unfold.
    destruct (next_reply E (html_request url) w) as [e|code body]; [eauto|].
    destruct (raise_for_status (code, body)); eauto. }
  split; [apply ticker_fails_or_delivers|].
  split; [apply page_fails_or_delivers|].
  split.
  { intros Hmiss Hfail. apply fetch_btc_price_fails; assumption. }
  split.
  { intros Hmiss Hfail. apply fetch_fear_greed_fails; assumption. }
  intros Hreach.
  destruct (get_market_snapshot_run E w (reachable_inv E w Hreach))
    as (p & w1 & fv & fl & w2 & _ & _ & Hrun & _). eauto.
Qed.

Lemma fetchers_never_raise_witness :
  fst (fetch_btc_price flaky_env startup) = Ok PNone.
Proof.
  apply (fetchers_never_raise flaky_env startup).
  - reflexivity.
  - apply ticker_transport.
Defined.

(** ** Outbound requests *)

Section Requests.

Variable E : env.

Lemma fetch_html_sent (url : string) (w : world) :
  sent (snd (fetch_html E url w)) = (sent w ++ [html_request url])%list.
Proof.
  rewrite fetch_html_unfold.
  destruct (next_reply E (html_request url) w) as [e|code body]; [reflexivity|].
  destruct (raise_for_status (code, body)); reflexivity.
Qed.

Lemma issued_app (w after : world) (new : list request) :
  sent after = (sent w ++ new)%list -> issued w after = new.
Proof.
  intros Hsent. unfold issued. rewrite Hsent. apply drop_app_length.
Qed.

Lemma fetch_btc_price_issued (w : world) :
  issued w (snd (fetch_btc_price E w)) = [] \/
  issued w (snd (fetch_btc_price E w)) = [ticker_request].
Proof.
  destruct (fetch_btc_price_effect E w)
    as (v & w' & -> & [(_ & -> & _)|[(_ & _ & _ & Hs)|(_ & f & t & _ & _ & _ & Hs)]]);
    simpl.
  - left. apply issued_app. simpl. rewrite app_nil_r. reflexivity.
  - right. apply issued_app. assumption.
  - right. apply issued_app. assumption.
Qed.

Lemma fetch_fear_greed_issued (w : world) :
  issued w (snd (fetch_fear_greed E w)) = [] \/
  issued w (snd (fetch_fear_greed E w)) = [html_request index_url].
Proof.
  destruct (fetch_fear_greed_effect E w)
    as (v & w' & -> & [(_ & -> & _)|[(_ & _ & _ & Hs)|(_ & f & t & _ & _ & _ & Hs)]]);
    simpl.
  - left. apply issued_app. simpl. rewrite app_nil_r. reflexivity.
  - right. apply issued_app. assumption.
  - right. apply issued_app. assumption.
Qed.

Lemma get_market_snapshot_sent (w : world) :
  sent (snd (get_market_snapshot E w)) =
  sent (snd (fetch_fear_greed E (snd (fetch_btc_price E w)))).
Proof.
  unfold get_market_snapshot, bind, lift.
  destruct (fetch_btc_price_effect E w) as (p & w1 & -> & _). simpl.
  destruct (fetch_fear_greed_effect E w1) as (fg & w2 & -> & _). simpl.
  destruct (unpack2 fg); reflexivity.
Qed.

Lemma issued_sent (w after : world) (new : list request) :
  issued w after = new ->
  (exists old, sent after = (sent w ++ old)%list) ->
  sent after = (sent w ++ new)%list.
Proof.
  intros Hissued [old Hold]. rewrite <- Hissued. unfold issued.
  rewrite Hold, drop_app_length. reflexivity.
Qed.

Lemma fetch_btc_price_extends (w : world) :
  exists old, sent (snd (fetch_btc_price E w)) = (sent w ++ old)%list.
Proof.
  destruct (fetch_btc_price_effect E w)
    as (v & w' & -> & [(_ & -> & _)|[(_ & _ & _ & Hs)|(_ & f & t & _ & _ & _ & Hs)]]);
    simpl; [exists []; rewrite app_nil_r; reflexivity | eauto | eauto].
Qed.

Lemma fetch_fear_greed_extends (w : world) :
  exists old, sent (snd (fetch_fear_greed E w)) = (sent w ++ old)%list.
Proof.
  destruct (fetch_fear_greed_effect E w)
    as (v & w' & -> & [(_ & -> & _)|[(_ & _ & _ & Hs)|(_ & f & t & _ & _ & _ & Hs)]]);
    simpl; [exists []; rewrite app_nil_r; reflexivity | eauto | eauto].
Qed.

End Requests.

Lemma html_request_browser_like (url : string) :
  browser_like (html_request url).
Proof.
  exists html_headers, USER_AGENT. split; [reflexivity|].
  unfold html_headers. apply list_elem_of_In. simpl. auto.
Qed.

Lemma ticker_request_plain : ~ browser_like ticker_request.
Proof. intros (headers & agent & Hh & _). discriminate. Qed.

(** C7, as the code has it.  Every request of the core carries the
    timeout [REQUEST_TIMEOUT] = 15.  [fetch_html] sends exactly one
    request, with the browser-like header set whose User-Agent is
    [USER_AGENT].  [fetch_btc_price] sends at most one request, the
    ticker request, which carries no headers of its own.  A call of the
    composer sends these and nothing else: the ticker request if any,
    then the page request if any. *)
Theorem request_settings (E : env) (w : world) :
  REQUEST_TIMEOUT = 15 /\
  (forall url,
      issued w (snd (fetch_html E url w)) = [html_request url] /\
      req_timeout (html_request url) = REQUEST_TIMEOUT /\
      req_headers (html_request url) = Some html_headers /\
      ("User-Agent", USER_AGENT) ∈ html_headers /\
      browser_like (html_request url)) /\
  (issued w (snd (fetch_btc_price E w)) = [] \/
   issued w (snd (fetch_btc_price E w)) = [ticker_request]) /\
  req_timeout ticker_request = REQUEST_TIMEOUT /\
  req_headers ticker_request = None /\
  (issued w (snd (fetch_fear_greed E w)) = [] \/
   issued w (snd (fetch_fear_greed E w)) = [html_request index_url]) /\
  (exists price_requests page_requests,
      issued w (snd (get_market_snapshot E w)) =
        (price_requests ++ page_requests)%list /\
      (price_requests = [] \/ price_requests = [ticker_request]) /\
      (page_requests = [] \/ page_requests = [html_request index_url])).
Proof.
  split; [reflexivity|]. split.
  { intros url. split; [apply issued_app, fetch_html_sent|].
    split; [reflexivity|]. split; [reflexivity|].
    split; [|apply html_request_browser_like].
    unfold html_headers. apply list_elem_of_In. simpl. auto. }
  split; [apply fetch_btc_price_issued|].
  split; [reflexivity|]. split; [reflexivity|].
  split; [apply fetch_fear_greed_issued|].
  set (w1 := snd (fetch_btc_price E w)).
  exists (issued w w1), (issued w1 (snd (fetch_fear_greed E w1))).
  split; [|split; [apply fetch_btc_price_issued|apply fetch_fear_greed_issued]].
  apply issued_app. rewrite get_market_snapshot_sent. fold w1.
  rewrite (issued_sent w1 _ _ eq_refl (fetch_fear_greed_extends E w1)).
  rewrite (issued_sent w w1 _ eq_refl (fetch_btc_price_extends E w)) at 1.
  rewrite app_assoc. reflexivity.
Qed.

(** C7 as stated fails: the request that [fetch_btc_price] sends from a
    cold cache carries no header set. *)
Lemma ticker_request_without_headers :
  ~ (forall (E : env) (w : world) (r : request),
        r ∈ issued w (snd (fetch_btc_price E w)) ->
        req_timeout r = 15 /\ browser_like r).
Proof.
  intros Hclaim.
  destruct (Hclaim calm_env startup ticker_request) as [_ Hbrowser].
  - apply list_elem_of_In. vm_compute. auto.
  - exact (ticker_request_plain Hbrowser).
Qed.

(** ** Reading twice *)

Section Reread.

Variable E : env.

Lemma hit_of_fresh (key : string) (w : world) (v : pyval) (t : Z) :
  cache w !! key = Some (v, t) ->
  time_time E (ticks w) - t < CACHE_TTL ->
  truthy v = true ->
  cache_hit E key w = true /\ cached_value E key w = v.
Proof.
  intros Hlook Hage Htruthy. unfold cache_hit, cached_value.
  rewrite (fresh_cached_value E key w v t Hlook Hage). auto.
Qed.

(** A price that is not [None] passes [if cached:] and is in the cache
    after the call. *)
Lemma fetch_btc_price_cached (w : world) (v : pyval) (w' : world) :
  fetch_btc_price E w = (Ok v, w') ->
  v <> PNone ->
  truthy v = true /\ exists t, cache w' !! "btc_price" = Some (v, t).
Proof.
  intros Hrun Hsome.
  destruct (fetch_btc_price_effect E w)
    as (v' & w'' & Hrun' & Hcases).
  rewrite Hrun in Hrun'. injection Hrun' as <- <-.
  destruct Hcases as [(Hhit & -> & ->)|[(_ & -> & _)|(_ & f & t & Hpos & -> & Hc & _)]].
  - split; [exact Hhit|].
    destruct (cache_hit_fresh E _ _ Hhit) as (t & Hlook & _). eauto.
  - contradiction.
  - split; [apply float_gt_zero_truthy; assumption|].
    exists t. rewrite Hc. apply lookup_insert_eq.
Qed.

Lemma fetch_fear_greed_cached (w : world) (v fv fl : pyval) (w' : world) :
  fetch_fear_greed E w = (Ok v, w') ->
  unpack2 v = Ok (fv, fl) ->
  fv <> PNone ->
  truthy v = true /\ exists t, cache w' !! "fear_greed" = Some (v, t).
Proof.
  intros Hrun Hun Hsome.
  destruct (fetch_fear_greed_effect E w)
    as (v' & w'' & Hrun' & Hcases).
  rewrite Hrun in Hrun'. injection Hrun' as <- <-.
  destruct Hcases as [(Hhit & -> & ->)|[(_ & -> & _)|(_ & n & t & _ & -> & Hc & _)]].
  - split; [exact Hhit|].
    destruct (cache_hit_fresh E _ _ Hhit) as (t & Hlook & _). eauto.
  - simpl in Hun. injection Hun as <- <-. contradiction.
  - split; [reflexivity|].
    exists t. rewrite Hc. apply lookup_insert_eq.
Qed.

(** The sentiment fetcher does not touch the entry of the price. *)
Lemma fetch_fear_greed_keeps_price (w : world) :
  cache (snd (fetch_fear_greed E w)) !! "btc_price" = cache w !! "btc_price".
Proof.
  destruct (fetch_fear_greed_effect E w)
    as (v & w' & -> & [(_ & -> & _)|[(_ & _ & Hc & _)|(_ & n & t & _ & _ & Hc & _)]]);
    simpl; [reflexivity | rewrite Hc; reflexivity | rewrite Hc].
  apply lookup_insert_ne. discriminate.
Qed.

End Reread.

(** C8, as the code has it.  When a call of the composer returned a
    price and a sentiment value that are not [None], and a second call
    follows on the state the first one left, reading the clock less than
    [CACHE_TTL] after the timestamps of the two entries, then the second
    call returns the same [btc_price], [fear_value] and [fear_label] and
    sends no request. *)
Theorem reread_served_from_cache (E : env) (w w1 : world)
    (s1 : gmap string pyval) :
  get_market_snapshot E w = (Ok s1, w1) ->
  s1 !! "btc_price" <> Some PNone ->
  s1 !! "fear_value" <> Some PNone ->
  (forall v t, cache w1 !! "btc_price" = Some (v, t) ->
               time_time E (ticks w1) - t < CACHE_TTL) ->
  (forall v t, cache w1 !! "fear_greed" = Some (v, t) ->
               time_time E (S (ticks w1)) - t < CACHE_TTL) ->
  exists s2 w2,
    get_market_snapshot E w1 = (Ok s2, w2) /\
    same_fields s1 s2 /\
    sent w2 = sent w1 /\
    issued w1 w2 = [].
Proof.
  intros Hrun Hprice Hvalue Hfresh_p Hfresh_s.
  unfold get_market_snapshot, bind, lift in Hrun.
  destruct (fetch_btc_price E w) as [[p|e] wa] eqn:Hp; [|discriminate].
  destruct (fetch_fear_greed E wa) as [[fg|e] wb] eqn:Hs; [|discriminate].
  destruct (unpack2 fg) as [[fv fl]|e] eqn:Hun; [|discriminate].
  simpl in Hrun. injection Hrun as <- <-.
  assert (Hp_some : p <> PNone).
  { intros ->. apply Hprice. reflexivity. }
  assert (Hfv_some : fv <> PNone).
  { intros ->. apply Hvalue. reflexivity. }
  destruct (fetch_btc_price_cached E w p wa Hp Hp_some) as (Htp & tp & Hlp).
  destruct (fetch_fear_greed_cached E wa fg fv fl wb Hs Hun Hfv_some)
    as (Hts & ts & Hls).
  assert (Hlp' : cache wb !! "btc_price" = Some (p, tp)).
  { pose proof (fetch_fear_greed_keeps_price E wa) as Hkeep.
    rewrite Hs in Hkeep. simpl in Hkeep. congruence. }
  set (w1 := tick wb) in *.
  destruct (hit_of_fresh E "btc_price" w1 p tp Hlp' (Hfresh_p p tp Hlp') Htp)
    as (Hhit_p & Hval_p).
  assert (Hls' : cache (tick w1) !! "fear_greed" = Some (fg, ts)) by exact Hls.
  destruct (hit_of_fresh E "fear_greed" (tick w1) fg ts Hls'
              (Hfresh_s fg ts Hls) Hts) as (Hhit_s & Hval_s).
  eexists _, _. split.
  { unfold get_market_snapshot, bind, lift.
    rewrite (fetch_btc_price_hit E w1 Hhit_p), Hval_p.
    rewrite (fetch_fear_greed_hit E (tick w1) Hhit_s), Hval_s.
    rewrite Hun. reflexivity. }
  split; [repeat split; reflexivity|].
  split; [reflexivity|].
  unfold issued. simpl. apply drop_all.
Qed.

Lemma reread_served_from_cache_witness :
  exists s2 w2,
    get_market_snapshot calm_env (snd calm_first) = (Ok s2, w2) /\
    same_fields calm_snapshot s2 /\
    sent w2 = sent (snd calm_first) /\
    issued (snd calm_first) w2 = [].
Proof.
  apply (reread_served_from_cache calm_env startup (snd calm_first) calm_snapshot).
  - vm_compute. reflexivity.
  - vm_compute. discriminate.
  - vm_compute. discriminate.
  - intros v t Hlook. vm_compute in Hlook. injection Hlook as <- <-.
    vm_compute. reflexivity.
  - intros v t Hlook. vm_compute in Hlook. injection Hlook as <- <-.
    vm_compute. reflexivity.
Defined.

(** C8 as stated fails: when the ticker times out during the first call
    and answers during the second, with the clock standing still, the
    second call sends a request and returns another price. *)
Lemma reread_after_failure :
  ~ (forall (E : env) (w : world),
        reachable E w ->
        within_ttl E w
          (snd (get_market_snapshot E (snd (get_market_snapshot E w)))) ->
        exists s1 s2,
          fst (get_market_snapshot E w) = Ok s1 /\
          fst (get_market_snapshot E (snd (get_market_snapshot E w))) = Ok s2 /\
          same_fields s1 s2 /\
          issued (snd (get_market_snapshot E w))
            (snd (get_market_snapshot E (snd (get_market_snapshot E w)))) = []).
Proof.
  intros Hclaim.
  destruct (Hclaim flaky_env startup (reach_startup flaky_env))
    as (s1 & s2 & _ & _ & _ & Hissued).
  - intros i j _ _ _. reflexivity.
  - vm_compute in Hissued. discriminate.
Qed.

(** ** Runs on the sample environments *)

(** The scenario of a price of 67890.12 and a page showing "Now 38". *)
Example calm_scenario :
  calm_snapshot !! "btc_price" = Some (PFloat sample_price) /\
  calm_snapshot !! "fear_value" = Some (PInt 38) /\
  calm_snapshot !! "fear_label" = Some (PStr "Fear") /\
  List.length (sent (snd calm_first)) = 2%nat.
Proof. vm_compute. auto. Qed.

(** The ticker times out once: the first snapshot has no price, the
    second one has it, after a third request. *)
Example flaky_scenario :
  exists s1 w1 s2 w2,
    get_market_snapshot flaky_env startup = (Ok s1, w1) /\
    get_market_snapshot flaky_env w1 = (Ok s2, w2) /\
    s1 !! "btc_price" = Some PNone /\
    s2 !! "btc_price" = Some (PFloat sample_price) /\
    s1 !! "fear_value" = Some (PInt 38) /\
    s2 !! "fear_value" = Some (PInt 38) /\
    issued w1 w2 = [ticker_request].
Proof.
  eexists _, _, _, _. split; [vm_compute; reflexivity|].
  split; [vm_compute; reflexivity|]. vm_compute. auto 10.
Qed.

(** Pages with Arabic-Indic digits.  On "Now ٣ 150 Index 10" the reading
    is 3, the digit right after "Now", and it is cached; on
    "Now ١٥٠ -- 42" the number after "Now" is 150, out of range, and
    nothing is read or cached. *)
Example arabic_digit_scenarios :
  re_search "Now" arabic_3_text = Some [0x663]%N /\
  fst (fetch_fear_greed arabic_3_env startup)
    = Ok (PTuple [PInt 3; PStr "Extreme Fear"]) /\
  cache (snd (fetch_fear_greed arabic_3_env startup)) !! "fear_greed"
    = Some (PTuple [PInt 3; PStr "Extreme Fear"], 0) /\
  re_search "Now" arabic_150_text = Some [0x661; 0x665; 0x660]%N /\
  py_int [0x661; 0x665; 0x660]%N = Some 150 /\
  fst (fetch_fear_greed arabic_150_env startup) = Ok none_none /\
  cache (snd (fetch_fear_greed arabic_150_env startup)) = ∅.
Proof. vm_compute. auto 10. Qed.

(** * Further properties of the core *)

(** ** Exact worlds after the price fetcher *)

Section PriceWorlds.

Variable E : env.

Lemma raise_for_status_ok (code : Z) (body : string) :
  ~ 400 <= code < 600 -> raise_for_status (code, body) = Ok tt.
Proof.
  intros Hcode. unfold raise_for_status. simpl.
  destruct (Z.leb_spec 400 code); [|reflexivity].
  destruct (Z.ltb_spec code 600); [lia|reflexivity].
Qed.

Lemma get_cached_world (key : string) (w : world) :
  snd (get_cached E key w) = w \/ snd (get_cached E key w) = tick w.
Proof.
  rewrite get_cached_unfold.
  destruct (cache w !! key) as [[v t]|]; simpl; auto.
Qed.

Lemma get_cached_stdout (key : string) (w : world) :
  stdout (snd (get_cached E key w)) = stdout w.
Proof.
  destruct (get_cached_world key w) as [-> | ->]; reflexivity.
Qed.

Lemma message_after_get (key : string) (w : world) (e : exn) :
  message_in E (snd (get_cached E key w)) e = message_in E w e.
Proof. unfold message_in. rewrite get_cached_stdout. reflexivity. Qed.

Lemma fetch_btc_price_try_raises (w : world) (e : exn) :
  ticker_raises E (next_reply E ticker_request w) e ->
  fetch_btc_price_try E w = (Raised e, send ticker_request w).
Proof.
  unfold next_reply. intros Hraise.
  unfold fetch_btc_price_try, bind, requests_get, lift, response_json.
  inversion Hraise as
    [ e' Hr | code body Hcode Hr | code body Hcode Hj Hr
    | code body data e' Hcode Hj Hc Hr | code body data e' Hcode Hj Hc Hu Hr
    | code body data usd e' Hcode Hj Hu Hc Hr
    | code body data usd e' Hcode Hj Hu Hc Hl Hr
    | code body data usd last e' Hcode Hj Hu Hl Hf Hr ]; subst;
    try (rewrite (raise_for_status_ok code body Hcode)); simpl.
  - reflexivity.
  - rewrite (status_error code body Hcode). reflexivity.
  - rewrite Hj. reflexivity.
  - rewrite Hj. simpl. rewrite Hc. reflexivity.
  - rewrite Hj. simpl. rewrite Hc, Hu. reflexivity.
  - rewrite Hj. simpl. rewrite (getitem_contains _ _ _ Hu), Hu, Hc. reflexivity.
  - rewrite Hj. simpl. rewrite (getitem_contains _ _ _ Hu), Hu, Hc, Hl.
    reflexivity.
  - rewrite Hj. simpl.
    rewrite (getitem_contains _ _ _ Hu), Hu, (getitem_contains _ _ _ Hl), Hl, Hf.
    reflexivity.
Qed.

Lemma fetch_btc_price_try_silent (w : world) :
  ticker_silent E (next_reply E ticker_request w) ->
  fetch_btc_price_try E w = (Ok None, send ticker_request w).
Proof.
  unfold next_reply. intros Hsilent.
  unfold fetch_btc_price_try, bind, requests_get, lift, response_json.
  inversion Hsilent as
    [ code body data Hcode Hj Hc Hr
    | code body data usd Hcode Hj Hu Hc Hr
    | code body data usd last price Hcode Hj Hu Hl Hf Hneg Hr ]; subst;
    rewrite (raise_for_status_ok code body Hcode); simpl; rewrite Hj; simpl.
  - rewrite Hc. reflexivity.
  - rewrite (getitem_contains _ _ _ Hu), Hu, Hc. reflexivity.
  - rewrite (getitem_contains _ _ _ Hu), Hu, (getitem_contains _ _ _ Hl), Hl, Hf.
    simpl. rewrite Hneg. reflexivity.
Qed.

(** Every reply falls in exactly one of the three classes; here: in one. *)
Lemma ticker_reply_classes (r : reply) :
  (exists e, ticker_raises E r e) \/
  ticker_silent E r \/
  (exists price, ticker_delivers E r price /\ float_gt_zero price = true).
Proof.
  destruct r as [e|code body]; [left; exists e; constructor|].
  destruct (decide (400 <= code < 600)) as [Hcode|Hcode];
    [left; exists HTTPError; apply tr_status; assumption|].
  destruct (json_loads E body) as [data|] eqn:Hj;
    [|left; eexists; apply tr_malformed; assumption].
  destruct (py_contains "USD" data) as [[|]|e] eqn:Hc1.
  3:{ left. exists e. eapply tr_data; eassumption. }
  2:{ right; left. eapply ts_no_usd; eassumption. }
  destruct (py_getitem data "USD") as [usd|e] eqn:Hu;
    [|left; exists e; eapply tr_index; eassumption].
  destruct (py_contains "last" usd) as [[|]|e] eqn:Hc2.
  3:{ left. exists e. eapply tr_usd; eassumption. }
  2:{ right; left. eapply ts_no_last; eassumption. }
  destruct (py_getitem usd "last") as [last|e] eqn:Hl;
    [|left; exists e; eapply tr_usd_index; eassumption].
  destruct (py_float E last) as [price|e] eqn:Hf;
    [|left; exists e; eapply tr_float; eassumption].
  destruct (float_gt_zero price) eqn:Hpos;
    [|right; left; eapply ts_not_positive; eassumption].
  right; right. exists price. split; [|assumption].
  exists code, body, data, usd, last. unfold response_json. simpl.
  rewrite Hj, (raise_for_status_ok code body Hcode). auto 10.
Qed.

Lemma fetch_btc_price_on_miss (w : world) (returned : outcome (option pyval))
    (w' : world) :
  cache_hit E "btc_price" w = false ->
  fetch_btc_price_try E (snd (get_cached E "btc_price" w)) = (returned, w') ->
  fetch_btc_price E w =
  match returned with
  | Ok (Some v) => (Ok v, w')
  | Ok None => (Ok PNone, w')
  | Raised e => (Ok PNone, emit (ticker_error_line (message_in E w' e)) w')
  end.
Proof.
  intros Hmiss Htry. unfold fetch_btc_price, bind. rewrite get_cached_value.
  unfold cache_hit in Hmiss. rewrite Hmiss. unfold try_except. rewrite Htry.
  destruct returned as [[v|]|e]; reflexivity.
Qed.

Lemma next_reply_after_get (key : string) (r : request) (w : world) :
  next_reply E r (snd (get_cached E key w)) = next_reply E r w.
Proof. unfold next_reply. rewrite get_cached_sent. reflexivity. Qed.

End PriceWorlds.

Lemma error_line_intro (rest : string) : error_line ("[ERROR] " +:+ rest).
Proof. exists rest. reflexivity. Qed.

(** ** Exact worlds after the sentiment fetcher *)

Section SentimentWorlds.

Variable E : env.

Lemma fetch_fear_greed_on_miss (w : world) :
  cache_hit E "fear_greed" w = false ->
  fetch_fear_greed E w =
  (let w0 := snd (get_cached E "fear_greed" w) in
   let page := fetch_html E index_url w0 in
   match fst page with
   | Ok html =>
       if negb (truthy html) then (Ok none_none, snd page)
       else
         match fetch_fear_greed_try E html (snd page) with
         | (Ok v, w') => (Ok v, w')
         | (Raised e, w') =>
             (Ok none_none, emit (parse_error_line (message_in E w' e)) w')
         end
   | Raised e => (Raised e, snd page)
   end).
Proof.
  intros Hmiss. cbv zeta.
  set (w0 := snd (get_cached E "fear_greed" w)).
  unfold fetch_fear_greed, bind. rewrite get_cached_value. fold w0.
  unfold cache_hit in Hmiss. rewrite Hmiss.
  destruct (fetch_html E index_url w0) as [[html|e] w1]; [|reflexivity].
  cbv beta iota delta [fst snd].
  destruct (truthy html); [|reflexivity]. unfold negb. cbv beta iota.
  unfold try_except.
  destruct (fetch_fear_greed_try E html w1) as [[v|e] w']; reflexivity.
Qed.

(** The page cannot be had: [fetch_html] prints its line. *)
Lemma fetch_fear_greed_no_page (w : world) (e : exn) :
  cache_hit E "fear_greed" w = false ->
  (next_reply E (html_request index_url) w = Failed e \/
   exists code body,
     next_reply E (html_request index_url) w = Response code body /\
     400 <= code < 600 /\ e = HTTPError) ->
  fetch_fear_greed E w =
  (Ok none_none,
   emit (html_error_line index_url (message_in E w e))
     (send (html_request index_url) (snd (get_cached E "fear_greed" w)))).
Proof.
  intros Hmiss Hreply. rewrite (fetch_fear_greed_on_miss w Hmiss). cbv zeta.
  rewrite fetch_html_unfold, next_reply_after_get.
  rewrite <- (message_after_get E "fear_greed" w e).
  destruct Hreply as [->|(code & body & -> & Hcode & ->)]; [reflexivity|].
  rewrite (status_error code body Hcode). reflexivity.
Qed.

(** The page is empty: nothing is printed. *)
Lemma fetch_fear_greed_empty_page (w : world) (code : Z) :
  cache_hit E "fear_greed" w = false ->
  next_reply E (html_request index_url) w = Response code EmptyString ->
  ~ 400 <= code < 600 ->
  fetch_fear_greed E w =
  (Ok none_none,
   send (html_request index_url) (snd (get_cached E "fear_greed" w))).
Proof.
  intros Hmiss Hreply Hcode. rewrite (fetch_fear_greed_on_miss w Hmiss). cbv zeta.
  rewrite fetch_html_unfold, next_reply_after_get, Hreply.
  rewrite (raise_for_status_ok code _ Hcode). reflexivity.
Qed.

(** The text extraction raises: the fetcher prints its own line. *)
Lemma fetch_fear_greed_no_text (w : world) (code : Z) (body : string) :
  cache_hit E "fear_greed" w = false ->
  next_reply E (html_request index_url) w = Response code body ->
  ~ 400 <= code < 600 ->
  body <> EmptyString ->
  soup_get_text E body = None ->
  fetch_fear_greed E w =
  (Ok none_none,
   emit (parse_error_line (message_in E w ParserError))
     (send (html_request index_url) (snd (get_cached E "fear_greed" w)))).
Proof.
  intros Hmiss Hreply Hcode Hbody Htext.
  rewrite <- (message_after_get E "fear_greed" w ParserError).
  rewrite (fetch_fear_greed_on_miss w Hmiss). cbv zeta.
  rewrite fetch_html_unfold, next_reply_after_get, Hreply.
  rewrite (raise_for_status_ok code _ Hcode). cbv beta iota delta [fst snd].
  assert (Htruthy : truthy (PStr body) = true).
  { simpl. destruct (String.eqb_spec body ""); [contradiction|reflexivity]. }
  rewrite Htruthy. unfold negb. cbv beta iota.
  rewrite fetch_fear_greed_try_unfold. simpl soup_text. rewrite Htext.
  reflexivity.
Qed.

(** All worlds a miss can end in. *)
Lemma fetch_fear_greed_world (w : world) :
  cache_hit E "fear_greed" w = false ->
  let w1 := send (html_request index_url) (snd (get_cached E "fear_greed" w)) in
  (exists line, error_line line /\
     fetch_fear_greed E w = (Ok none_none, emit line w1)) \/
  fetch_fear_greed E w = (Ok none_none, w1) \/
  (exists n, 0 <= n <= 100 /\
     fetch_fear_greed E w =
     (Ok (PTuple [PInt n; PStr (threshold_label n)]),
      store "fear_greed"
        (PTuple [PInt n; PStr (threshold_label n)], time_time E (ticks w1))
        (tick w1))).
Proof.
  intros Hmiss w1.
  destruct (next_reply E (html_request index_url) w) as [e|code body] eqn:Hr.
  { left. exists (html_error_line index_url (message_in E w e)).
    split; [apply error_line_intro|].
    apply fetch_fear_greed_no_page; auto. }
  destruct (decide (400 <= code < 600)) as [Hcode|Hcode].
  { left. exists (html_error_line index_url (message_in E w HTTPError)).
    split; [apply error_line_intro|].
    apply fetch_fear_greed_no_page; [assumption|].
    right. exists code, body. auto. }
  destruct (decide (body = "")) as [->|Hbody].
  { right; left. eapply fetch_fear_greed_empty_page; eassumption. }
  destruct (soup_get_text E body) as [text|] eqn:Htext.
  2:{ left. exists (parse_error_line (message_in E w ParserError)).
      split; [apply (error_line_intro
                       ("Fear&Greed parse: " +:+ message_in E w ParserError))|].
      eapply fetch_fear_greed_no_text; eassumption. }
  assert (Hd : page_delivers E (next_reply E (html_request index_url) w) text).
  { exists code, body. rewrite (raise_for_status_ok code body Hcode). auto. }
  rewrite (fetch_fear_greed_delivered E w text Hmiss Hd). fold w1.
  destruct (extracted_value text) as [v|]; [|right; left; reflexivity].
  destruct ((0 <=? v) && (v <=? 100)) eqn:Hrange; [|right; left; reflexivity].
  right; right. exists v. split; [apply range_test; assumption|reflexivity].
Qed.

End SentimentWorlds.

(** ** Evolution of the world *)

Section EvolutionFacts.

Variable E : env.

Lemma evolves_trans (w1 w2 w3 : world) :
  evolves E w1 w2 -> evolves E w2 w3 -> evolves E w1 w3.
Proof.
  intros H12 H23. induction H23; try assumption.
  - apply ev_tick. auto.
  - apply ev_send; auto.
  - apply ev_emit; auto.
  - apply ev_store_price; auto.
  - apply ev_store_sentiment; auto.
Qed.

Lemma get_cached_evolves (key : string) (w : world) :
  evolves E w (snd (get_cached E key w)).
Proof.
  destruct (get_cached_world E key w) as [-> | ->];
    [apply ev_same | apply ev_tick, ev_same].
Qed.

Lemma html_request_core (url : string) : core_request (html_request url).
Proof. right. exists url. reflexivity. Qed.

Lemma ticker_request_core : core_request ticker_request.
Proof. left. reflexivity. Qed.

Lemma html_error_line_ok (url msg : string) :
  error_line (html_error_line url msg).
Proof. apply error_line_intro. Qed.

Lemma ticker_error_line_ok (msg : string) : error_line (ticker_error_line msg).
Proof. apply (error_line_intro ("Blockchain API error: " +:+ msg)). Qed.

Lemma parse_error_line_ok (msg : string) : error_line (parse_error_line msg).
Proof. apply (error_line_intro ("Fear&Greed parse: " +:+ msg)). Qed.

Lemma fetch_html_evolves (url : string) (w : world) :
  evolves E w (snd (fetch_html E url w)).
Proof.
  rewrite fetch_html_unfold.
  pose proof (ev_send E w w (html_request url) (ev_same E w)
                (html_request_core url)) as Hsend.
  destruct (next_reply E (html_request url) w) as [e|code body].
  - apply ev_emit; [assumption|apply (html_error_line_ok url)].
  - destruct (raise_for_status (code, body)); [assumption|].
    apply ev_emit; [assumption|apply (html_error_line_ok url)].
Qed.

Lemma fetch_btc_price_evolves (w : world) :
  evolves E w (snd (fetch_btc_price E w)).
Proof.
  destruct (cache_hit E "btc_price" w) eqn:Hhit.
  { rewrite (fetch_btc_price_hit E w Hhit). apply ev_tick, ev_same. }
  set (w0 := snd (get_cached E "btc_price" w)).
  assert (H0 : evolves E w (send ticker_request w0)).
  { apply ev_send; [apply get_cached_evolves | apply ticker_request_core]. }
  destruct (ticker_reply_classes E (next_reply E ticker_request w0))
    as [(e & Hraise)|[Hsilent|(price & Hd & Hpos)]].
  - rewrite (fetch_btc_price_on_miss E w _ _ Hhit
               (fetch_btc_price_try_raises E w0 e Hraise)).
    apply ev_emit; [assumption|apply ticker_error_line_ok].
  - rewrite (fetch_btc_price_on_miss E w _ _ Hhit
               (fetch_btc_price_try_silent E w0 Hsilent)).
    assumption.
  - pose proof (fetch_btc_price_try_delivered E w0 price Hd) as Htry.
    rewrite Hpos in Htry.
    rewrite (fetch_btc_price_on_miss E w _ _ Hhit Htry).
    apply (ev_store_price E w (send ticker_request w0) price H0 Hpos).
Qed.

Lemma fetch_fear_greed_evolves (w : world) :
  evolves E w (snd (fetch_fear_greed E w)).
Proof.
  destruct (cache_hit E "fear_greed" w) eqn:Hhit.
  { rewrite (fetch_fear_greed_hit E w Hhit). apply ev_tick, ev_same. }
  set (w0 := snd (get_cached E "fear_greed" w)).
  assert (H0 : evolves E w (send (html_request index_url) w0)).
  { apply ev_send; [apply get_cached_evolves | apply html_request_core]. }
  destruct (fetch_fear_greed_world E w Hhit)
    as [(line & Hline & ->)|[->|(n & Hn & ->)]]; fold w0.
  - apply ev_emit; assumption.
  - assumption.
  - apply (ev_store_sentiment E w (send (html_request index_url) w0) n H0 Hn).
Qed.

Lemma get_market_snapshot_evolves (w : world) :
  evolves E w (snd (get_market_snapshot E w)).
Proof.
  pose proof (fetch_btc_price_evolves w) as H1.
  unfold get_market_snapshot, bind, lift.
  destruct (fetch_btc_price E w) as [[p|e] w1]; [|exact H1].
  pose proof (fetch_fear_greed_evolves w1) as H2.
  destruct (fetch_fear_greed E w1) as [[pair|e] w2];
    [|exact (evolves_trans _ _ _ H1 H2)].
  simpl in H1, H2. pose proof (evolves_trans _ _ _ H1 H2) as H12.
  destruct (unpack2 pair); [|exact H12].
  simpl. apply ev_tick. exact H12.
Qed.

Lemma reachable_evolves (w : world) : reachable E w -> evolves E startup w.
Proof.
  induction 1 as [|key w _ IH|url w _ IH|w _ IH|w _ IH|w _ IH].
  - apply ev_same.
  - exact (evolves_trans _ _ _ IH (get_cached_evolves key w)).
  - exact (evolves_trans _ _ _ IH (fetch_html_evolves url w)).
  - exact (evolves_trans _ _ _ IH (fetch_btc_price_evolves w)).
  - exact (evolves_trans _ _ _ IH (fetch_fear_greed_evolves w)).
  - exact (evolves_trans _ _ _ IH (get_market_snapshot_evolves w)).
Qed.

Lemma evolves_grows (w w' : world) : evolves E w w' -> grows w w'.
Proof.
  induction 1 as [w|w w' _ IH|w w' r _ IH _|w w' line _ IH _
                 |w w' f _ IH _|w w' n _ IH _].
  - repeat split; auto; reflexivity.
  - destruct IH as (Ht & Hs & Ho & Hk). repeat split; simpl; auto.
  - destruct IH as (Ht & Hs & Ho & Hk). repeat split; simpl; auto.
    apply prefix_app_r. assumption.
  - destruct IH as (Ht & Hs & Ho & Hk). repeat split; simpl; auto.
    apply prefix_app_r. assumption.
  - destruct IH as (Ht & Hs & Ho & Hk). repeat split; simpl; auto.
    intros key Hkey. destruct (decide ("btc_price" = key)) as [<-|Hne].
    + rewrite lookup_insert_eq. eauto.
    + rewrite lookup_insert_ne by assumption. auto.
  - destruct IH as (Ht & Hs & Ho & Hk). repeat split; simpl; auto.
    intros key Hkey. destruct (decide ("fear_greed" = key)) as [<-|Hne].
    + rewrite lookup_insert_eq. eauto.
    + rewrite lookup_insert_ne by assumption. auto.
Qed.

(** What holds of every world that evolved from the start. *)
Lemma evolved_shape (w : world) :
  evolves E startup w ->
  (forall key, is_Some (cache w !! key) ->
     key = "btc_price" \/ key = "fear_greed") /\
  (forall key v t, cache w !! key = Some (v, t) ->
     exists n, (n < ticks w)%nat /\ t = time_time E n) /\
  (forall r, r ∈ sent w -> core_request r) /\
  (forall line, line ∈ stdout w -> error_line line).
Proof.
  intros Hev. remember startup as w0 eqn:Hw0.
  induction Hev as [w|w w' _ IH|w w' r _ IH Hr|w w' line _ IH Hl
                   |w w' f _ IH _|w w' n _ IH _]; subst.
  - repeat split.
    + intros key [x Hx]. simpl in Hx. rewrite lookup_empty in Hx. discriminate.
    + intros key v t Hx. simpl in Hx. rewrite lookup_empty in Hx. discriminate.
    + intros r Hr. simpl in Hr. apply elem_of_nil in Hr. contradiction.
    + intros l Hl. simpl in Hl. apply elem_of_nil in Hl. contradiction.
  - destruct (IH eq_refl) as (Hk & Ht & Hs & Ho). repeat split; simpl; auto.
    intros key v t Hx. destruct (Ht key v t Hx) as (n & Hn & ->).
    exists n. split; [lia|reflexivity].
  - destruct (IH eq_refl) as (Hk & Ht & Hs & Ho). repeat split; simpl; auto.
    intros r' Hin. apply elem_of_app in Hin as [Hin|Hin]; [auto|].
    apply list_elem_of_singleton in Hin. subst. assumption.
  - destruct (IH eq_refl) as (Hk & Ht & Hs & Ho). repeat split; simpl; auto.
    intros l Hin. apply elem_of_app in Hin as [Hin|Hin]; [auto|].
    apply list_elem_of_singleton in Hin. subst. assumption.
  - destruct (IH eq_refl) as (Hk & Ht & Hs & Ho). repeat split; simpl; auto.
    + intros key Hkey. destruct (decide ("btc_price" = key)) as [<-|Hne];
        [auto|]. rewrite lookup_insert_ne in Hkey by assumption. auto.
    + intros key v t Hx. destruct (decide ("btc_price" = key)) as [<-|Hne].
      * rewrite lookup_insert_eq in Hx. injection Hx as <- <-.
        exists (ticks w'). split; [lia|reflexivity].
      * rewrite lookup_insert_ne in Hx by assumption.
        destruct (Ht key v t Hx) as (k & Hlt & ->).
        exists k. split; [lia|reflexivity].
  - destruct (IH eq_refl) as (Hk & Ht & Hs & Ho). repeat split; simpl; auto.
    + intros key Hkey. destruct (decide ("fear_greed" = key)) as [<-|Hne];
        [auto|]. rewrite lookup_insert_ne in Hkey by assumption. auto.
    + intros key v t Hx. destruct (decide ("fear_greed" = key)) as [<-|Hne].
      * rewrite lookup_insert_eq in Hx. injection Hx as <- <-.
        exists (ticks w'). split; [lia|reflexivity].
      * rewrite lookup_insert_ne in Hx by assumption.
        destruct (Ht key v t Hx) as (k & Hlt & ->).
        exists k. split; [lia|reflexivity].
Qed.

End EvolutionFacts.

(** ** Invariants of the reachable worlds *)

(** X1. In every world the process can reach, the cache holds no key
    other than ["btc_price"] and ["fear_greed"], and the timestamp of
    every entry is a reading the clock gave earlier; so on a clock that
    never runs backwards no entry is dated after the present reading. *)
Theorem cache_keys_and_stamps (E : env) (w : world) :
  reachable E w ->
  dom (cache w) ⊆ ({["btc_price"; "fear_greed"]} : gset string) /\
  (forall key v t, cache w !! key = Some (v, t) ->
     exists n, (n < ticks w)%nat /\ t = time_time E n) /\
  ((forall i j : nat, (i <= j)%nat -> time_time E i <= time_time E j) ->
   forall key v t, cache w !! key = Some (v, t) -> t <= time_time E (ticks w)).
Proof.
  intros Hreach.
  destruct (evolved_shape E w (reachable_evolves E w Hreach)) as (Hk & Ht & _).
  split; [|split].
  - intros key Hin. apply elem_of_dom in Hin.
    destruct (Hk key Hin) as [-> | ->]; set_solver.
  - exact Ht.
  - intros Hmono key v t Hx. destruct (Ht key v t Hx) as (n & Hn & ->).
    apply Hmono. lia.
Qed.

Lemma cache_keys_and_stamps_witness :
  dom (cache (snd calm_first)) ⊆ ({["btc_price"; "fear_greed"]} : gset string).
Proof.
  apply (cache_keys_and_stamps calm_env (snd calm_first)).
  apply reach_get_market_snapshot, reach_startup.
Defined.

(** X2. In every world the process can reach, every request that was
    sent is the ticker request or a page request, with the timeout
    [REQUEST_TIMEOUT], and every line that was printed begins with
    ["[ERROR] "]. *)
Theorem only_core_requests_and_error_lines (E : env) (w : world) :
  reachable E w ->
  (forall r, r ∈ sent w ->
     (r = ticker_request \/ exists url, r = html_request url) /\
     req_timeout r = REQUEST_TIMEOUT) /\
  (forall line, line ∈ stdout w -> exists rest, line = "[ERROR] " +:+ rest).
Proof.
  intros Hreach.
  destruct (evolved_shape E w (reachable_evolves E w Hreach))
    as (_ & _ & Hs & Ho).
  split; [|exact Ho].
  intros r Hr. pose proof (Hs r Hr) as Hcore. split; [exact Hcore|].
  destruct Hcore as [-> | (url & ->)]; reflexivity.
Qed.

Lemma only_core_requests_and_error_lines_witness :
  exists rest,
    "[ERROR] Blockchain API error: " +:+ sample_message Timeout
    = "[ERROR] " +:+ rest.
Proof.
  apply (only_core_requests_and_error_lines flaky_env
           (snd (get_market_snapshot flaky_env startup))).
  - apply reach_get_market_snapshot, reach_startup.
  - apply list_elem_of_In. vm_compute. auto.
Defined.

(** X3. A call of a fetcher or of the composer only adds to the world:
    it never deletes a cache entry, never drops or reorders a request
    already sent or a line already printed, and never winds back the
    count of clock readings. *)
Theorem core_only_adds (E : env) (w : world) :
  grows w (snd (fetch_btc_price E w)) /\
  grows w (snd (fetch_fear_greed E w)) /\
  grows w (snd (get_market_snapshot E w)) /\
  (forall url, grows w (snd (fetch_html E url w))) /\
  (forall key, grows w (snd (get_cached E key w))).
Proof.
  split; [apply (evolves_grows E), fetch_btc_price_evolves|].
  split; [apply (evolves_grows E), fetch_fear_greed_evolves|].
  split; [apply (evolves_grows E), get_market_snapshot_evolves|].
  split; [intros url; apply (evolves_grows E), fetch_html_evolves|].
  intros key. apply (evolves_grows E), get_cached_evolves.
Qed.

(** ** What the fetchers print *)

(** X4. The price fetcher prints nothing when it serves from the cache,
    when the ticker delivers a positive price, and when the reply fails
    validation without an exception: a decoded body without the key
    ["USD"] or ["last"], or a number that is not positive.  It prints
    exactly one line, ["[ERROR] Blockchain API error: "] followed by
    [str(e)], the message of the exception [e] that the [try] raised.
    Every reply is of one of these kinds. *)
Theorem price_fetch_logging (E : env) (w : world) :
  let r := next_reply E ticker_request w in
  let result := fst (fetch_btc_price E w) in
  let printed := stdout (snd (fetch_btc_price E w)) in
  (cache_hit E "btc_price" w = true -> printed = stdout w) /\
  (cache_hit E "btc_price" w = false ->
   forall e, ticker_raises E r e ->
     result = Ok PNone /\
     printed =
       (stdout w ++
        ["[ERROR] Blockchain API error: " +:+
         exn_str E (List.length (stdout w)) e])%list) /\
  (cache_hit E "btc_price" w = false ->
   ticker_silent E r ->
     result = Ok PNone /\ printed = stdout w) /\
  (cache_hit E "btc_price" w = false ->
   forall price, ticker_delivers E r price -> float_gt_zero price = true ->
     result = Ok (PFloat price) /\ printed = stdout w) /\
  (forall r', (exists e, ticker_raises E r' e) \/ ticker_silent E r' \/
              (exists price, ticker_delivers E r' price /\
                             float_gt_zero price = true)).
Proof.
  intros r result printed. subst r result printed.
  set (w0 := snd (get_cached E "btc_price" w)).
  assert (Hreply : next_reply E ticker_request w0 = next_reply E ticker_request w)
    by apply next_reply_after_get.
  assert (Hout : stdout w0 = stdout w) by apply get_cached_stdout.
  split; [|split; [|split; [|split]]].
  - intros Hhit. rewrite (fetch_btc_price_hit E w Hhit). reflexivity.
  - intros Hmiss e Hraise. rewrite <- Hreply in Hraise.
    rewrite (fetch_btc_price_on_miss E w _ _ Hmiss
               (fetch_btc_price_try_raises E w0 e Hraise)).
    unfold ticker_error_line, message_in. simpl. rewrite Hout. auto.
  - intros Hmiss Hsilent. rewrite <- Hreply in Hsilent.
    rewrite (fetch_btc_price_on_miss E w _ _ Hmiss
               (fetch_btc_price_try_silent E w0 Hsilent)).
    simpl. rewrite Hout. auto.
  - intros Hmiss price Hd Hpos. rewrite <- Hreply in Hd.
    pose proof (fetch_btc_price_try_delivered E w0 price Hd) as Htry.
    rewrite Hpos in Htry.
    rewrite (fetch_btc_price_on_miss E w _ _ Hmiss Htry).
    simpl. rewrite Hout. auto.
  - apply ticker_reply_classes.
Qed.

Lemma price_fetch_logging_witness :
  fst (fetch_btc_price flaky_env startup) = Ok PNone /\
  stdout (snd (fetch_btc_price flaky_env startup)) =
    [ "[ERROR] Blockchain API error: " +:+ sample_message Timeout ].
Proof.
  destruct (price_fetch_logging flaky_env startup) as (_ & Hraises & _).
  apply (Hraises eq_refl Timeout).
  apply (tr_transport flaky_env Timeout).
Defined.

(** X5. The sentiment fetcher prints nothing when it serves from the
    cache, when the page is empty, and whenever the page delivers a text,
    whether the text yields a reading, no match or a number out of
    range.  It prints exactly one line when the page cannot be had (the
    line of [fetch_html]: ["[ERROR] "], the URL, [": "] and [str(e)]) and
    when the text extraction raises (["[ERROR] Fear&Greed parse: "] and
    [str(e)]); [str(e)] is the message of the exception caught. *)
Theorem sentiment_fetch_logging (E : env) (w : world) :
  let r := next_reply E (html_request index_url) w in
  let result := fst (fetch_fear_greed E w) in
  let printed := stdout (snd (fetch_fear_greed E w)) in
  (cache_hit E "fear_greed" w = true -> printed = stdout w) /\
  (cache_hit E "fear_greed" w = false ->
   forall e, r = Failed e ->
     result = Ok none_none /\
     printed =
       (stdout w ++
        ["[ERROR] " +:+ index_url +:+ ": " +:+
         exn_str E (List.length (stdout w)) e])%list) /\
  (cache_hit E "fear_greed" w = false ->
   forall code body, r = Response code body -> 400 <= code < 600 ->
     result = Ok none_none /\
     printed =
       (stdout w ++
        ["[ERROR] " +:+ index_url +:+ ": " +:+
         exn_str E (List.length (stdout w)) HTTPError])%list) /\
  (cache_hit E "fear_greed" w = false ->
   forall code, r = Response code EmptyString -> ~ 400 <= code < 600 ->
     result = Ok none_none /\ printed = stdout w) /\
  (cache_hit E "fear_greed" w = false ->
   forall code body,
     r = Response code body -> ~ 400 <= code < 600 ->
     body <> EmptyString -> soup_get_text E body = None ->
     result = Ok none_none /\
     printed =
       (stdout w ++
        ["[ERROR] Fear&Greed parse: " +:+
         exn_str E (List.length (stdout w)) ParserError])%list) /\
  (cache_hit E "fear_greed" w = false ->
   forall text, page_delivers E r text -> printed = stdout w).
Proof.
  intros r result printed. subst r result printed.
  pose proof (get_cached_stdout E "fear_greed" w) as Hout.
  split; [|split; [|split; [|split; [|split]]]].
  - intros Hhit. rewrite (fetch_fear_greed_hit E w Hhit). reflexivity.
  - intros Hmiss e Hr.
    rewrite (fetch_fear_greed_no_page E w e Hmiss (or_introl Hr)).
    unfold html_error_line, message_in. simpl. rewrite Hout. auto.
  - intros Hmiss code body Hr Hcode.
    rewrite (fetch_fear_greed_no_page E w HTTPError Hmiss).
    + unfold html_error_line, message_in. simpl. rewrite Hout. auto.
    + right. exists code, body. auto.
  - intros Hmiss code Hr Hcode.
    rewrite (fetch_fear_greed_empty_page E w code Hmiss Hr Hcode).
    simpl. rewrite Hout. auto.
  - intros Hmiss code body Hr Hcode Hbody Htext.
    rewrite (fetch_fear_greed_no_text E w code body Hmiss Hr Hcode Hbody Htext).
    unfold parse_error_line, message_in. simpl. rewrite Hout. auto.
  - intros Hmiss text Hd.
    rewrite (fetch_fear_greed_delivered E w text Hmiss Hd).
    destruct (extracted_value text) as [v|]; [|simpl; exact Hout].
    destruct ((0 <=? v) && (v <=? 100)); simpl; exact Hout.
Qed.

Lemma sentiment_fetch_logging_witness :
  fst (fetch_fear_greed down_env startup) = Ok none_none /\
  stdout (snd (fetch_fear_greed down_env startup)) =
    [ "[ERROR] https://alternative.me/crypto/fear-and-greed-index/: " +:+
      sample_message HTTPError ].
Proof.
  destruct (sentiment_fetch_logging down_env startup)
    as (_ & _ & Hstatus & _).
  apply (Hstatus eq_refl 503 "(body)"); [reflexivity|lia].
Defined.

(** ** Expired entries and the entries of the other fetcher *)

Lemma expired_is_miss (E : env) (key : string) (w : world) (v : pyval) (t : Z) :
  cache w !! key = Some (v, t) ->
  CACHE_TTL <= time_time E (ticks w) - t ->
  cache_hit E key w = false.
Proof.
  intros Hlook Hage. unfold cache_hit, cached_value.
  rewrite get_cached_unfold, Hlook.
  destruct (Z.ltb_spec (time_time E (ticks w) - t) CACHE_TTL); [lia|reflexivity].
Qed.

(** X6. Neither fetcher falls back on an expired entry: when the entry
    under its key is [CACHE_TTL] old or older and its source fails, the
    fetcher returns the absent result although the old value is still in
    the cache, and it leaves that entry as it was. *)
Theorem no_stale_fallback (E : env) (w : world) (v : pyval) (t : Z) :
  CACHE_TTL <= time_time E (ticks w) - t ->
  (cache w !! "btc_price" = Some (v, t) ->
   ticker_fails E (next_reply E ticker_request w) ->
   fst (fetch_btc_price E w) = Ok PNone /\
   cache (snd (fetch_btc_price E w)) !! "btc_price" = Some (v, t)) /\
  (cache w !! "fear_greed" = Some (v, t) ->
   page_fails E (next_reply E (html_request index_url) w) ->
   fst (fetch_fear_greed E w) = Ok none_none /\
   cache (snd (fetch_fear_greed E w)) !! "fear_greed" = Some (v, t)).
Proof.
  intros Hage. split; intros Hlook Hfail.
  - pose proof (expired_is_miss E _ w v t Hlook Hage) as Hmiss.
    destruct (fetch_btc_price_fails E w Hmiss Hfail) as [Hres Hcache].
    rewrite Hcache. auto.
  - pose proof (expired_is_miss E _ w v t Hlook Hage) as Hmiss.
    destruct (fetch_fear_greed_fails E w Hmiss Hfail) as [Hres Hcache].
    rewrite Hcache. auto.
Qed.

Lemma no_stale_fallback_witness :
  fst (fetch_btc_price flaky_env stale_world) = Ok PNone /\
  cache (snd (fetch_btc_price flaky_env stale_world)) !! "btc_price" =
    Some (PFloat sample_price, -100).
Proof.
  apply (no_stale_fallback flaky_env stale_world (PFloat sample_price) (-100)).
  - vm_compute. discriminate.
  - reflexivity.
  - apply ticker_transport.
Defined.

(** X7. Each fetcher writes under its own key only: the price fetcher
    leaves every entry but ["btc_price"] as it was, the sentiment fetcher
    every entry but ["fear_greed"], and the composer every entry but
    these two. *)
Theorem fetchers_keep_other_entries (E : env) (w : world) (key : string) :
  (key <> "btc_price" ->
   cache (snd (fetch_btc_price E w)) !! key = cache w !! key) /\
  (key <> "fear_greed" ->
   cache (snd (fetch_fear_greed E w)) !! key = cache w !! key) /\
  (key <> "btc_price" -> key <> "fear_greed" ->
   cache (snd (get_market_snapshot E w)) !! key = cache w !! key).
Proof.
  assert (Hprice : forall w0, key <> "btc_price" ->
            cache (snd (fetch_btc_price E w0)) !! key = cache w0 !! key).
  { intros w0 Hne.
    destruct (fetch_btc_price_effect E w0)
      as (v & w' & -> & [(_ & -> & _)|[(_ & _ & Hc & _)|(_ & f & t & _ & _ & Hc & _)]]);
      simpl; [reflexivity | rewrite Hc; reflexivity | rewrite Hc].
    apply lookup_insert_ne. congruence. }
  assert (Hsent : forall w0, key <> "fear_greed" ->
            cache (snd (fetch_fear_greed E w0)) !! key = cache w0 !! key).
  { intros w0 Hne.
    destruct (fetch_fear_greed_effect E w0)
      as (v & w' & -> & [(_ & -> & _)|[(_ & _ & Hc & _)|(_ & n & t & _ & _ & Hc & _)]]);
      simpl; [reflexivity | rewrite Hc; reflexivity | rewrite Hc].
    apply lookup_insert_ne. congruence. }
  split; [apply Hprice|]. split; [apply Hsent|].
  intros Hne1 Hne2.
  rewrite <- (Hprice w Hne1), <- (Hsent (snd (fetch_btc_price E w)) Hne2).
  unfold get_market_snapshot, bind, lift.
  destruct (fetch_btc_price_effect E w) as (p & w1 & -> & _). simpl.
  destruct (fetch_fear_greed_effect E w1) as (pair & w2 & -> & _). simpl.
  destruct (unpack2 pair); reflexivity.
Qed.

Lemma fetchers_keep_other_entries_witness :
  cache (snd (fetch_fear_greed calm_env stale_world)) !! "btc_price" =
  cache stale_world !! "btc_price".
Proof.
  apply (fetchers_keep_other_entries calm_env stale_world "btc_price").
  discriminate.
Defined.

(** X8. [set_cached] writes under its key only, and an overwrite leaves
    no trace of what it replaces: after two writes under the same key
    the cache is what the second write alone would have made of it, with
    the timestamp of the second write; requests and printed lines are
    not touched, and the clock is read once per write. *)
Theorem set_cached_overwrites (E : env) (k : string) (v1 v2 : pyval) (w : world) :
  let w1 := snd (set_cached E k v1 w) in
  let w2 := snd (set_cached E k v2 w1) in
  fst (set_cached E k v1 w) = Ok tt /\
  cache w2 = <[k := (v2, time_time E (S (ticks w)))]> (cache w) /\
  cache w2 !! k = Some (v2, time_time E (S (ticks w))) /\
  (forall k', k' <> k -> cache w1 !! k' = cache w !! k') /\
  ticks w1 = S (ticks w) /\ sent w1 = sent w /\ stdout w1 = stdout w.
Proof.
  intros w1 w2. subst w1 w2. rewrite !set_cached_unfold. simpl.
  split; [reflexivity|]. split; [apply insert_insert_eq|].
  split; [apply lookup_insert_eq|].
  split; [|auto].
  intros k' Hne. apply lookup_insert_ne. congruence.
Qed.

Lemma set_cached_overwrites_witness :
  cache (snd (set_cached calm_env "fear_greed" PNone stale_world)) !! "btc_price"
  = cache stale_world !! "btc_price".
Proof.
  apply (set_cached_overwrites calm_env "fear_greed" PNone PNone stale_world).
  discriminate.
Defined.

(** ** Long numbers on the page *)

Lemma take_digits_app (digits more : list N) :
  all_chars is_digit digits = true ->
  take_digits (List.length digits) (digits ++ more) = digits.
Proof.
  induction digits as [|d digits IH]; intros Hall; [reflexivity|].
  simpl in Hall. apply andb_true_iff in Hall as [Hd Hall].
  simpl. rewrite Hd, (IH Hall). reflexivity.
Qed.

Lemma re_search_here (lit : string) (subject group1 : list N) :
  match_here lit subject = Some group1 -> re_search lit subject = Some group1.
Proof. intros Hm. destruct subject; simpl; rewrite Hm; reflexivity. Qed.

(** X9. The search reads at most three digits: where the token is
    followed, after characters that are no digits of any script, by
    three digits, these three are the match whatever comes next, more
    digits included.  So a page text that begins with "Now" and shows a
    number of four or more digits yields the number made of its first
    three digits.  A digit of another script before the number is itself
    the match: "Now ٣ 1234" yields 3. *)
Theorem long_numbers_are_cut (lit : string) (token gap digits more : list N) :
  spells lit token = true ->
  all_chars non_digit gap = true ->
  all_chars is_digit digits = true ->
  List.length digits = 3%nat ->
  re_search lit (token ++ gap ++ digits ++ more) = Some digits /\
  (lit = "Now" ->
   extracted_value (token ++ gap ++ digits ++ more) = py_int digits) /\
  all_chars non_digit (codes " " ++ [0x663]%N ++ codes " ") = false /\
  extracted_value arabic_3_1234_text = Some 3.
Proof.
  intros Hlow Hgap Hall Hlen.
  assert (Hsearch :
    re_search lit (token ++ gap ++ digits ++ more) = Some digits).
  { destruct digits as [|d rest] eqn:Hd; [discriminate|].
    pose proof Hall as Hall'. simpl in Hall'.
    apply andb_true_iff in Hall' as [Hdigit _].
    apply re_search_here. simpl.
    rewrite (match_here_complete lit token gap (rest ++ more) d Hlow Hgap Hdigit).
    pose proof (take_digits_app (d :: rest) more Hall) as Htake.
    rewrite Hlen in Htake. simpl in Htake.
    rewrite Hdigit in Htake. exact (f_equal Some Htake). }
  split; [exact Hsearch|]. split.
  - intros ->. unfold extracted_value, find_match. rewrite Hsearch. reflexivity.
  - split; vm_compute; reflexivity.
Qed.

Lemma long_numbers_are_cut_witness :
  extracted_value (codes "Now: 1000") = Some 100.
Proof.
  destruct (long_numbers_are_cut "Now" (codes "Now") (codes ": ")
              (codes "100") (codes "0") eq_refl eq_refl eq_refl eq_refl)
    as (_ & Hnow & _).
  exact (Hnow eq_refl).
Defined.

(** ** Which numbers pass as a price *)

Lemma float_gt_zero_shape (f : spec_float) :
  float_gt_zero f = true ->
  f = S754_infinity false \/ exists m e, f = S754_finite false m e.
Proof.
  destruct f as [s|[|]| |[|] m e]; try discriminate; intros _; eauto.
Qed.

Lemma float_not_gt_zero_shape (f : spec_float) :
  float_gt_zero f = false ->
  f = S754_nan \/ f = S754_infinity true \/ (exists s, f = S754_zero s) \/
  exists m e, f = S754_finite true m e.
Proof.
  destruct f as [s|[|]| |[|] m e]; try discriminate; intros _; eauto 8.
Qed.

Lemma fetch_btc_price_rejects (E : env) (w : world) (f : spec_float) :
  cache_hit E "btc_price" w = false ->
  ticker_delivers E (next_reply E ticker_request w) f ->
  float_gt_zero f = false ->
  fst (fetch_btc_price E w) = Ok PNone.
Proof.
  intros Hmiss Hd Hneg.
  destruct (fetch_btc_price_miss E w Hmiss)
    as [(w' & -> & _)|(q & Hq & Hpos & _)]; [reflexivity|].
  rewrite (ticker_delivers_fun E _ _ _ Hd Hq) in Hneg. congruence.
Qed.

(** X10. Of the numbers the ticker can deliver under USD.last, the
    price fetcher accepts the positive finite ones and positive
    infinity, and nothing else: zeros of either sign, negative numbers,
    negative infinity and NaN give [None]. *)
Theorem price_acceptance (E : env) (w : world) (f : spec_float) :
  cache_hit E "btc_price" w = false ->
  ticker_delivers E (next_reply E ticker_request w) f ->
  (fst (fetch_btc_price E w) = Ok (PFloat f) <->
   f = S754_infinity false \/ exists m e, f = S754_finite false m e) /\
  (fst (fetch_btc_price E w) = Ok PNone <->
   f = S754_nan \/ f = S754_infinity true \/ (exists s, f = S754_zero s) \/
   exists m e, f = S754_finite true m e).
Proof.
  intros Hmiss Hd.
  destruct (float_gt_zero f) eqn:Hpos.
  - rewrite (fetch_btc_price_succeeds E w f Hmiss Hd Hpos).
    apply float_gt_zero_shape in Hpos. split; split.
    + intros _. exact Hpos.
    + reflexivity.
    + discriminate.
    + intros Hbad.
      destruct Hpos as [-> | (m & e & ->)];
        destruct Hbad as [H|[H|[[s H]|(m' & e' & H)]]]; discriminate.
  - rewrite (fetch_btc_price_rejects E w f Hmiss Hd Hpos).
    apply float_not_gt_zero_shape in Hpos. split; split.
    + discriminate.
    + intros Hgood.
      destruct Hgood as [-> | (m & e & ->)];
        destruct Hpos as [H|[H|[[s H]|(m' & e' & H)]]]; discriminate.
    + intros _. exact Hpos.
    + reflexivity.
Qed.

Lemma price_acceptance_witness :
  fst (fetch_btc_price thousand_env startup) = Ok (PFloat (S754_infinity false)).
Proof.
  apply (price_acceptance thousand_env startup (S754_infinity false)).
  - reflexivity.
  - exists 200, "(body)", (ticker_body (PFloat (S754_infinity false))),
      (PDict [("15m", PFloat (S754_infinity false));
              ("last", PFloat (S754_infinity false)); ("symbol", PStr "$")]),
      (PFloat (S754_infinity false)).
    repeat split; reflexivity.
  - left. reflexivity.
Defined.

(** * The presentation layer *)

(** ** The formatter *)

Section FormatterFacts.

Variable H : host.

Lemma mood_line_int (n : Z) (fg_lbl : pyval) :
  mood_line H (PInt n) fg_lbl =
  Ok (mood_emoji n +:+ " Fear & Greed: *" +:+ decimal n +:+
      "* (" +:+ py_str H fg_lbl +:+ ")").
Proof.
  unfold mood_line, mood_emoji, py_lt_int, and_then. simpl py_str.
  destruct (n <? 40); [reflexivity|].
  destruct (n <? 60); reflexivity.
Qed.

Lemma price_line_positive (f : spec_float) :
  float_gt_zero f = true ->
  price_line (PFloat f) = Ok ("💰 BTC: *$" +:+ format_2f f +:+ "*").
Proof.
  intros Hpos. unfold price_line.
  rewrite (float_gt_zero_truthy f Hpos). reflexivity.
Qed.

End FormatterFacts.

(** X11. The formatter accepts every snapshot the composer returns from
    a reachable state: it returns a text of five lines, the title, the
    rule, the price line, the sentiment line and the time line.  The
    price line reports the price with two decimals and thousands
    separators, or its absence; the sentiment line reports the value
    with its face and label, or its absence. *)
Theorem formatted_snapshot (E : env) (H : host) (w : world) :
  reachable E w ->
  exists snapshot w' price_text mood_text stamp,
    get_market_snapshot E w = (Ok snapshot, w') /\
    snapshot !! "timestamp" = Some (PStr stamp) /\
    snapshot_lines H snapshot =
      Ok [ "📊 *Crypto Market Snapshot*"; "━━━━━━━━━━━━━━━━━━━━━━━━";
           price_text; mood_text; "⏰ _" +:+ stamp +:+ "_" ] /\
    format_snapshot H snapshot =
      Ok ("📊 *Crypto Market Snapshot*" +:+ newline +:+
          "━━━━━━━━━━━━━━━━━━━━━━━━" +:+ newline +:+
          price_text +:+ newline +:+ mood_text +:+ newline +:+
          "⏰ _" +:+ stamp +:+ "_") /\
    ((snapshot !! "btc_price" = Some PNone /\
      price_text = "💰 BTC: _недоступно_") \/
     (exists f, float_gt_zero f = true /\
        snapshot !! "btc_price" = Some (PFloat f) /\
        price_text = "💰 BTC: *$" +:+ format_2f f +:+ "*")) /\
    ((snapshot !! "fear_value" = Some PNone /\
      mood_text = "😱 Fear & Greed: _недоступно_") \/
     (exists n, 0 <= n <= 100 /\
        snapshot !! "fear_value" = Some (PInt n) /\
        mood_text = mood_emoji n +:+ " Fear & Greed: *" +:+ decimal n +:+
                    "* (" +:+ threshold_label n +:+ ")")).
Proof.
  intros Hreach.
  destruct (get_market_snapshot_run E w (reachable_inv E w Hreach))
    as (price & w1 & fv & fl & w2 & _ & _ & Hrun & _ & Hprice & Hfields).
  assert (Hpl : exists price_text,
            price_line price = Ok price_text /\
            ((price = PNone /\ price_text = "💰 BTC: _недоступно_") \/
             (exists f, float_gt_zero f = true /\ price = PFloat f /\
                price_text = "💰 BTC: *$" +:+ format_2f f +:+ "*"))).
  { destruct Hprice as [->|(f & -> & Hpos)].
    - eexists. split; [reflexivity|]. left. auto.
    - eexists. split; [apply price_line_positive; assumption|].
      right. exists f. auto. }
  destruct Hpl as (price_text & Hpl & Hpcase).
  assert (Hml : exists mood_text,
            mood_line H fv fl = Ok mood_text /\
            ((fv = PNone /\ mood_text = "😱 Fear & Greed: _недоступно_") \/
             (exists n, 0 <= n <= 100 /\ fv = PInt n /\
                mood_text = mood_emoji n +:+ " Fear & Greed: *" +:+
                            decimal n +:+ "* (" +:+ threshold_label n +:+ ")"))).
  { destruct Hfields as [[-> ->]|(n & Hn & -> & ->)].
    - eexists. split; [reflexivity|]. left. auto.
    - eexists. split; [apply mood_line_int|]. right. exists n. auto. }
  destruct Hml as (mood_text & Hml & Hmcase).
  eexists _, _, price_text, mood_text, _.
  split; [exact Hrun|]. split; [reflexivity|].
  assert (Hlines :
    snapshot_lines H
      (<["timestamp" := PStr (now_strftime E (ticks w2) "%Y-%m-%d %H:%M:%S")]>
       (<["fear_label" := fl]> (<["fear_value" := fv]>
       (<["btc_price" := price]> ∅)))) =
    Ok [ "📊 *Crypto Market Snapshot*"; "━━━━━━━━━━━━━━━━━━━━━━━━";
         price_text; mood_text;
         "⏰ _" +:+ now_strftime E (ticks w2) "%Y-%m-%d %H:%M:%S" +:+ "_" ]).
  { unfold snapshot_lines, time_line, dict_get_or.
    change ((<["timestamp" := PStr (now_strftime E (ticks w2) "%Y-%m-%d %H:%M:%S")]>
       (<["fear_label" := fl]> (<["fear_value" := fv]>
       (<["btc_price" := price]> (∅ : gmap string pyval))))) !! "btc_price")
      with (Some price).
    change ((<["timestamp" := PStr (now_strftime E (ticks w2) "%Y-%m-%d %H:%M:%S")]>
       (<["fear_label" := fl]> (<["fear_value" := fv]>
       (<["btc_price" := price]> (∅ : gmap string pyval))))) !! "fear_value")
      with (Some fv).
    change ((<["timestamp" := PStr (now_strftime E (ticks w2) "%Y-%m-%d %H:%M:%S")]>
       (<["fear_label" := fl]> (<["fear_value" := fv]>
       (<["btc_price" := price]> (∅ : gmap string pyval))))) !! "fear_label")
      with (Some fl).
    change ((<["timestamp" := PStr (now_strftime E (ticks w2) "%Y-%m-%d %H:%M:%S")]>
       (<["fear_label" := fl]> (<["fear_value" := fv]>
       (<["btc_price" := price]> (∅ : gmap string pyval))))) !! "timestamp")
      with (Some (PStr (now_strftime E (ticks w2) "%Y-%m-%d %H:%M:%S"))).
    cbv beta iota. rewrite Hpl. simpl and_then. rewrite Hml. reflexivity. }
  split; [exact Hlines|].
  split; [unfold format_snapshot; rewrite Hlines; reflexivity|].
  split.
  - destruct Hpcase as [[-> ->]|(f & Hpos & -> & ->)]; [left; auto|].
    right. exists f. auto.
  - destruct Hmcase as [[-> ->]|(n & Hn & -> & ->)]; [left; auto|].
    right. exists n. auto.
Qed.

Lemma formatted_snapshot_witness :
  exists text, format_snapshot friendly_host calm_snapshot = Ok text.
Proof.
  destruct (formatted_snapshot calm_env friendly_host startup
              (reach_startup calm_env))
    as (snapshot & w' & pt & mt & stamp & Hrun & _ & _ & Hfmt & _).
  assert (Hsnap : snapshot = calm_snapshot).
  { unfold calm_snapshot, calm_first. rewrite Hrun. reflexivity. }
  rewrite <- Hsnap. eauto.
Defined.

(** X12. The faces follow their own bands, 0-39, 40-59 and 60-100,
    which are not those of the labels: every "Extreme Fear" reading gets
    the fearful face, every "Neutral" one the neutral face and every
    "Extreme Greed" one the greedy face, but "Fear" readings from 40 to
    45 and "Greed" readings from 56 to 59 get the neutral face. *)
Theorem faces_and_labels (H : host) (n : Z) :
  0 <= n <= 100 ->
  mood_line H (PInt n) (PStr (threshold_label n)) =
    Ok (mood_emoji n +:+ " Fear & Greed: *" +:+ decimal n +:+
        "* (" +:+ threshold_label n +:+ ")") /\
  (n <= 25 -> threshold_label n = "Extreme Fear" /\ mood_emoji n = "😨") /\
  (26 <= n <= 39 -> threshold_label n = "Fear" /\ mood_emoji n = "😨") /\
  (40 <= n <= 45 -> threshold_label n = "Fear" /\ mood_emoji n = "😐") /\
  (46 <= n <= 55 -> threshold_label n = "Neutral" /\ mood_emoji n = "😐") /\
  (56 <= n <= 59 -> threshold_label n = "Greed" /\ mood_emoji n = "😐") /\
  (60 <= n <= 75 -> threshold_label n = "Greed" /\ mood_emoji n = "🤑") /\
  (76 <= n -> threshold_label n = "Extreme Greed" /\ mood_emoji n = "🤑").
Proof.
  intros Hrange. split; [apply mood_line_int|].
  pose proof (threshold_label_cases n) as Hlabel.
  assert (Hface : (n < 40 /\ mood_emoji n = "😨") \/
                  (40 <= n < 60 /\ mood_emoji n = "😐") \/
                  (60 <= n /\ mood_emoji n = "🤑")).
  { unfold mood_emoji.
    destruct (Z.ltb_spec n 40); [left; auto|].
    destruct (Z.ltb_spec n 60); [right; left; auto|].
    right; right. auto. }
  repeat split;
    try (destruct Hlabel as [[? ?]|[[? ?]|[[? ?]|[[? ?]|[? ?]]]]];
         (assumption || lia));
    destruct Hface as [[? ?]|[[? ?]|[? ?]]]; (assumption || lia).
Qed.

Lemma faces_and_labels_witness :
  threshold_label 42 = "Fear" /\ mood_emoji 42 = "😐".
Proof.
  destruct (faces_and_labels friendly_host 42) as (_ & _ & _ & Hmid & _);
    [lia|]. apply Hmid. lia.
Defined.

Lemma truthy_price_line (btc : pyval) :
  truthy btc = true ->
  price_line btc <> Ok "💰 BTC: _недоступно_".
Proof.
  intros Htrue Heq. unfold price_line in Heq. rewrite Htrue in Heq.
  destruct (format_money btc) as [s|e]; simpl in Heq; [|discriminate].
  injection Heq as Heq. repeat rewrite append_cons in Heq. discriminate.
Qed.

Lemma mood_line_of_value (H : host) (fg_val fg_lbl : pyval) :
  fg_val <> PNone ->
  mood_line H fg_val fg_lbl <> Ok "😱 Fear & Greed: _недоступно_".
Proof.
  intros Hsome Heq. unfold mood_line in Heq.
  destruct fg_val as [|b|z|f|s|items|items|entries];
    try contradiction; unfold py_lt_int, and_then in Heq; try discriminate;
    repeat match type of Heq with
           | context [if ?c then _ else _] => destruct c
           end;
    injection Heq as Heq; repeat rewrite append_cons in Heq; discriminate.
Qed.

Lemma price_line_total (btc : pyval) :
  truthy btc = false \/ (exists f, btc = PFloat f) ->
  exists price_text, price_line btc = Ok price_text.
Proof.
  unfold price_line. intros [->|[f ->]]; [eexists; reflexivity|].
  destruct (truthy (PFloat f)); eexists; reflexivity.
Qed.

(** X13. On any dict.  The price is reported as unavailable exactly
    when it is falsy, which a missing price, [None], the integer 0 and a
    float zero are.  The sentiment value is reported as unavailable
    exactly when it is missing or [None]; every integer, 0 included, is
    reported with its face.  A missing timestamp is shown as N/A, a
    string as it is.  The formatter returns a text whenever the price is
    falsy or a float and the value is absent or an integer; it raises
    [ValueError] on a price that is a non-empty string, and, when the
    price is falsy or a float, [TypeError] on a value that is a
    string. *)
Theorem formatter_on_any_dict (H : host) (data : gmap string pyval) :
  let btc := dict_get_or PNone "btc_price" data in
  let fg_val := dict_get_or PNone "fear_value" data in
  let fg_lbl := dict_get_or PNone "fear_label" data in
  (price_line btc = Ok "💰 BTC: _недоступно_" <-> truthy btc = false) /\
  ((data !! "btc_price" = None \/ btc = PNone \/ btc = PInt 0 \/
    exists sign, btc = PFloat (S754_zero sign)) ->
   truthy btc = false) /\
  (mood_line H fg_val fg_lbl = Ok "😱 Fear & Greed: _недоступно_" <->
   data !! "fear_value" = None \/ data !! "fear_value" = Some PNone) /\
  (forall n, fg_val = PInt n ->
   mood_line H fg_val fg_lbl =
     Ok (mood_emoji n +:+ " Fear & Greed: *" +:+ decimal n +:+
         "* (" +:+ py_str H fg_lbl +:+ ")")) /\
  (fg_val = PInt 0 ->
   mood_line H fg_val fg_lbl =
     Ok ("😨 Fear & Greed: *0* (" +:+ py_str H fg_lbl +:+ ")")) /\
  (data !! "timestamp" = None -> time_line H data = "⏰ _N/A_") /\
  (forall stamp, data !! "timestamp" = Some (PStr stamp) ->
   time_line H data = "⏰ _" +:+ stamp +:+ "_") /\
  ((truthy btc = false \/ exists f, btc = PFloat f) ->
   (fg_val = PNone \/ exists n, fg_val = PInt n) ->
   exists text, format_snapshot H data = Ok text) /\
  (forall s, btc = PStr s -> s <> EmptyString ->
   format_snapshot H data = Raised ValueError) /\
  (forall s, (truthy btc = false \/ exists f, btc = PFloat f) ->
   fg_val = PStr s ->
   format_snapshot H data = Raised TypeError).
Proof.
  intros btc fg_val fg_lbl.
  split.
  { split.
    - intros Heq. destruct (truthy btc) eqn:Htruthy; [|reflexivity].
      exfalso. exact (truthy_price_line btc Htruthy Heq).
    - intros Hfalsy. unfold price_line. rewrite Hfalsy. reflexivity. }
  split.
  { intros [Hmissing|[->|[->|[sign ->]]]]; try reflexivity.
    subst btc. unfold dict_get_or. rewrite Hmissing. reflexivity. }
  split.
  { split.
    - intros Heq. subst fg_val. unfold dict_get_or in Heq.
      destruct (data !! "fear_value") as [v|]; [|left; reflexivity].
      right. f_equal.
      destruct v as [|b|z|f|s|items|items|entries]; [reflexivity|..];
        exfalso; refine (mood_line_of_value H _ fg_lbl _ Heq); discriminate.
    - intros Habsent. subst fg_val. unfold dict_get_or.
      destruct Habsent as [-> | ->]; reflexivity. }
  split; [intros n ->; apply mood_line_int|].
  split; [intros ->; rewrite mood_line_int; reflexivity|].
  split.
  { intros Hmissing. unfold time_line, dict_get_or. rewrite Hmissing.
    reflexivity. }
  split.
  { intros stamp Hstamp. unfold time_line, dict_get_or. rewrite Hstamp.
    reflexivity. }
  split.
  { intros Hbtc Hval. unfold format_snapshot, snapshot_lines. fold btc fg_val fg_lbl.
    destruct (price_line_total btc Hbtc) as [pt ->].
    assert (Hm : exists mt, mood_line H fg_val fg_lbl = Ok mt).
    { destruct Hval as [->|[n ->]]; [eexists; reflexivity|].
      rewrite mood_line_int. eexists; reflexivity. }
    destruct Hm as [mt Hm]. simpl and_then.
    rewrite Hm. simpl. eauto. }
  split.
  - intros s Hs Hne. unfold format_snapshot, snapshot_lines. fold btc.
    rewrite Hs. unfold price_line. simpl truthy.
    destruct (String.eqb_spec s ""); [contradiction|]. reflexivity.
  - intros s Hbtc Hs. unfold format_snapshot, snapshot_lines.
    fold btc fg_val fg_lbl.
    destruct (price_line_total btc Hbtc) as [pt ->]. rewrite Hs. reflexivity.
Qed.

Lemma formatter_on_any_dict_witness :
  format_snapshot friendly_host
    (<["fear_value" := PStr "high"]> (<["btc_price" := PFloat sample_price]> ∅))
  = Raised TypeError.
Proof.
  destruct (formatter_on_any_dict friendly_host
              (<["fear_value" := PStr "high"]>
                 (<["btc_price" := PFloat sample_price]> ∅)))
    as (_ & _ & _ & _ & _ & _ & _ & _ & _ & Hvalue).
  apply (Hvalue "high").
  - right. exists sample_price. reflexivity.
  - reflexivity.
Defined.

(** ** The command handlers *)

Section HandlerFacts.

Variable E : env.
Variable H : host.

Lemma bot_api_ok (c : bot_call) (s : session) :
  api_error H (List.length (calls s)) c = None ->
  bot_api H c s = (Ok tt, {| core := core s; calls := calls s ++ [c] |}).
Proof. intros Hok. unfold bot_api. rewrite Hok. reflexivity. Qed.

Lemma bot_api_raises (c : bot_call) (s : session) (e : exn) :
  api_error H (List.length (calls s)) c = Some e ->
  bot_api H c s = (Raised e, {| core := core s; calls := calls s ++ [c] |}).
Proof. intros Hbad. unfold bot_api. rewrite Hbad. reflexivity. Qed.

(** [cmd_status] once the typing notice is out and the composer has
    returned [data]. *)
Lemma cmd_status_after_fetch (m : message) (s : session)
    (data : gmap string pyval) (w' : world) :
  api_error H (List.length (calls s)) (typing_notice m) = None ->
  get_market_snapshot E (core s) = (Ok data, w') ->
  cmd_status E H m s =
  let s1 := {| core := w'; calls := calls s ++ [typing_notice m] |} in
  if truthy (dict_get_or PNone "btc_price" data)
     || truthy (dict_get_or PNone "fear_value" data)
  then
    match format_snapshot H data with
    | Ok text => bot_api H (reply_to m text) s1
    | Raised e => (Raised e, s1)
    end
  else bot_api H (reply_to m unavailable_text) s1.
Proof.
  intros Hok Hrun. unfold cmd_status, hbind.
  fold (typing_notice m). rewrite (bot_api_ok _ s Hok).
  unfold in_core at 1. cbn [core calls]. rewrite Hrun. cbv zeta.
  destruct (truthy (dict_get_or PNone "btc_price" data)
            || truthy (dict_get_or PNone "fear_value" data)).
  - unfold in_core, lift. cbn [core calls].
    destruct (format_snapshot H data); reflexivity.
  - reflexivity.
Qed.

Lemma format_snapshot_accepts (data : gmap string pyval) :
  (dict_get_or PNone "btc_price" data = PNone \/
   exists f, dict_get_or PNone "btc_price" data = PFloat f) ->
  (dict_get_or PNone "fear_value" data = PNone \/
   exists n, dict_get_or PNone "fear_value" data = PInt n) ->
  exists text, format_snapshot H data = Ok text.
Proof.
  intros Hbtc Hval. unfold format_snapshot, snapshot_lines.
  assert (Hp : exists pt,
            price_line (dict_get_or PNone "btc_price" data) = Ok pt).
  { destruct Hbtc as [->|[f ->]]; [eexists; reflexivity|].
    unfold price_line. destruct (truthy (PFloat f)); eexists; reflexivity. }
  assert (Hm : exists mt,
            mood_line H (dict_get_or PNone "fear_value" data)
              (dict_get_or PNone "fear_label" data) = Ok mt).
  { destruct Hval as [->|[n ->]]; [eexists; reflexivity|].
    rewrite mood_line_int. eexists; reflexivity. }
  destruct Hp as [pt ->]. destruct Hm as [mt Hm]. simpl and_then.
  rewrite Hm. simpl. eauto.
Qed.

(** The composer's snapshot, for a cache that satisfies the invariant,
    with the fields as [dict.get] reads them. *)
Lemma composer_fields (w : world) :
  cache_inv (cache w) ->
  exists snapshot w' price fv,
    get_market_snapshot E w = (Ok snapshot, w') /\
    dict_get_or PNone "btc_price" snapshot = price /\
    dict_get_or PNone "fear_value" snapshot = fv /\
    (price = PNone \/ price_entry price) /\
    (fv = PNone \/ exists n, 0 <= n <= 100 /\ fv = PInt n).
Proof.
  intros Hinv.
  destruct (get_market_snapshot_run E w Hinv)
    as (price & w1 & fv & fl & w2 & _ & _ & Hrun & _ & Hprice & Hfields).
  eexists _, _, price, fv. split; [exact Hrun|].
  split; [reflexivity|]. split; [reflexivity|]. split; [exact Hprice|].
  destruct Hfields as [[-> _]|(n & Hn & -> & _)]; [left; auto|].
  right. exists n. auto.
Qed.

End HandlerFacts.

(** X14. When Telegram accepts the two calls, [cmd_status] on a
    reachable core sends the typing notice, runs the composer once and
    sends one message to the chat of the request.  The message is the
    notice that the sources are unavailable exactly when the price is
    absent and the sentiment value is absent or 0; otherwise it is the
    formatted snapshot.  So a reading of 0 without a price is answered
    with the notice, although the formatter would have shown it. *)
Theorem status_reply (E : env) (H : host) (m : message) (s : session) :
  reachable E (core s) ->
  api_error H (List.length (calls s)) (typing_notice m) = None ->
  (forall text,
      api_error H (S (List.length (calls s))) (reply_to m text) = None) ->
  exists snapshot w' text,
    get_market_snapshot E (core s) = (Ok snapshot, w') /\
    cmd_status E H m s =
      (Ok tt, {| core := w';
                 calls := calls s ++ [typing_notice m; reply_to m text] |}) /\
    let price := dict_get_or PNone "btc_price" snapshot in
    let fv := dict_get_or PNone "fear_value" snapshot in
    ((price = PNone /\ (fv = PNone \/ fv = PInt 0)) /\
     text = unavailable_text
     \/
     (price <> PNone \/ (fv <> PNone /\ fv <> PInt 0)) /\
     format_snapshot H snapshot = Ok text).
Proof.
  intros Hreach Htyping Hreply.
  destruct (composer_fields E (core s) (reachable_inv E _ Hreach))
    as (snapshot & w' & price & fv & Hrun & Hp & Hv & Hprice & Hval).
  destruct (format_snapshot_accepts H snapshot) as [formatted Hfmt].
  { rewrite Hp. destruct Hprice as [->|(f & -> & _)]; eauto. }
  { rewrite Hv. destruct Hval as [->|(n & _ & ->)]; eauto. }
  pose proof (cmd_status_after_fetch E H m s snapshot w' Htyping Hrun) as Hcmd.
  cbv zeta in Hcmd. rewrite Hp, Hv, Hfmt in Hcmd.
  assert (Hsent : forall text,
    bot_api H (reply_to m text)
      {| core := w'; calls := calls s ++ [typing_notice m] |} =
    (Ok tt, {| core := w';
               calls := calls s ++ [typing_notice m; reply_to m text] |})).
  { intros text. rewrite bot_api_ok.
    - cbn [core calls]. rewrite <- app_assoc. reflexivity.
    - cbn [calls]. rewrite length_app. simpl.
      replace (List.length (calls s) + 1)%nat with (S (List.length (calls s)))
        by lia.
      apply Hreply. }
  rewrite !Hsent in Hcmd.
  destruct (truthy price || truthy fv) eqn:Hany.
  - exists snapshot, w', formatted. split; [exact Hrun|]. split; [exact Hcmd|].
    cbv zeta. rewrite Hp, Hv. right. split; [|exact Hfmt].
    apply orb_true_iff in Hany as [Ht|Ht].
    + left. intros ->. discriminate.
    + right. split; intros ->; discriminate.
  - exists snapshot, w', unavailable_text.
    split; [exact Hrun|]. split; [exact Hcmd|].
    cbv zeta. rewrite Hp, Hv. left. split; [|reflexivity].
    apply orb_false_iff in Hany as [Ht1 Ht2]. split.
    + destruct Hprice as [->|Hentry]; [reflexivity|].
      rewrite (price_entry_truthy price Hentry) in Ht1. discriminate.
    + destruct Hval as [->|(n & _ & ->)]; [left; reflexivity|].
      right. simpl in Ht2. destruct (Z.eqb_spec n 0); [subst; reflexivity|].
      discriminate.
Qed.

Lemma status_reply_witness :
  exists w',
    cmd_status zero_env friendly_host {| msg_chat_id := 7 |} fresh_session =
    (Ok tt, {| core := w';
               calls := [SendChatAction 7 "typing";
                         SendMessage 7 unavailable_text "Markdown"] |}) /\
    cache w' !! "fear_greed" = Some (PTuple [PInt 0; PStr "Extreme Fear"], 0).
Proof.
  destruct (status_reply zero_env friendly_host {| msg_chat_id := 7 |}
              fresh_session (reach_startup zero_env) eq_refl
              (fun _ => eq_refl))
    as (snapshot & w' & text & Hrun & Hcmd & Hcase).
  assert (Hw : w' = snd (get_market_snapshot zero_env startup)).
  { change (core fresh_session) with startup in Hrun. rewrite Hrun. reflexivity. }
  assert (Hs : snapshot =
               match fst (get_market_snapshot zero_env startup) with
               | Ok d => d | Raised _ => ∅ end).
  { change (core fresh_session) with startup in Hrun. rewrite Hrun. reflexivity. }
  cbv zeta in Hcase. destruct Hcase as [[_ ->]|[Hsome _]].
  - exists w'. split; [exact Hcmd|]. rewrite Hw. vm_compute. reflexivity.
  - exfalso. rewrite Hs in Hsome. vm_compute in Hsome.
    destruct Hsome as [Hp|[_ Hv]]; [apply Hp|apply Hv]; reflexivity.
Defined.

(** X15. [cmd_status] catches nothing that Telegram raises.  When the
    typing notice fails, the exception leaves the handler before any
    data is fetched: the core is untouched.  When the reply fails, the
    exception leaves the handler after the fetch: the composer has run
    and its effect on the core stays. *)
Theorem status_telegram_failures (E : env) (H : host) (m : message)
    (s : session) (e : exn) :
  (api_error H (List.length (calls s)) (typing_notice m) = Some e ->
   cmd_status E H m s =
   (Raised e, {| core := core s; calls := calls s ++ [typing_notice m] |})) /\
  (reachable E (core s) ->
   api_error H (List.length (calls s)) (typing_notice m) = None ->
   (forall text,
       api_error H (S (List.length (calls s))) (reply_to m text) = Some e) ->
   exists text,
     cmd_status E H m s =
     (Raised e,
      {| core := snd (get_market_snapshot E (core s));
         calls := calls s ++ [typing_notice m; reply_to m text] |})).
Proof.
  split.
  - intros Hbad. unfold cmd_status, hbind. fold (typing_notice m).
    rewrite (bot_api_raises H _ s e Hbad). reflexivity.
  - intros Hreach Htyping Hreply.
    destruct (composer_fields E (core s) (reachable_inv E _ Hreach))
      as (snapshot & w' & price & fv & Hrun & Hp & Hv & Hprice & Hval).
    destruct (format_snapshot_accepts H snapshot) as [formatted Hfmt].
    { rewrite Hp. destruct Hprice as [->|(f & -> & _)]; eauto. }
    { rewrite Hv. destruct Hval as [->|(n & _ & ->)]; eauto. }
    rewrite (cmd_status_after_fetch E H m s snapshot w' Htyping Hrun).
    cbv zeta. rewrite Hfmt, Hrun. simpl snd.
    assert (Hfail : forall text,
      bot_api H (reply_to m text)
        {| core := w'; calls := calls s ++ [typing_notice m] |} =
      (Raised e, {| core := w';
                    calls := calls s ++ [typing_notice m; reply_to m text] |})).
    { intros text. rewrite (bot_api_raises H _ _ e).
      - cbn [core calls]. rewrite <- app_assoc. reflexivity.
      - cbn [calls]. rewrite length_app. simpl.
        replace (List.length (calls s) + 1)%nat
          with (S (List.length (calls s))) by lia.
        apply Hreply. }
    rewrite !Hfail.
    destruct (truthy (dict_get_or PNone "btc_price" snapshot)
              || truthy (dict_get_or PNone "fear_value" snapshot)); eauto.
Qed.

Lemma status_telegram_failures_witness :
  cmd_status calm_env deaf_host {| msg_chat_id := 7 |} fresh_session =
  (Raised ConnectionError,
   {| core := startup; calls := [SendChatAction 7 "typing"] |}).
Proof.
  apply (status_telegram_failures calm_env deaf_host {| msg_chat_id := 7 |}
           fresh_session ConnectionError).
  reflexivity.
Defined.

(** X16. No handler addresses a chat other than the one the request
    came from.  [cmd_start] and [cmd_help] make one call, the message to
    that chat, and leave the core alone; [cmd_status] makes at most two
    calls, both to that chat, whatever the state of the core and
    whatever Telegram does. *)
Theorem handlers_answer_the_sender (E : env) (H : host) (m : message)
    (s : session) :
  (calls (snd (cmd_start H m s)) = (calls s ++ [reply_to m start_text])%list /\
   core (snd (cmd_start H m s)) = core s) /\
  (calls (snd (cmd_help H m s)) = (calls s ++ [reply_to m help_text])%list /\
   core (snd (cmd_help H m s)) = core s) /\
  (exists new,
     calls (snd (cmd_status E H m s)) = (calls s ++ new)%list /\
     Forall (to_chat (msg_chat_id m)) new /\
     (List.length new <= 2)%nat).
Proof.
  split; [|split].
  - unfold cmd_start, bot_api, reply_to.
    destruct (api_error H _ _); simpl; auto.
  - unfold cmd_help, bot_api, reply_to.
    destruct (api_error H _ _); simpl; auto.
  - assert (Hone : Forall (to_chat (msg_chat_id m)) [typing_notice m]).
    { repeat constructor. }
    assert (Htwo : forall text,
               Forall (to_chat (msg_chat_id m))
                 [typing_notice m; reply_to m text]).
    { intros text. repeat constructor. }
    unfold cmd_status, hbind. fold (typing_notice m).
    unfold bot_api at 1.
    destruct (api_error H (List.length (calls s)) (typing_notice m)).
    { exists [typing_notice m]. simpl. auto. }
    unfold in_core at 1. cbn [core calls].
    destruct (get_market_snapshot E (core s)) as [[data|e] w'].
    2:{ exists [typing_notice m]. simpl. auto. }
    assert (Hsend : forall text,
      exists new,
        calls (snd (bot_api H (SendMessage (msg_chat_id m) text "Markdown")
                      {| core := w'; calls := calls s ++ [typing_notice m] |})) =
        (calls s ++ new)%list /\
        Forall (to_chat (msg_chat_id m)) new /\ (List.length new <= 2)%nat).
    { intros text. exists [typing_notice m; reply_to m text].
      unfold bot_api. destruct (api_error H _ _); simpl;
        rewrite <- app_assoc; simpl; auto. }
    destruct (truthy (dict_get_or PNone "btc_price" data)
              || truthy (dict_get_or PNone "fear_value" data)).
    + unfold in_core, lift. cbn [core calls].
      destruct (format_snapshot H data) as [text|e]; [apply Hsend|].
      exists [typing_notice m]. simpl. auto.
    + apply Hsend.
Qed.

(** ** Start-up *)

Lemma banner_world_inv (H : host) : cache_inv (cache (banner_world H)).
Proof. apply cache_inv_empty. Qed.

(** X17. [main] at the start of the process.  When [get_me] raises [e],
    [main] prints, after its banner, ["❌ Ошибка: "] followed by [str(e)],
    the message of the exception, and returns: no request goes to a data
    source, the cache stays empty and polling is not started.  When
    [get_me] and [infinity_polling] do not raise, [main] runs the
    composer once and starts polling whatever the self-check found; a
    self-check without a price only changes the line that is printed. *)
Theorem main_start (E : env) (H : host) :
  (forall e, api_error H 0 GetMe = Some e ->
     exists w,
       main E H fresh_session = (Ok tt, {| core := w; calls := [GetMe] |}) /\
       sent w = [] /\ cache w = ∅ /\
       stdout w = [ repeat_string "=" 40; "🚀 Crypto Market Bot";
                    repeat_string "=" 40; "❌ Ошибка: " +:+ exn_str E 3 e ]) /\
  (api_error H 0 GetMe = None ->
   api_error H 1 InfinityPolling = None ->
   exists snapshot w',
     get_market_snapshot E (banner_world H) = (Ok snapshot, w') /\
     main E H fresh_session =
       (Ok tt, {| core := emit (self_check_line H snapshot) w';
                  calls := [GetMe; InfinityPolling] |})).
Proof.
  split.
  - intros e Hbad. eexists. split.
    + unfold main, hbind, handler_try, hprint, in_core, py_print, str_exn,
        bot_api, hret.
      cbn [core calls fresh_session List.length]. rewrite Hbad.
      cbn [core calls]. reflexivity.
    + auto.
  - intros Hme Hpoll.
    destruct (composer_fields E (banner_world H) (banner_world_inv H))
      as (snapshot & w' & price & fv & Hrun & _).
    exists snapshot, w'. split; [exact Hrun|].
    unfold main, hbind, handler_try, hprint, in_core, py_print, bot_api, hret.
    cbn [core calls fresh_session List.length]. rewrite Hme.
    cbn [core calls app List.length].
    fold (banner_world H). rewrite Hrun.
    unfold self_check_line.
    destruct (truthy (dict_get_or PNone "btc_price" snapshot));
      cbn [core calls app List.length]; rewrite Hpoll; reflexivity.
Qed.

Lemma main_start_witness :
  exists w,
    main calm_env deaf_host fresh_session =
      (Ok tt, {| core := w; calls := [GetMe] |}) /\
    sent w = [] /\ cache w = ∅ /\
    stdout w = [ repeat_string "=" 40; "🚀 Crypto Market Bot";
                 repeat_string "=" 40;
                 "❌ Ошибка: " +:+ sample_message ConnectionError ].
Proof.
  apply (main_start calm_env deaf_host). reflexivity.
Defined.

(** X19. The token the process starts with is the value of BOT_TOKEN
    in the environment or, when the environment has no such variable,
    the one in the [.env] file, and it must not be empty; in every other
    case the start ends with [ValueError].  In particular a BOT_TOKEN
    that is set but empty in the environment is not replaced by the one
    in the file. *)
Theorem token_resolution (environ dotenv : gmap string string) (token : string) :
  (load_token environ dotenv = Ok token <->
   token <> EmptyString /\
   (environ !! "BOT_TOKEN" = Some token \/
    (environ !! "BOT_TOKEN" = None /\ dotenv !! "BOT_TOKEN" = Some token))) /\
  (load_token environ dotenv = Ok token \/
   load_token environ dotenv = Raised ValueError \/
   exists other, load_token environ dotenv = Ok other) /\
  (environ !! "BOT_TOKEN" = Some EmptyString ->
   load_token environ dotenv = Raised ValueError).
Proof.
  unfold load_token, load_dotenv.
  assert (Hlook : (environ ∪ dotenv) !! "BOT_TOKEN" =
                  match environ !! "BOT_TOKEN" with
                  | Some v => Some v
                  | None => dotenv !! "BOT_TOKEN"
                  end).
  { rewrite lookup_union. destruct (environ !! "BOT_TOKEN");
      destruct (dotenv !! "BOT_TOKEN"); reflexivity. }
  rewrite Hlook. split; [|split].
  - destruct (environ !! "BOT_TOKEN") as [v|] eqn:Henv;
      [|destruct (dotenv !! "BOT_TOKEN") as [v|] eqn:Hdot]; simpl.
    + destruct (String.eqb_spec v ""); simpl; split.
      * discriminate.
      * intros [Hne [[= ->]|[[=] _]]]. contradiction.
      * intros [= <-]. auto.
      * intros [_ [[= ->]|[[=] _]]]. reflexivity.
    + destruct (String.eqb_spec v ""); simpl; split.
      * discriminate.
      * intros [Hne [[=]|[_ [= ->]]]]. contradiction.
      * intros [= <-]. auto.
      * intros [_ [[=]|[_ [= ->]]]]. reflexivity.
    + split; [discriminate|]. intros [_ [[=]|[_ [=]]]].
  - destruct (match environ !! "BOT_TOKEN" with
              | Some v => Some v
              | None => dotenv !! "BOT_TOKEN"
              end) as [v|]; simpl; [|auto].
    destruct (String.eqb_spec v ""); simpl; eauto.
  - intros ->. reflexivity.
Qed.

Lemma token_resolution_witness :
  load_token {["BOT_TOKEN" := ""]} {["BOT_TOKEN" := "123:abc"]} =
  Raised ValueError.
Proof.
  apply (token_resolution {["BOT_TOKEN" := ""]} {["BOT_TOKEN" := "123:abc"]} "").
  reflexivity.
Defined.

(** ** The first status request after the start *)

Section WarmStart.

Variable E : env.
Variable H : host.

(** The composer when both fetchers are served from the cache. *)
Lemma snapshot_from_cache (w : world) (p fg fv fl : pyval) (tp ts : Z) :
  cache w !! "btc_price" = Some (p, tp) ->
  cache w !! "fear_greed" = Some (fg, ts) ->
  truthy p = true -> truthy fg = true ->
  unpack2 fg = Ok (fv, fl) ->
  time_time E (ticks w) - tp < CACHE_TTL ->
  time_time E (S (ticks w)) - ts < CACHE_TTL ->
  get_market_snapshot E w =
  (Ok (snapshot_of p fv fl (now_strftime E (S (S (ticks w))) strftime_format)),
   tick (tick (tick w))).
Proof.
  intros Hp Hs Htp Hts Hun Hagep Hages.
  destruct (hit_of_fresh E "btc_price" w p tp Hp Hagep Htp) as (Hhit_p & Hval_p).
  assert (Hs' : cache (tick w) !! "fear_greed" = Some (fg, ts)) by exact Hs.
  destruct (hit_of_fresh E "fear_greed" (tick w) fg ts Hs' Hages Hts)
    as (Hhit_s & Hval_s).
  unfold get_market_snapshot, bind, lift.
  rewrite (fetch_btc_price_hit E w Hhit_p), Hval_p.
  rewrite (fetch_fear_greed_hit E (tick w) Hhit_s), Hval_s.
  rewrite Hun. reflexivity.
Qed.

(** The self-check of [main] when both sources answer. *)
Lemma self_check_run (price : spec_float) (text : list N) (v : Z) :
  ticker_delivers E (http_get E 0 ticker_request) price ->
  float_gt_zero price = true ->
  page_delivers E (http_get E 1 (html_request index_url)) text ->
  extracted_value text = Some v ->
  0 <= v <= 100 ->
  get_market_snapshot E (banner_world H) =
  (Ok (snapshot_of (PFloat price) (PInt v) (PStr (threshold_label v))
         (now_strftime E 2 strftime_format)),
   warm_world E H price v).
Proof.
  intros Hd Hpos Hpage Hv Hrange.
  set (w0 := banner_world H).
  assert (Hprice : fetch_btc_price E w0 =
            (Ok (PFloat price),
             store "btc_price" (PFloat price, time_time E 0)
               (tick (send ticker_request w0)))).
  { pose proof (fetch_btc_price_try_delivered E w0 price Hd) as Htry.
    rewrite Hpos in Htry.
    exact (fetch_btc_price_on_miss E w0 _ _ eq_refl Htry). }
  set (w1 := store "btc_price" (PFloat price, time_time E 0)
               (tick (send ticker_request w0))) in *.
  pose proof (fetch_fear_greed_delivered E w1 text eq_refl Hpage) as Hmood.
  cbv zeta in Hmood. rewrite Hv in Hmood.
  apply range_test in Hrange. rewrite Hrange in Hmood.
  unfold get_market_snapshot, bind, lift. rewrite Hprice, Hmood.
  reflexivity.
Qed.

End WarmStart.

(** X18. When Telegram answers and both sources answer the self-check
    of [main] with a positive price and a reading in range, a status
    request that follows while the two entries are younger than
    [CACHE_TTL] is answered from the cache: the only requests ever sent
    to the sources are the two of the self-check, and the reply is the
    formatted snapshot of the price and reading of the self-check. *)
Theorem first_status_from_cache (E : env) (H : host) (m : message)
    (price : spec_float) (text : list N) (v : Z) :
  api_error H 0 GetMe = None ->
  api_error H 1 InfinityPolling = None ->
  api_error H 2 (typing_notice m) = None ->
  (forall t, api_error H 3 (reply_to m t) = None) ->
  ticker_delivers E (http_get E 0 ticker_request) price ->
  float_gt_zero price = true ->
  page_delivers E (http_get E 1 (html_request index_url)) text ->
  extracted_value text = Some v ->
  0 <= v <= 100 ->
  time_time E 3 - time_time E 0 < CACHE_TTL ->
  time_time E 4 - time_time E 1 < CACHE_TTL ->
  let s1 := snd (main E H fresh_session) in
  let s2 := snd (cmd_status E H m s1) in
  sent (core s1) = [ticker_request; html_request index_url] /\
  sent (core s2) = sent (core s1) /\
  exists reply,
    format_snapshot H
      (snapshot_of (PFloat price) (PInt v) (PStr (threshold_label v))
         (now_strftime E 5 strftime_format)) = Ok reply /\
    calls s2 = [GetMe; InfinityPolling; typing_notice m; reply_to m reply].
Proof.
  intros Hme Hpoll Htyping Hreply Hd Hpos Hpage Hv Hrange Hage1 Hage2 s1 s2.
  pose proof (self_check_run E H price text v Hd Hpos Hpage Hv Hrange) as Hcheck.
  set (snap1 := snapshot_of (PFloat price) (PInt v) (PStr (threshold_label v))
                  (now_strftime E 2 strftime_format)) in *.
  set (w4 := emit (self_check_line H snap1) (warm_world E H price v)).
  assert (Hmain : main E H fresh_session =
            (Ok tt, {| core := w4; calls := [GetMe; InfinityPolling] |})).
  { unfold main, hbind, handler_try, hprint, in_core, py_print, bot_api, hret.
    cbn [core calls fresh_session List.length]. rewrite Hme.
    cbn [core calls app List.length].
    fold (banner_world H). rewrite Hcheck.
    fold (self_check_line H snap1).
    assert (Htruthy : truthy (dict_get_or PNone "btc_price" snap1) = true)
      by (apply (float_gt_zero_truthy price Hpos)).
    rewrite Htruthy. cbn [core calls app List.length]. rewrite Hpoll.
    unfold w4, self_check_line. rewrite Htruthy. reflexivity. }
  assert (Hs1 : s1 = {| core := w4; calls := [GetMe; InfinityPolling] |})
    by (unfold s1; rewrite Hmain; reflexivity).
  set (snap2 := snapshot_of (PFloat price) (PInt v) (PStr (threshold_label v))
                  (now_strftime E 5 strftime_format)).
  assert (Hsecond : get_market_snapshot E w4 = (Ok snap2, tick (tick (tick w4)))).
  { apply (snapshot_from_cache E w4 (PFloat price)
             (PTuple [PInt v; PStr (threshold_label v)]) (PInt v)
             (PStr (threshold_label v)) (time_time E 0) (time_time E 1)).
    - reflexivity.
    - reflexivity.
    - apply float_gt_zero_truthy. assumption.
    - reflexivity.
    - reflexivity.
    - exact Hage1.
    - exact Hage2. }
  destruct (format_snapshot_accepts H snap2) as [reply Hfmt].
  { right. exists price. reflexivity. }
  { right. exists v. reflexivity. }
  assert (Hstatus : cmd_status E H m s1 =
            (Ok tt, {| core := tick (tick (tick w4));
                       calls := [GetMe; InfinityPolling; typing_notice m;
                                 reply_to m reply] |})).
  { rewrite Hs1.
    rewrite (cmd_status_after_fetch E H m
               {| core := w4; calls := [GetMe; InfinityPolling] |}
               snap2 (tick (tick (tick w4))) Htyping Hsecond).
    cbv zeta.
    assert (Htruthy : truthy (dict_get_or PNone "btc_price" snap2) = true)
      by (apply (float_gt_zero_truthy price Hpos)).
    rewrite Htruthy, Hfmt. cbn [orb calls].
    rewrite bot_api_ok; [reflexivity|]. apply Hreply. }
  split; [rewrite Hs1; reflexivity|].
  split.
  - unfold s2. rewrite Hstatus, Hs1. reflexivity.
  - exists reply. split; [exact Hfmt|].
    unfold s2. rewrite Hstatus. reflexivity.
Qed.

Lemma first_status_from_cache_witness :
  sent (core (snd (main calm_env friendly_host fresh_session))) =
    [ticker_request; html_request index_url] /\
  sent (core (snd (cmd_status calm_env friendly_host {| msg_chat_id := 7 |}
                     (snd (main calm_env friendly_host fresh_session))))) =
    sent (core (snd (main calm_env friendly_host fresh_session))).
Proof.
  assert (Hd : ticker_delivers calm_env (http_get calm_env 0 ticker_request)
                 sample_price).
  { exists 200, "(body)", (ticker_body (PFloat sample_price)),
      (PDict [("15m", PFloat sample_price); ("last", PFloat sample_price);
              ("symbol", PStr "$")]), (PFloat sample_price).
    repeat split; reflexivity. }
  assert (Hp : page_delivers calm_env
                 (http_get calm_env 1 (html_request index_url))
                 (codes "Crypto Fear & Greed Index  Now 38 (Fear)  Yesterday 40")).
  { exists 200, "(body)". repeat split; first [reflexivity | discriminate]. }
  assert (Hr : 0 <= 38 <= 100) by lia.
  destruct (first_status_from_cache calm_env friendly_host {| msg_chat_id := 7 |}
              sample_price _ 38 eq_refl eq_refl eq_refl (fun _ => eq_refl)
              Hd eq_refl Hp eq_refl Hr eq_refl eq_refl) as (H1 & H2 & _).
  split; assumption.
Defined.
